(** * Feature Flag Impact Analyzer: the agent of [src/agent.ts]

    A shallow embedding of the Durable Object [FeatureFlagAgent]: its SQLite
    tables, the rows its queries hand back to JavaScript, the prediction
    engine ([generatePrediction], [buildPredictionPrompt]), the anomaly
    detector ([detectAnomalies], [createAnomaly]), the anomaly listing
    ([getRecentAnomalies]) and the two entry points that run the analysis
    pipeline ([recordChange], [analyzeFlag]).

    Conventions of the embedding.
    - A JavaScript number is an IEEE 754 binary64 value: Rocq's primitive
      [float], with its own [+], [*], [/] and [<?].
    - A JavaScript value whose type TypeScript erases ([any], a parsed model
      response, a row of a query) is a [JsVal]; a property read is a lookup by
      name and yields [JUndefined] when the object has no such property.
    - A method of the agent is a function from the state of the agent to an
      [Outcome]: it returns a value and a new state, or throws.
    - What the agent gets from outside (the model behind [env.AI],
      [crypto.randomUUID()], [new Date()]) is read from [Env], indexed by the
      number of draws made so far.
    - Built-ins of the language whose result the agent only passes along
      ([JSON.parse], [JSON.stringify], number printing) are the fields of
      [Runtime]; every theorem holds for every runtime. *)

From Stdlib Require Import ZArith Floats String Ascii List Bool DecimalString Lia.
From stdpp Require Import gmap strings list sorting.

Set Warnings "-inexact-float,-register-all".
#[local] Open Scope string_scope.
#[local] Open Scope list_scope.

(** ** JavaScript values *)

Inductive JsVal : Type :=
| JUndefined
| JNull
| JBool (b : bool)
| JNumber (x : float)
| JString (s : string)
| JArray (items : list JsVal)
| JObject (props : list (string * JsVal)).

(** The own properties of an object, in insertion order. *)
Abbreviation JsObject := (list (string * JsVal)).

(** [ToBoolean]: [undefined], [null], [false], [0], [-0], [NaN] and the empty
    string are falsy, everything else is truthy. *)
Definition ToBoolean (v : JsVal) : bool :=
  match v with
  | JUndefined | JNull => false
  | JBool b => b
  | JNumber x => negb (PrimFloat.is_zero x || PrimFloat.is_nan x)
  | JString s => negb (String.eqb s "")
  | JArray _ | JObject _ => true
  end.

(** [a || b] *)
Definition js_or (a b : JsVal) : JsVal := if ToBoolean a then a else b.

(** [o.k] on an object: the value of the first binding of [k], [undefined]
    when there is none. *)
Fixpoint own (k : string) (o : JsObject) : JsVal :=
  match o with
  | [] => JUndefined
  | (k', v) :: o' => if String.eqb k k' then v else own k o'
  end.

(** [v.k] on any value: a [TypeError] ([None]) on [undefined] and [null]; none
    of the names the agent reads is a property of a number, a string, a
    boolean or an array. *)
Definition member (v : JsVal) (k : string) : option JsVal :=
  match v with
  | JUndefined | JNull => None
  | JObject o => Some (own k o)
  | _ => Some JUndefined
  end.

(** [v?.k] *)
Definition opt_member (v : JsVal) (k : string) : JsVal :=
  match member v k with Some x => x | None => JUndefined end.

(** [{...o, k: v}]: an existing key keeps its place, a new one goes last. *)
Fixpoint set_prop (k : string) (v : JsVal) (o : JsObject) : JsObject :=
  match o with
  | [] => [(k, v)]
  | (k', v') :: o' => if String.eqb k k' then (k, v) :: o' else (k', v') :: set_prop k v o'
  end.

(** [xs[0]] *)
Definition first_or_undefined (xs : list JsVal) : JsVal :=
  match xs with [] => JUndefined | x :: _ => x end.

(** ** Numbers *)

Definition float_of_Z (z : Z) : float := SF2Prim (binary_normalize prec emax z 0 false).
Definition float_of_nat (n : nat) : float := float_of_Z (Z.of_nat n).

(** [a > b] on numbers: false as soon as one side is [NaN]. *)
Definition js_gt (a b : float) : bool := PrimFloat.ltb b a.

Definition dec_of_N (n : N) : string := NilZero.string_of_uint (N.to_uint n).

Fixpoint zeros (n : nat) : string :=
  match n with O => "" | S n' => String "0" (zeros n') end.

(** The exact value of a finite float, as [m * 2^e] with [m >= 0]. *)
Definition magnitude (x : float) : Z * Z :=
  match Prim2SF x with
  | S754_finite _ m e => (Z.pos m, e)
  | _ => (0%Z, 0%Z)
  end.

(** The integer [n] for which [n / 10^f] is closest to [|x|], the larger one
    on a tie ([Number.prototype.toFixed], step 10.a). *)
Definition fixed_digits (f : nat) (x : float) : N :=
  let '(m, e) := magnitude x in
  let scaled := (m * 10 ^ Z.of_nat f)%Z in
  Z.to_N (if (0 <=? e)%Z then scaled * 2 ^ e
          else (2 * scaled + 2 ^ (- e)) / (2 * 2 ^ (- e)))%Z.

(** ** The language runtime *)

Record Runtime := {
  (** [JSON.parse]: [None] is a [SyntaxError]. *)
  JSON_parse : string -> option JsVal;
  (** [JSON.stringify] *)
  JSON_stringify : JsVal -> string;
  (** [Number::toString] *)
  Number_toString : float -> string;
  (** [StringToNumber] *)
  String_toNumber : string -> float;
  (** whether [sql.exec] takes a binding that is no number, string or [null] *)
  sql_accepts : JsVal -> bool
}.

Section Language.
Variable rt : Runtime.

(** [ToString] *)
Fixpoint ToString (v : JsVal) : string :=
  match v with
  | JUndefined => "undefined"
  | JNull => "null"
  | JBool b => if b then "true" else "false"
  | JNumber x => Number_toString rt x
  | JString s => s
  | JArray items =>
      String.concat ","
        (map (fun x => match x with JUndefined | JNull => "" | _ => ToString x end) items)
  | JObject _ => "[object Object]"
  end.

(** [ToPrimitive]: arrays and plain objects become their string. *)
Definition ToPrimitive (v : JsVal) : JsVal :=
  match v with
  | JArray _ | JObject _ => JString (ToString v)
  | _ => v
  end.

(** [ToNumber] *)
Definition ToNumber (v : JsVal) : float :=
  match ToPrimitive v with
  | JUndefined => PrimFloat.nan
  | JNull => 0%float
  | JBool b => if b then 1%float else 0%float
  | JNumber x => x
  | JString s => String_toNumber rt s
  | _ => PrimFloat.nan
  end.

(** [a + b]: concatenation when either side is a string, addition of numbers
    otherwise. *)
Definition js_add (a b : JsVal) : JsVal :=
  match ToPrimitive a, ToPrimitive b with
  | JString s, pb => JString (s +:+ ToString pb)
  | pa, JString s => JString (ToString pa +:+ s)
  | pa, pb => JNumber (ToNumber pa + ToNumber pb)
  end.

(** [a / n] for an array length [n] *)
Definition js_div (a : JsVal) (n : nat) : float := (ToNumber a / float_of_nat n)%float.

(** [x.toFixed(f)]: the sign, then the digits of the magnitude rounded at [f]
    places, or the magnitude as [ToString] prints it from [10^21] on; a value
    that is not finite prints as [ToString] prints it. *)
Definition toFixed (f : nat) (x : float) : string :=
  if negb (PrimFloat.is_finite x) then Number_toString rt x
  else
    let sign := if PrimFloat.ltb x 0 then "-" else "" in
    let magnitude := PrimFloat.abs x in
    if PrimFloat.leb 1e21 magnitude then sign +:+ Number_toString rt magnitude
    else
      let digits := dec_of_N (fixed_digits f magnitude) in
      let digits := zeros (S f - String.length digits) +:+ digits in
      let k := (String.length digits - f)%nat in
      sign +:+ (if Nat.eqb f 0 then digits
                else substring 0 k digits +:+ "." +:+ substring k f digits).

(** [xs.reduce((sum, m) => sum + m.k, 0)] *)
Definition sum_of (k : string) (xs : list JsObject) : JsVal :=
  fold_left (fun sum m => js_add sum (own k m)) xs (JNumber 0).
End Language.


(** ** The interfaces of [src/types.ts] *)

Module FlagChange.
Record t := mk {
  id : string;
  flagId : string;
  flagName : string;
  changeType : string;
  previousValue : JsVal;
  newValue : JsVal;
  changedBy : string;
  changedAt : string;
  environment : string
}.
End FlagChange.

Module ImpactMetrics.
Record t := mk {
  flagId : string;
  timestamp : string;
  errorRate : float;
  latencyP50 : float;
  latencyP99 : float;
  requestCount : float;
  conversionRate : float;
  userSatisfactionScore : float
}.
(** A sample as an object of this interface, as a request body carries it. *)
Definition object (m : t) : JsObject :=
  [ ("flagId", JString (flagId m)); ("timestamp", JString (timestamp m));
    ("errorRate", JNumber (errorRate m)); ("latencyP50", JNumber (latencyP50 m));
    ("latencyP99", JNumber (latencyP99 m)); ("requestCount", JNumber (requestCount m));
    ("conversionRate", JNumber (conversionRate m));
    ("userSatisfactionScore", JNumber (userSatisfactionScore m)) ].
End ImpactMetrics.

(** The six fields filled from the parsed model response hold whatever
    JavaScript value the response (or the default beside [||]) supplies. *)
Module ImpactPrediction.
Record t := mk {
  flagId : string;
  flagName : string;
  riskLevel : JsVal;
  riskScore : JsVal;
  predictedImpact : JsVal;
  recommendations : JsVal;
  reasoning : JsVal;
  confidence : JsVal;
  generatedAt : string
}.
End ImpactPrediction.

Inductive AnomalyType := error_spike | latency_spike | conversion_drop | rollback_recommended.
Inductive Severity := warning | critical.

Definition AnomalyType_text (t : AnomalyType) : string :=
  match t with
  | error_spike => "error_spike"
  | latency_spike => "latency_spike"
  | conversion_drop => "conversion_drop"
  | rollback_recommended => "rollback_recommended"
  end.

Definition Severity_text (v : Severity) : string :=
  match v with warning => "warning" | critical => "critical" end.

Module Anomaly.
Record t := mk {
  id : string;
  flagId : string;
  flagName : string;
  type : AnomalyType;
  severity : Severity;
  detectedAt : string;
  metrics : JsVal;
  message : string;
  resolved : bool
}.
End Anomaly.

(** ** The tables of [initializeDatabase]

    One record per table, a field per column under the column's name.
    [object] is the row as [SELECT *] hands it to JavaScript: an object whose
    property names are the column names of [CREATE TABLE]. The type argument
    of [sql.exec<T>] is erased and renames nothing, which is why the agent
    reads a row under both spellings where it expects one
    ([f.rollout_percentage || f.rolloutPercentage], [p.flag_name ||
    p.flagName], [flag.target_environment || flag.targetEnvironment]). *)

Module FlagRow.
Record t := mk {
  id : string;
  name : string;
  description : string;
  enabled : Z;
  rollout_percentage : float;
  target_environment : string;
  created_at : string;
  updated_at : string;
  tags : string;
  owner : string
}.
Definition object (r : t) : JsObject :=
  [ ("id", JString (id r)); ("name", JString (name r));
    ("description", JString (description r));
    ("enabled", JNumber (float_of_Z (enabled r)));
    ("rollout_percentage", JNumber (rollout_percentage r));
    ("target_environment", JString (target_environment r));
    ("created_at", JString (created_at r)); ("updated_at", JString (updated_at r));
    ("tags", JString (tags r)); ("owner", JString (owner r)) ].
End FlagRow.

Module ChangeRow.
Record t := mk {
  id : string;
  flag_id : string;
  flag_name : string;
  change_type : string;
  previous_value : string;
  new_value : string;
  changed_by : string;
  changed_at : string;
  environment : string
}.
Definition object (r : t) : JsObject :=
  [ ("id", JString (id r)); ("flag_id", JString (flag_id r));
    ("flag_name", JString (flag_name r)); ("change_type", JString (change_type r));
    ("previous_value", JString (previous_value r)); ("new_value", JString (new_value r));
    ("changed_by", JString (changed_by r)); ("changed_at", JString (changed_at r));
    ("environment", JString (environment r)) ].
End ChangeRow.

Module MetricsRow.
Record t := mk {
  id : Z;
  flag_id : string;
  timestamp : string;
  error_rate : float;
  latency_p50 : float;
  latency_p99 : float;
  request_count : float;
  conversion_rate : float;
  user_satisfaction_score : float
}.
Definition object (r : t) : JsObject :=
  [ ("id", JNumber (float_of_Z (id r))); ("flag_id", JString (flag_id r));
    ("timestamp", JString (timestamp r)); ("error_rate", JNumber (error_rate r));
    ("latency_p50", JNumber (latency_p50 r)); ("latency_p99", JNumber (latency_p99 r));
    ("request_count", JNumber (request_count r));
    ("conversion_rate", JNumber (conversion_rate r));
    ("user_satisfaction_score", JNumber (user_satisfaction_score r)) ].
End MetricsRow.

(** [risk_level], [risk_score], [reasoning] and [confidence] hold the value
    that was bound, as it was bound. *)
Module PredictionRow.
Record t := mk {
  flag_id : string;
  flag_name : string;
  risk_level : JsVal;
  risk_score : JsVal;
  predicted_impact : string;
  recommendations : string;
  reasoning : JsVal;
  confidence : JsVal;
  generated_at : string
}.
Definition object (r : t) : JsObject :=
  [ ("flag_id", JString (flag_id r)); ("flag_name", JString (flag_name r));
    ("risk_level", risk_level r); ("risk_score", risk_score r);
    ("predicted_impact", JString (predicted_impact r));
    ("recommendations", JString (recommendations r));
    ("reasoning", reasoning r); ("confidence", confidence r);
    ("generated_at", JString (generated_at r)) ].
End PredictionRow.

Module AnomalyRow.
Record t := mk {
  id : string;
  flag_id : string;
  flag_name : string;
  type : string;
  severity : string;
  detected_at : string;
  metrics : string;
  message : string;
  resolved : Z
}.
Definition object (r : t) : JsObject :=
  [ ("id", JString (id r)); ("flag_id", JString (flag_id r));
    ("flag_name", JString (flag_name r)); ("type", JString (type r));
    ("severity", JString (severity r)); ("detected_at", JString (detected_at r));
    ("metrics", JString (metrics r)); ("message", JString (message r));
    ("resolved", JNumber (float_of_Z (resolved r))) ].
End AnomalyRow.

(** ** What the agent sends and answers *)

(** A frame written to a socket, before [JSON.stringify]. *)
Inductive Frame :=
| flag_changed (change : FlagChange.t) (prediction : ImpactPrediction.t)
| anomaly_detected (payload : Anomaly.t)
| subscribed (anomalies : list JsObject)
| predictions_frame (payload : list JsObject)
| chat_response (payload : JsVal).

(** The body of a [Response], before [JSON.stringify]. *)
Inductive Body :=
| body_error (error : string)
| body_anomalies (anomalies : list JsObject)
| body_change (change : FlagChange.t) (prediction : ImpactPrediction.t)
| body_analysis (flag : JsObject) (prediction : ImpactPrediction.t)
| body_metrics (metrics : ImpactMetrics.t).

Record Response := { status : Z; body : Body }.

(** ** The state of the agent *)

Record Agent := {
  feature_flags : list FlagRow.t;
  flag_changes : list ChangeRow.t;
  impact_metrics : list MetricsRow.t;
  (** [flag_id] is the primary key of [predictions] *)
  predictions : gmap string PredictionRow.t;
  anomalies : list AnomalyRow.t;
  (** the keys of [sessions], in insertion order *)
  sessions : list string;
  (** every frame written so far, with the session of its socket *)
  sent : list (string * Frame);
  (** how many values were drawn from [Env] so far *)
  draws : nat
}.

Definition with_flag_changes (f : list ChangeRow.t -> list ChangeRow.t) (s : Agent) : Agent :=
  {| feature_flags := feature_flags s; flag_changes := f (flag_changes s);
     impact_metrics := impact_metrics s; predictions := predictions s;
     anomalies := anomalies s; sessions := sessions s; sent := sent s; draws := draws s |}.

Definition with_impact_metrics (f : list MetricsRow.t -> list MetricsRow.t) (s : Agent) : Agent :=
  {| feature_flags := feature_flags s; flag_changes := flag_changes s;
     impact_metrics := f (impact_metrics s); predictions := predictions s;
     anomalies := anomalies s; sessions := sessions s; sent := sent s; draws := draws s |}.

Definition with_predictions
    (f : gmap string PredictionRow.t -> gmap string PredictionRow.t) (s : Agent) : Agent :=
  {| feature_flags := feature_flags s; flag_changes := flag_changes s;
     impact_metrics := impact_metrics s; predictions := f (predictions s);
     anomalies := anomalies s; sessions := sessions s; sent := sent s; draws := draws s |}.

Definition with_anomalies (f : list AnomalyRow.t -> list AnomalyRow.t) (s : Agent) : Agent :=
  {| feature_flags := feature_flags s; flag_changes := flag_changes s;
     impact_metrics := impact_metrics s; predictions := predictions s;
     anomalies := f (anomalies s); sessions := sessions s; sent := sent s; draws := draws s |}.

Definition with_sent (f : list (string * Frame) -> list (string * Frame)) (s : Agent) : Agent :=
  {| feature_flags := feature_flags s; flag_changes := flag_changes s;
     impact_metrics := impact_metrics s; predictions := predictions s;
     anomalies := anomalies s; sessions := sessions s; sent := f (sent s); draws := draws s |}.

Definition with_draw (s : Agent) : Agent :=
  {| feature_flags := feature_flags s; flag_changes := flag_changes s;
     impact_metrics := impact_metrics s; predictions := predictions s;
     anomalies := anomalies s; sessions := sessions s; sent := sent s; draws := S (draws s) |}.

(** ** The world outside *)

Record AiRequest := {
  model : string;
  messages : list (string * string);
  max_tokens : Z;
  temperature : float
}.

(** [env.AI.run] rejects, or resolves to an object whose [response] may be
    missing. *)
Inductive AiOutcome :=
| AiRejects
| AiResolves (response : option string).

Record Env := {
  AI_run : nat -> AiRequest -> AiOutcome;
  randomUUID : nat -> string;
  toISOString : nat -> string
}.

(** ** Methods: state passing with exceptions *)

Inductive Outcome (A : Type) :=
| Returned (a : A) (s : Agent)
| Threw (s : Agent).
Arguments Returned {A} a s.
Arguments Threw {A} s.

Definition M (A : Type) : Type := Agent -> Outcome A.

#[global] Instance M_ret : MRet M := fun A a s => Returned a s.
#[global] Instance M_bind : MBind M := fun A B f m s =>
  match m s with
  | Returned a s' => f a s'
  | Threw s' => Threw s'
  end.

Definition throw {A} : M A := fun s => Threw s.
Definition get_state : M Agent := fun s => Returned s s.
Definition modify (f : Agent -> Agent) : M unit := fun s => Returned tt (f s).

(** [try { body } catch { handler }] *)
Definition try_catch {A} (body handler : M A) : M A := fun s =>
  match body s with
  | Returned a s' => Returned a s'
  | Threw s' => handler s'
  end.

(** The state a method leaves behind, whether it returned or threw. *)
Definition final_state {A} (o : Outcome A) : Agent :=
  match o with Returned _ s => s | Threw s => s end.

(** ** Queries *)

(** [ORDER BY key DESC] on a text column: bytewise comparison, larger keys
    first. Rows with equal keys stay in table order (SQL leaves their order
    open). *)
Fixpoint insert_desc {R} (key : R -> string) (x : R) (l : list R) : list R :=
  match l with
  | [] => [x]
  | y :: l' => if String.leb (key y) (key x) then x :: l else y :: insert_desc key x l'
  end.

Definition order_by_desc {R} (key : R -> string) (rows : list R) : list R :=
  foldr (insert_desc key) [] rows.

(** [SELECT * FROM t WHERE cond ORDER BY key DESC LIMIT n] *)
Definition select_desc {R} (cond : R -> bool) (key : R -> string) (n : nat) (rows : list R)
    : list R :=
  take n (order_by_desc key (List.filter cond rows)).

(** ** Texts *)

Definition nl : string := String (ascii_of_nat 10) EmptyString.
Definition dq : string := String (ascii_of_nat 34) EmptyString.

(** [text.match(/\{[\s\S]*\}/)]: from the first opening brace to the last
    closing brace after it; no match when no closing brace follows an opening
    one. *)
Fixpoint from_first_open (s : string) : option string :=
  match s with
  | EmptyString => None
  | String c s' => if Ascii.eqb c "{" then Some s else from_first_open s'
  end.

Fixpoint to_last_close (s : string) : option string :=
  match s with
  | EmptyString => None
  | String c s' =>
      match to_last_close s' with
      | Some p => Some (String c p)
      | None => if Ascii.eqb c "}" then Some (String c EmptyString) else None
      end
  end.

Definition match_braces (text : string) : option string :=
  match from_first_open text with
  | Some s => to_last_close s
  | None => None
  end.

(** ** The methods of [FeatureFlagAgent] *)

Section Methods.
Variable rt : Runtime.
Variable env : Env.

(** *** Draws from the world outside *)

Definition crypto_randomUUID : M string := fun s =>
  Returned (randomUUID env (draws s)) (with_draw s).

Definition Date_now : M string := fun s =>
  Returned (toISOString env (draws s)) (with_draw s).

Definition env_AI_run (request : AiRequest) : M (option string) := fun s =>
  match AI_run env (draws s) request with
  | AiRejects => Threw (with_draw s)
  | AiResolves response => Returned response (with_draw s)
  end.

(** *** Sockets *)

Definition socket_send (sessionId : string) (frame : Frame) : M unit :=
  modify (with_sent (fun l => l ++ [(sessionId, frame)])).

(** [broadcast]: one frame to every session. *)
Definition broadcast (message : Frame) : M unit := fun s =>
  Returned tt (with_sent (fun l => l ++ map (fun sid => (sid, message)) (sessions s)) s).

(** *** Bindings *)

Definition bindable (v : JsVal) : bool :=
  match v with
  | JNumber _ | JString _ | JNull => true
  | _ => sql_accepts rt v
  end.

(** [v.k], throwing where JavaScript throws. *)
Definition read (v : JsVal) (k : string) : M JsVal :=
  match member v k with
  | Some x => mret x
  | None => throw
  end.

(** *** [recordFlagChange] *)

(** The row [INSERT INTO flag_changes ...] writes. *)
Definition change_row (change : FlagChange.t) : ChangeRow.t :=
  ChangeRow.mk (FlagChange.id change) (FlagChange.flagId change)
    (FlagChange.flagName change) (FlagChange.changeType change)
    (JSON_stringify rt (FlagChange.previousValue change))
    (JSON_stringify rt (FlagChange.newValue change))
    (FlagChange.changedBy change) (FlagChange.changedAt change)
    (FlagChange.environment change).

(** [recordFlagChange] fills [change.id] and [change.changedAt] in place when
    they are missing: it returns the change as the caller sees it afterwards.
    [id] is the primary key of [flag_changes]. *)
Definition recordFlagChange (change : FlagChange.t) : M FlagChange.t :=
  id ← (if String.eqb (FlagChange.id change) "" then crypto_randomUUID
        else mret (FlagChange.id change));
  changedAt ← (if String.eqb (FlagChange.changedAt change) "" then Date_now
               else mret (FlagChange.changedAt change));
  let change :=
    FlagChange.mk id (FlagChange.flagId change) (FlagChange.flagName change)
      (FlagChange.changeType change) (FlagChange.previousValue change)
      (FlagChange.newValue change) (FlagChange.changedBy change) changedAt
      (FlagChange.environment change) in
  s ← get_state;
  if existsb (fun r => String.eqb (ChangeRow.id r) id) (flag_changes s)
  then throw
  else
    modify (with_flag_changes (fun rows => rows ++ [change_row change]));;
    mret change.

(** *** [buildPredictionPrompt] *)

(** [metrics.length > 0 ? metrics.reduce((sum, m) => sum + m.k, 0) / metrics.length : 0] *)
Definition average_or_zero (k : string) (metrics : list JsObject) : float :=
  if (0 <? length metrics)%nat then js_div rt (sum_of rt k metrics) (length metrics)
  else 0%float.

Definition avgErrorRate (metrics : list JsObject) : float :=
  average_or_zero "errorRate" metrics.

Definition avgLatency (metrics : list JsObject) : float :=
  average_or_zero "latencyP50" metrics.

(** The template of [buildPredictionPrompt], a block of lines at a time. *)
Definition flag_change_details (change : FlagChange.t) : string :=
  String.concat ""
    [ "## Flag Change Details"; nl;
      "- Flag Name: "; FlagChange.flagName change; nl;
      "- Change Type: "; FlagChange.changeType change; nl;
      "- Previous Value: "; JSON_stringify rt (FlagChange.previousValue change); nl;
      "- New Value: "; JSON_stringify rt (FlagChange.newValue change); nl;
      "- Environment: "; FlagChange.environment change; nl;
      "- Changed By: "; FlagChange.changedBy change; nl ].

Definition historical_metrics (metrics : list JsObject) : string :=
  String.concat ""
    [ "## Historical Metrics (Last ";
        Number_toString rt (float_of_nat (length metrics)); " data points)"; nl;
      "- Average Error Rate: "; toFixed rt 2 (avgErrorRate metrics); "%"; nl;
      "- Average Latency (P50): "; toFixed rt 2 (avgLatency metrics); "ms"; nl;
      "- Total Request Count: "; ToString rt (sum_of rt "requestCount" metrics); nl ].

Definition recent_change_history (recentChanges : list JsObject) : string :=
  String.concat ""
    [ "## Recent Change History"; nl;
      String.concat nl
        (map (fun c => "- " +:+ ToString rt (own "changeType" c) +:+ " at "
                       +:+ ToString rt (own "changedAt" c))
             (take 5 recentChanges)); nl ].

Definition closing_instructions (change : FlagChange.t) : string :=
  String.concat ""
    [ "Based on this information, predict the impact of this change on system performance and user experience.";
        nl;
      "Consider:"; nl;
      "1. The type of change (enable/disable/rollout change)"; nl;
      "2. Historical patterns and metrics"; nl;
      "3. The target environment ("; FlagChange.environment change; ")"; nl;
      "4. Rollout percentage impact"; nl;
      nl;
      "Provide your analysis in JSON format."; nl ].

Definition buildPredictionPrompt
    (change : FlagChange.t) (metrics recentChanges : list JsObject) : string :=
  String.concat ""
    [ nl; "Analyze this feature flag change and predict its impact:"; nl;
      nl;
      flag_change_details change;
      nl;
      historical_metrics metrics;
      nl;
      recent_change_history recentChanges;
      nl;
      closing_instructions change ].

(** *** [generatePrediction] *)

Definition system_instruction : string :=
  String.concat nl
    [ "You are an expert feature flag impact analyzer. Analyze feature flag changes and predict their impact on system performance and user experience. ";
      "            ";
      "            Respond in JSON format with this structure:";
      "            {";
      String.concat dq ["              "; "riskLevel"; ": "; "low"; " | "; "medium"; " | "; "high"; " | "; "critical"; ","];
      String.concat dq ["              "; "riskScore"; ": 0-100,"];
      String.concat dq ["              "; "predictedImpact"; ": {"];
      String.concat dq ["                "; "errorRateChange"; ": percentage change (can be negative),"];
      String.concat dq ["                "; "latencyChange"; ": percentage change in ms,"];
      String.concat dq ["                "; "userImpactPercentage"; ": percentage of users affected"];
      "              },";
      String.concat dq ["              "; "recommendations"; ": ["; "recommendation 1"; ", "; "recommendation 2"; "],"];
      String.concat dq ["              "; "reasoning"; ": "; "detailed explanation"; ","];
      String.concat dq ["              "; "confidence"; ": 0-1"];
      "            }" ].

Definition prediction_request (prompt : string) : AiRequest :=
  {| model := "@cf/meta/llama-3.3-70b-instruct-fp8-fast";
     messages := [("system", system_instruction); ("user", prompt)];
     max_tokens := 1024;
     temperature := 0.3 |}.

(** The object of the inner [catch]: what stands for a response whose
    braces hold no JSON. *)
Definition parse_fallback : JsObject :=
  [ ("riskLevel", JString "medium");
    ("riskScore", JNumber 50);
    ("predictedImpact",
      JObject [ ("errorRateChange", JNumber 0); ("latencyChange", JNumber 0);
                ("userImpactPercentage", JNumber 0) ]);
    ("recommendations", JArray [JString "Monitor closely after deployment"]);
    ("reasoning", JString "Unable to fully analyze - recommend manual review");
    ("confidence", JNumber 0.5) ].

(** The inner [try]: [jsonMatch ? JSON.parse(jsonMatch[0]) : {}], and the
    object above when [JSON.parse] throws. *)
Definition parse_response (responseText : string) : JsVal :=
  match match_braces responseText with
  | Some jsonMatch =>
      match JSON_parse rt jsonMatch with
      | Some v => v
      | None => JObject parse_fallback
      end
  | None => JObject []
  end.

(** The prediction returned by the outer [catch]. *)
Definition error_prediction (change : FlagChange.t) (generatedAt : string)
    : ImpactPrediction.t :=
  ImpactPrediction.mk (FlagChange.flagId change) (FlagChange.flagName change)
    (JString "medium") (JNumber 50)
    (JObject [ ("errorRateChange", JNumber 0); ("latencyChange", JNumber 0);
               ("userImpactPercentage", JNumber 0) ])
    (JArray [JString "Manual review recommended due to analysis error"])
    (JString "Automated analysis unavailable") (JNumber 0.3) generatedAt.

(** The row [INSERT OR REPLACE INTO predictions ...] writes. *)
Definition prediction_row (prediction : ImpactPrediction.t) : PredictionRow.t :=
  PredictionRow.mk (ImpactPrediction.flagId prediction)
    (ImpactPrediction.flagName prediction)
    (ImpactPrediction.riskLevel prediction)
    (ImpactPrediction.riskScore prediction)
    (JSON_stringify rt (ImpactPrediction.predictedImpact prediction))
    (JSON_stringify rt (ImpactPrediction.recommendations prediction))
    (ImpactPrediction.reasoning prediction)
    (ImpactPrediction.confidence prediction)
    (ImpactPrediction.generatedAt prediction).

(** Whether the storage takes the four bindings read off the response. *)
Definition bindings_accepted (prediction : ImpactPrediction.t) : bool :=
  bindable (ImpactPrediction.riskLevel prediction)
  && bindable (ImpactPrediction.riskScore prediction)
  && bindable (ImpactPrediction.reasoning prediction)
  && bindable (ImpactPrediction.confidence prediction).

(** [INSERT OR REPLACE INTO predictions ...]: [flag_id] is the primary key. *)
Definition store_prediction (prediction : ImpactPrediction.t) : M unit :=
  if bindings_accepted prediction
  then
    modify (with_predictions
      (insert (ImpactPrediction.flagId prediction) (prediction_row prediction)))
  else throw.

(** The rows of [SELECT * FROM impact_metrics WHERE flag_id = ? ORDER BY
    timestamp DESC LIMIT n], as JavaScript gets them. *)
Definition metrics_query (flagId : string) (n : nat) (s : Agent) : list JsObject :=
  map MetricsRow.object
    (select_desc (fun r => String.eqb (MetricsRow.flag_id r) flagId)
       MetricsRow.timestamp n (impact_metrics s)).

(** The rows of [SELECT * FROM flag_changes WHERE flag_id = ? ORDER BY
    changed_at DESC LIMIT n], as JavaScript gets them. *)
Definition changes_query (flagId : string) (n : nat) (s : Agent) : list JsObject :=
  map ChangeRow.object
    (select_desc (fun r => String.eqb (ChangeRow.flag_id r) flagId)
       ChangeRow.changed_at n (flag_changes s)).

(** The prompt [generatePrediction] builds for [change] in the state [s]. *)
Definition prediction_prompt (change : FlagChange.t) (s : Agent) : string :=
  buildPredictionPrompt change
    (metrics_query (FlagChange.flagId change) 100 s)
    (changes_query (FlagChange.flagId change) 20 s).

(** [aiResponse.response || '{}'] *)
Definition response_text (response : option string) : string :=
  match response with
  | Some text => if String.eqb text "" then "{}" else text
  | None => "{}"
  end.

(** The object literal [prediction], from the six properties read off
    [parsedResponse]. *)
Definition make_prediction (change : FlagChange.t)
    (riskLevel riskScore predictedImpact recommendations reasoning confidence : JsVal)
    (generatedAt : string) : ImpactPrediction.t :=
  ImpactPrediction.mk (FlagChange.flagId change) (FlagChange.flagName change)
    (js_or riskLevel (JString "medium"))
    (js_or riskScore (JNumber 50))
    (js_or predictedImpact
       (JObject
          [ ("errorRateChange", JNumber 0); ("latencyChange", JNumber 0);
            ("userImpactPercentage",
              js_or (opt_member (FlagChange.newValue change) "rolloutPercentage")
                (JNumber 0)) ]))
    (js_or recommendations (JArray []))
    (js_or reasoning (JString ""))
    (js_or confidence (JNumber 0.7))
    generatedAt.

Definition generatePrediction (change : FlagChange.t) : M ImpactPrediction.t :=
  s ← get_state;
  let prompt := prediction_prompt change s in
  try_catch
    (response ← env_AI_run (prediction_request prompt);
     let parsedResponse := parse_response (response_text response) in
     riskLevel ← read parsedResponse "riskLevel";
     riskScore ← read parsedResponse "riskScore";
     predictedImpact ← read parsedResponse "predictedImpact";
     recommendations ← read parsedResponse "recommendations";
     reasoning ← read parsedResponse "reasoning";
     confidence ← read parsedResponse "confidence";
     generatedAt ← Date_now;
     let prediction :=
       make_prediction change riskLevel riskScore predictedImpact recommendations
         reasoning confidence generatedAt in
     store_prediction prediction;;
     mret prediction)
    (generatedAt ← Date_now;
     mret (error_prediction change generatedAt)).

(** *** [createAnomaly] *)

(** The row [INSERT INTO anomalies ...] writes. *)
Definition anomaly_row (anomaly : Anomaly.t) : AnomalyRow.t :=
  AnomalyRow.mk (Anomaly.id anomaly) (Anomaly.flagId anomaly)
    (Anomaly.flagName anomaly)
    (AnomalyType_text (Anomaly.type anomaly))
    (Severity_text (Anomaly.severity anomaly))
    (Anomaly.detectedAt anomaly)
    (JSON_stringify rt (Anomaly.metrics anomaly))
    (Anomaly.message anomaly)
    (if Anomaly.resolved anomaly then 1%Z else 0%Z).

(** [id] is the primary key of [anomalies]: a second row under an id throws. *)
Definition createAnomaly (anomaly : Anomaly.t) : M unit :=
  s ← get_state;
  if existsb (fun r => String.eqb (AnomalyRow.id r) (Anomaly.id anomaly)) (anomalies s)
  then throw
  else
    modify (with_anomalies (fun rows => rows ++ [anomaly_row anomaly]));;
    broadcast (anomaly_detected anomaly).

(** *** [detectAnomalies] *)

(** [xs.reduce((sum, m) => sum + m.k, 0) / xs.length] *)
Definition average (k : string) (xs : list JsObject) : float :=
  js_div rt (sum_of rt k xs) (length xs).

(** [recent[0]] *)
Definition newest (recent : list JsObject) : JsVal :=
  match recent with
  | [] => JUndefined
  | m :: _ => JObject m
  end.

(** [if (rule) { await this.createAnomaly({ id: crypto.randomUUID(), ...,
    detectedAt: new Date().toISOString(), ... }) }] *)
Definition report_if (rule : bool) (anomaly : string -> string -> Anomaly.t) : M unit :=
  if rule then
    id ← crypto_randomUUID;
    detectedAt ← Date_now;
    createAnomaly (anomaly id detectedAt)
  else mret tt.

(** [flag?.name || flagId], for the flag [SELECT * FROM feature_flags WHERE
    id = ?] finds first. *)
Definition flag_name (flagId : string) (s : Agent) : string :=
  let flag :=
    first_or_undefined
      (map (fun r => JObject (FlagRow.object r))
         (List.filter (fun r => String.eqb (FlagRow.id r) flagId) (feature_flags s))) in
  ToString rt (js_or (opt_member flag "name") (JString flagId)).

(** The body of [detectAnomalies] below its query, over the array [metrics]
    the query returned. *)
Definition detectAnomalies_over (flagId : string) (metrics : list JsObject) : M unit :=
  if (length metrics <? 5)%nat then mret tt
  else
    let recent := take 5 metrics in
    let baseline := drop 5 metrics in
    if (length baseline =? 0)%nat then mret tt
    else
      let avgBaselineError := average "errorRate" baseline in
      let avgBaselineLatency := average "latencyP50" baseline in
      let avgRecentError := average "errorRate" recent in
      let avgRecentLatency := average "latencyP50" recent in
      s ← get_state;
      let flagName := flag_name flagId s in
      report_if (js_gt avgRecentError (avgBaselineError * 1.5) && js_gt avgRecentError 1)
        (fun id detectedAt =>
           Anomaly.mk id flagId flagName error_spike
             (if js_gt avgRecentError (avgBaselineError * 2) then critical else warning)
             detectedAt (newest recent)
             ("Error rate increased by "
              +:+ toFixed rt 1 ((avgRecentError / avgBaselineError - 1) * 100)
              +:+ "% since flag change")
             false);;
      report_if (js_gt avgRecentLatency (avgBaselineLatency * 2))
        (fun id detectedAt =>
           Anomaly.mk id flagId flagName latency_spike
             (if js_gt avgRecentLatency (avgBaselineLatency * 3) then critical else warning)
             detectedAt (newest recent)
             ("P50 latency increased by "
              +:+ toFixed rt 1 ((avgRecentLatency / avgBaselineLatency - 1) * 100)
              +:+ "%")
             false).

Definition detectAnomalies (flagId : string) : M unit :=
  s ← get_state;
  detectAnomalies_over flagId (metrics_query flagId 50 s).

(** *** [getRecentAnomalies], [getAnomalies], [getAllPredictions] *)

(** [xs.map(f)] for an [f] that may throw *)
Fixpoint map_m {A B} (f : A -> M B) (xs : list A) : M (list B) :=
  match xs with
  | [] => mret []
  | x :: xs' => y ← f x; ys ← map_m f xs'; mret (y :: ys)
  end.

(** [JSON.parse(v || fallback)] *)
Definition parse_or (v : JsVal) (fallback : string) : M JsVal :=
  match JSON_parse rt (ToString rt (js_or v (JString fallback))) with
  | Some parsed => mret parsed
  | None => throw
  end.

(** [v === x] for a number [x] *)
Definition is_number (x : float) (v : JsVal) : bool :=
  match v with
  | JNumber y => PrimFloat.eqb y x
  | _ => false
  end.

(** The rows of [SELECT * FROM anomalies WHERE resolved = 0 ORDER BY
    detected_at DESC LIMIT 20]. *)
Definition recent_unresolved (s : Agent) : list AnomalyRow.t :=
  select_desc (fun r => Z.eqb (AnomalyRow.resolved r) 0) AnomalyRow.detected_at 20
    (anomalies s).

(** [{...a, metrics: JSON.parse(a.metrics || '{}'), resolved: a.resolved === 1}] *)
Definition listed (a : JsObject) : M JsObject :=
  metrics ← parse_or (own "metrics" a) "{}";
  mret (set_prop "resolved" (JBool (is_number 1 (own "resolved" a)))
          (set_prop "metrics" metrics a)).

Definition getRecentAnomalies : M (list JsObject) :=
  s ← get_state;
  map_m listed (map AnomalyRow.object (recent_unresolved s)).

Definition getAnomalies : M Response :=
  anomalies ← getRecentAnomalies;
  mret {| status := 200; body := body_anomalies anomalies |}.

Definition getAllPredictions : M (list JsObject) :=
  s ← get_state;
  map_m
    (fun p =>
       predictedImpact ← parse_or (own "predicted_impact" p) "{}";
       recommendations ← parse_or (own "recommendations" p) "[]";
       mret (set_prop "recommendations" recommendations
               (set_prop "predictedImpact" predictedImpact p)))
    (map PredictionRow.object
       (order_by_desc PredictionRow.generated_at
          (map snd (map_to_list (predictions s))))).

(** *** [handleWebSocketMessage] *)

(** [processChat] is the conversational assistant, taken as it is. *)
Variable processChat : JsVal -> string -> M JsVal.

Definition is_string (x : string) (v : JsVal) : bool :=
  match v with
  | JString y => String.eqb y x
  | _ => false
  end.

Definition handleWebSocketMessage (sessionId : string) (data : JsVal) : M unit :=
  type ← read data "type";
  if is_string "chat" type then
    response ← processChat (js_or (opt_member (opt_member data "payload") "message")
                               (JString "")) sessionId;
    socket_send sessionId (chat_response response)
  else if is_string "subscribe_anomalies" type then
    anomalies ← getRecentAnomalies;
    socket_send sessionId (subscribed anomalies)
  else if is_string "get_predictions" type then
    predictions ← getAllPredictions;
    socket_send sessionId (predictions_frame predictions)
  else mret tt.

(** *** [recordChange], [recordMetrics], [analyzeFlag] *)

Definition recordChange (change : FlagChange.t) : M Response :=
  change ← recordFlagChange change;
  prediction ← generatePrediction change;
  detectAnomalies (FlagChange.flagId change);;
  broadcast (flag_changed change prediction);;
  mret {| status := 200; body := body_change change prediction |}.

Definition recordMetrics (metrics : ImpactMetrics.t) : M Response :=
  timestamp ← (if String.eqb (ImpactMetrics.timestamp metrics) "" then Date_now
               else mret (ImpactMetrics.timestamp metrics));
  let metrics :=
    ImpactMetrics.mk (ImpactMetrics.flagId metrics) timestamp
      (ImpactMetrics.errorRate metrics) (ImpactMetrics.latencyP50 metrics)
      (ImpactMetrics.latencyP99 metrics) (ImpactMetrics.requestCount metrics)
      (ImpactMetrics.conversionRate metrics)
      (ImpactMetrics.userSatisfactionScore metrics) in
  modify (with_impact_metrics (fun rows => rows ++
    [ MetricsRow.mk (1 + foldr Z.max 0 (map MetricsRow.id rows))%Z
        (ImpactMetrics.flagId metrics) timestamp
        (ImpactMetrics.errorRate metrics) (ImpactMetrics.latencyP50 metrics)
        (ImpactMetrics.latencyP99 metrics) (ImpactMetrics.requestCount metrics)
        (ImpactMetrics.conversionRate metrics)
        (ImpactMetrics.userSatisfactionScore metrics) ]));;
  detectAnomalies (ImpactMetrics.flagId metrics);;
  mret {| status := 200; body := body_metrics metrics |}.

Definition analyzeFlag (flagId : string) : M Response :=
  s ← get_state;
  match List.filter (fun r => String.eqb (FlagRow.id r) flagId) (feature_flags s) with
  | [] => mret {| status := 404; body := body_error "Flag not found" |}
  | row :: _ =>
      let flag := FlagRow.object row in
      id ← crypto_randomUUID;
      changedAt ← Date_now;
      let change :=
        FlagChange.mk id
          (ToString rt (own "id" flag))
          (ToString rt (own "name" flag))
          "enabled"
          JNull
          (JObject flag)
          "manual_analysis"
          changedAt
          (ToString rt
             (js_or (own "target_environment" flag)
                (js_or (own "targetEnvironment" flag) (JString "development")))) in
      prediction ← generatePrediction change;
      detectAnomalies flagId;;
      mret {| status := 200; body := body_analysis flag prediction |}
  end.
End Methods.

(** ** Observations *)

(** The rows of [anomalies] a method added between [s] and [s']. *)
Definition emitted (s s' : Agent) : list AnomalyRow.t :=
  drop (length (anomalies s)) (anomalies s').

Section Observations.
Variable rt : Runtime.
Variable env : Env.
Variable change : FlagChange.t.
Variable s : Agent.

(** The answer of the model to the request [generatePrediction] makes for
    [change] in the state [s]. *)
Definition answer : AiOutcome :=
  AI_run env (draws s) (prediction_request (prediction_prompt rt change s)).

(** The state once [prediction] was stored: two draws and one row later. *)
Definition stored (prediction : ImpactPrediction.t) : Agent :=
  with_predictions
    (insert (ImpactPrediction.flagId prediction) (prediction_row rt prediction))
    (with_draw (with_draw s)).

(** The prediction [generatePrediction] makes of the parsed object [o]. *)
Definition assembled (o : JsObject) : ImpactPrediction.t :=
  make_prediction change (own "riskLevel" o) (own "riskScore" o)
    (own "predictedImpact" o) (own "recommendations" o) (own "reasoning" o)
    (own "confidence" o) (toISOString env (S (draws s))).
End Observations.

(** The text [getRecentAnomalies] hands to [JSON.parse] for a row. *)
Definition metrics_text (rt : Runtime) (r : AnomalyRow.t) : string :=
  ToString rt (js_or (JString (AnomalyRow.metrics r)) (JString "{}")).

(** The object [getRecentAnomalies] lists for a row whose [metrics] parse to
    [parsed]. *)
Definition listed_as (r : AnomalyRow.t) (parsed : JsVal) : JsObject :=
  set_prop "resolved" (JBool (is_number 1 (JNumber (float_of_Z (AnomalyRow.resolved r)))))
    (set_prop "metrics" parsed (AnomalyRow.object r)).

(** [x] comes no later than [y] under [ORDER BY key DESC]. *)
Definition before {R} (key : R -> string) (x y : R) : Prop :=
  String.leb (key y) (key x) = true.

(** A row written for this window carries the type and the severity of one of
    the two rules, and that rule holds of the averages. *)
Definition by_the_rules (rt : Runtime) (metrics : list JsObject) (row : AnomalyRow.t)
    : Prop :=
  let recentError := average rt "errorRate" (take 5 metrics) in
  let baselineError := average rt "errorRate" (drop 5 metrics) in
  let recentLatency := average rt "latencyP50" (take 5 metrics) in
  let baselineLatency := average rt "latencyP50" (drop 5 metrics) in
  (AnomalyRow.type row = "error_spike"
   /\ js_gt recentError (baselineError * 1.5)%float = true
   /\ js_gt recentError 1%float = true
   /\ AnomalyRow.severity row
      = Severity_text (if js_gt recentError (baselineError * 2)%float
                       then critical else warning))
  \/ (AnomalyRow.type row = "latency_spike"
      /\ js_gt recentLatency (baselineLatency * 2)%float = true
      /\ AnomalyRow.severity row
         = Severity_text (if js_gt recentLatency (baselineLatency * 3)%float
                          then critical else warning)).

(** [s'] has the flags, the change log and the metrics of [s]. *)
Definition same_logs (s s' : Agent) : Prop :=
  feature_flags s' = feature_flags s
  /\ flag_changes s' = flag_changes s
  /\ impact_metrics s' = impact_metrics s.

(** A method that writes to none of these three tables, however it ends. *)
Definition keeps_logs {A} (m : M A) : Prop :=
  forall s, same_logs s (final_state (m s)).

(** * The rest of the agent

    The methods of [FeatureFlagAgent] outside the analysis pipeline: flag
    management ([getFlags], [createFlag]), the listing of predictions
    ([getPredictions]), the chat ([handleChat], [processChat]) and the life of
    a socket ([handleWebSocket] and its two listeners).

    They run on the whole object: the state of the methods above, the
    [conversations] table, and the frames of the three kinds that only these
    methods write. *)

(** ** [a || b] on typed values *)

(** on strings: the empty string is the falsy one *)
Definition text_or (a b : string) : string := if String.eqb a "" then b else a.

(** on numbers: [0], [-0] and [NaN] are the falsy ones *)
Definition number_or (a b : float) : float :=
  if PrimFloat.is_zero a || PrimFloat.is_nan a then b else a.

(** ** The [FeatureFlag] interface and the [conversations] table *)

(** The body of [POST /flags], as [createFlag] types it. [id], [createdAt]
    and [updatedAt] are the empty text for a body without them: [createFlag]
    reads [id] through [||] and overwrites the two dates. *)
Module FeatureFlag.
Record t := mk {
  id : string;
  name : string;
  description : string;
  enabled : bool;
  rolloutPercentage : float;
  targetEnvironment : string;
  createdAt : string;
  updatedAt : string;
  tags : list string;
  owner : string
}.
Definition object (f : t) : JsObject :=
  [ ("id", JString (id f)); ("name", JString (name f));
    ("description", JString (description f)); ("enabled", JBool (enabled f));
    ("rolloutPercentage", JNumber (rolloutPercentage f));
    ("targetEnvironment", JString (targetEnvironment f));
    ("createdAt", JString (createdAt f)); ("updatedAt", JString (updatedAt f));
    ("tags", JArray (map JString (tags f))); ("owner", JString (owner f)) ].
End FeatureFlag.

Module ConversationRow.
Record t := mk {
  id : string;
  session_id : string;
  role : string;
  content : string;
  timestamp : string;
  metadata : string
}.
Definition object (r : t) : JsObject :=
  [ ("id", JString (id r)); ("session_id", JString (session_id r));
    ("role", JString (role r)); ("content", JString (content r));
    ("timestamp", JString (timestamp r)); ("metadata", JString (metadata r)) ].
End ConversationRow.

(** The object [processChat] returns; [context] holds [flagCount],
    [anomalyCount] and [predictionCount], and is missing after a failure. *)
Module ChatResponse.
Record t := mk {
  message : string;
  sessionId : string;
  context : option (nat * nat * nat)
}.
End ChatResponse.

(** ** Frames, answers, state *)

(** A frame of a kind the methods above do not write, before
    [JSON.stringify]. *)
Inductive Notice :=
| connected (sessionId : string)
| flag_created (payload : FeatureFlag.t)
| invalid_message.

(** What a [Response] of these methods carries, before [JSON.stringify]. *)
Inductive Content :=
| flag_list (flags : list JsObject)
| created_flag (flag : FeatureFlag.t)
| prediction_list (predictions : list JsObject)
| chat_reply (response : ChatResponse.t)
| web_socket (sessionId : string).

Record Reply := { code : Z; content : Content }.

Record Durable := {
  (** the tables and the sockets of the methods above *)
  agent : Agent;
  conversations : list ConversationRow.t;
  (** every frame of a kind of [Notice] written so far, with the session of
      its socket *)
  notices : list (string * Notice)
}.

Definition with_agent (f : Agent -> Agent) (o : Durable) : Durable :=
  {| agent := f (agent o); conversations := conversations o; notices := notices o |}.

Definition with_conversations
    (f : list ConversationRow.t -> list ConversationRow.t) (o : Durable) : Durable :=
  {| agent := agent o; conversations := f (conversations o); notices := notices o |}.

Definition with_notices (f : list (string * Notice) -> list (string * Notice)) (o : Durable)
    : Durable :=
  {| agent := agent o; conversations := conversations o; notices := f (notices o) |}.

Definition with_feature_flags (f : list FlagRow.t -> list FlagRow.t) (s : Agent) : Agent :=
  {| feature_flags := f (feature_flags s); flag_changes := flag_changes s;
     impact_metrics := impact_metrics s; predictions := predictions s;
     anomalies := anomalies s; sessions := sessions s; sent := sent s; draws := draws s |}.

Definition with_sessions (f : list string -> list string) (s : Agent) : Agent :=
  {| feature_flags := feature_flags s; flag_changes := flag_changes s;
     impact_metrics := impact_metrics s; predictions := predictions s;
     anomalies := anomalies s; sessions := f (sessions s); sent := sent s; draws := draws s |}.

(** ** Methods on the whole object

    A method resolves with a value or rejects, and leaves an object either
    way. *)
Inductive Settled (A : Type) :=
| Resolved (a : A) (o : Durable)
| Rejected (o : Durable).
Arguments Resolved {A} a o.
Arguments Rejected {A} o.

Definition D (A : Type) : Type := Durable -> Settled A.

#[global] Instance D_ret : MRet D := fun A a o => Resolved a o.
#[global] Instance D_bind : MBind D := fun A B f m o =>
  match m o with
  | Resolved a o' => f a o'
  | Rejected o' => Rejected o'
  end.

Definition reject {A} : D A := fun o => Rejected o.
Definition whole : D Durable := fun o => Resolved o o.
Definition update (f : Durable -> Durable) : D unit := fun o => Resolved tt (f o).

(** A method above, run on the whole object. *)
Definition lift {A} (m : M A) : D A := fun o =>
  match m (agent o) with
  | Returned a s => Resolved a (with_agent (fun _ => s) o)
  | Threw s => Rejected (with_agent (fun _ => s) o)
  end.

(** [try { body } catch { handler }] *)
Definition catching {A} (body handler : D A) : D A := fun o =>
  match body o with
  | Resolved a o' => Resolved a o'
  | Rejected o' => handler o'
  end.

(** The object a method leaves behind, whether it resolved or rejected. *)
Definition left_behind {A} (r : Settled A) : Durable :=
  match r with Resolved _ o => o | Rejected o => o end.

(** ** [Map] keys *)

(** [sessions.set(k, _)]: a key already there keeps its place. *)
Definition map_set (k : string) (keys : list string) : list string :=
  if existsb (String.eqb k) keys then keys else keys ++ [k].

(** [sessions.delete(k)] *)
Definition map_delete (k : string) (keys : list string) : list string :=
  List.filter (fun k' => negb (String.eqb k' k)) keys.

(** ** The methods *)

Section Object.
Variable rt : Runtime.
Variable env : Env.

(** [socket.send] of a notice *)
Definition notify (sessionId : string) (notice : Notice) : D unit :=
  update (with_notices (fun l => l ++ [(sessionId, notice)])).

(** [broadcast] of a notice: one frame to every session. *)
Definition announce (notice : Notice) : D unit := fun o =>
  Resolved tt
    (with_notices (fun l => l ++ map (fun sid => (sid, notice)) (sessions (agent o))) o).

(** *** [getFlags], [createFlag] *)

(** [SELECT * FROM feature_flags ORDER BY updated_at DESC] *)
Definition getFlags : D Reply :=
  o ← whole;
  mret {| code := 200;
          content := flag_list (map FlagRow.object
                                  (order_by_desc FlagRow.updated_at
                                     (feature_flags (agent o)))) |}.

(** The row [INSERT INTO feature_flags ...] writes. *)
Definition flag_row (flag : FeatureFlag.t) : FlagRow.t :=
  FlagRow.mk (FeatureFlag.id flag) (FeatureFlag.name flag)
    (text_or (FeatureFlag.description flag) "")
    (if FeatureFlag.enabled flag then 1%Z else 0%Z)
    (number_or (FeatureFlag.rolloutPercentage flag) 0)
    (text_or (FeatureFlag.targetEnvironment flag) "development")
    (FeatureFlag.createdAt flag) (FeatureFlag.updatedAt flag)
    (JSON_stringify rt (JArray (map JString (FeatureFlag.tags flag))))
    (text_or (FeatureFlag.owner flag) "system").

(** The change [createFlag] records for the flag it created. *)
Definition creation (id : string) (flag : FeatureFlag.t) : FlagChange.t :=
  FlagChange.mk id (FeatureFlag.id flag) (FeatureFlag.name flag) "created"
    JNull (JObject (FeatureFlag.object flag))
    (text_or (FeatureFlag.owner flag) "system")
    (FeatureFlag.createdAt flag)
    (FeatureFlag.targetEnvironment flag).

(** [flag] once [createFlag] has set its [id], [createdAt] and [updatedAt]. *)
Definition stamped (id createdAt : string) (flag : FeatureFlag.t) : FeatureFlag.t :=
  FeatureFlag.mk id (FeatureFlag.name flag) (FeatureFlag.description flag)
    (FeatureFlag.enabled flag) (FeatureFlag.rolloutPercentage flag)
    (FeatureFlag.targetEnvironment flag) createdAt createdAt
    (FeatureFlag.tags flag) (FeatureFlag.owner flag).

(** [id] is the primary key of [feature_flags]. *)
Definition createFlag (flag : FeatureFlag.t) : D Reply :=
  id ← (if String.eqb (FeatureFlag.id flag) "" then lift (crypto_randomUUID env)
        else mret (FeatureFlag.id flag));
  createdAt ← lift (Date_now env);
  let flag := stamped id createdAt flag in
  o ← whole;
  if existsb (fun r => String.eqb (FlagRow.id r) id) (feature_flags (agent o))
  then reject
  else
    lift (modify (with_feature_flags (fun rows => rows ++ [flag_row flag])));;
    changeId ← lift (crypto_randomUUID env);
    lift (recordFlagChange rt env (creation changeId flag));;
    announce (flag_created flag);;
    mret {| code := 201; content := created_flag flag |}.

(** *** [getPredictions] *)

Definition getPredictions : D Reply :=
  predictions ← lift (getAllPredictions rt);
  mret {| code := 200; content := prediction_list predictions |}.

(** *** [processChat], [handleChat] *)

(** [INSERT INTO conversations ...]: [id] is the primary key. *)
Definition insert_conversation (row : ConversationRow.t) : D unit :=
  o ← whole;
  if existsb (fun r => String.eqb (ConversationRow.id r) (ConversationRow.id row))
       (conversations o)
  then reject
  else update (with_conversations (fun rows => rows ++ [row])).

(** [SELECT * FROM conversations WHERE session_id = ? ORDER BY timestamp DESC
    LIMIT 10], reversed. *)
Definition history_of (sessionId : string) (o : Durable) : list JsObject :=
  rev (map ConversationRow.object
         (select_desc (fun r => String.eqb (ConversationRow.session_id r) sessionId)
            ConversationRow.timestamp 10 (conversations o))).

(** [xs.join(separator) || fallback] *)
Definition join_or (separator : string) (xs : list string) (fallback : string) : string :=
  text_or (String.concat separator xs) fallback.

Definition flag_line (f : JsObject) : string :=
  String.concat ""
    [ ToString rt (own "name" f); " (";
      (if ToBoolean (own "enabled" f) then "enabled" else "disabled"); ", ";
      ToString rt (js_or (js_or (own "rollout_percentage" f) (own "rolloutPercentage" f))
                     (JNumber 0));
      "% rollout)" ].

Definition prediction_line (p : JsObject) : string :=
  String.concat ""
    [ ToString rt (js_or (own "flag_name" p) (own "flagName" p)); ": ";
      ToString rt (js_or (own "risk_level" p) (own "riskLevel" p)); " risk" ].

Definition anomaly_line (a : JsObject) : string :=
  String.concat ""
    [ "- "; ToString rt (js_or (own "flag_name" a) (own "flagName" a)); ": ";
      ToString rt (own "message" a); " ("; ToString rt (own "severity" a); ")" ].

Definition systemPrompt (flags predictions anomalies : list JsObject) : string :=
  String.concat nl
    [ "You are an AI assistant for Feature Flag Impact Analysis. You help users understand:";
      "- Current feature flag states and their configurations";
      "- Impact predictions for flag changes";
      "- Active anomalies and recommended actions";
      "- Historical patterns and insights";
      "";
      "Current System State:";
      "- Active Flags: " +:+ Number_toString rt (float_of_nat (length flags));
      "- Flags: " +:+ join_or ", " (map flag_line flags) "None";
      "- Active Anomalies: " +:+ Number_toString rt (float_of_nat (length anomalies));
      "- Recent Predictions: "
        +:+ join_or ", " (map prediction_line (take 3 predictions)) "None";
      "";
      (if (0 <? length anomalies)%nat
       then nl +:+ "Active Anomalies:" +:+ nl
            +:+ String.concat nl (map anomaly_line anomalies)
       else "");
      "";
      "Be concise, helpful, and proactive in suggesting actions. If users ask about specific flags, provide detailed analysis." ].

(** The array [messages]: the system prompt, the [role] and the [content]
    of each row of the history (two text columns), the message. *)
Definition chat_messages (flags predictions anomalies history : list JsObject)
    (message : string) : list (string * string) :=
  [("system", systemPrompt flags predictions anomalies)]
  ++ map (fun h => (ToString rt (own "role" h), ToString rt (own "content" h))) history
  ++ [("user", message)].

Definition chat_request (messages : list (string * string)) : AiRequest :=
  {| model := "@cf/meta/llama-3.3-70b-instruct-fp8-fast";
     messages := messages;
     max_tokens := 512;
     temperature := 0.7 |}.

Definition apology : string :=
  "I apologize, but I encountered an issue processing your request. Please try again.".

(** The object of the [catch]. *)
Definition chat_failure (sessionId : string) : ChatResponse.t :=
  ChatResponse.mk "I encountered an error processing your request. Please try again."
    sessionId None.

(** [aiResponse.response || apology] *)
Definition assistant_text (response : option string) : string :=
  match response with
  | Some text => text_or text apology
  | None => apology
  end.

(** [SELECT * FROM feature_flags], in table order. *)
Definition all_flags (o : Durable) : list JsObject :=
  map FlagRow.object (feature_flags (agent o)).

(** [JSON.stringify({ flagsDiscussed: flags.map(f => f.id) })] *)
Definition discussed (flags : list JsObject) : string :=
  JSON_stringify rt (JObject [("flagsDiscussed", JArray (map (own "id") flags))]).

Definition processChat (message sessionId : string) : D ChatResponse.t :=
  userMsgId ← lift (crypto_randomUUID env);
  timestamp ← lift (Date_now env);
  insert_conversation
    (ConversationRow.mk userMsgId sessionId "user" message timestamp "{}");;
  o ← whole;
  let history := history_of sessionId o in
  let flags := all_flags o in
  predictions ← lift (getAllPredictions rt);
  anomalies ← lift (getRecentAnomalies rt);
  let messages := chat_messages flags predictions anomalies history message in
  catching
    (response ← lift (env_AI_run env (chat_request messages));
     let assistantMessage := assistant_text response in
     assistantMsgId ← lift (crypto_randomUUID env);
     timestamp ← lift (Date_now env);
     insert_conversation
       (ConversationRow.mk assistantMsgId sessionId "assistant" assistantMessage timestamp
          (discussed flags));;
     mret (ChatResponse.mk assistantMessage sessionId
             (Some (length flags, length anomalies, length predictions))))
    (mret (chat_failure sessionId)).

(** [processChat(message, sessionId || crypto.randomUUID())] *)
Definition handleChat (message sessionId : string) : D Reply :=
  sessionId ← (if String.eqb sessionId "" then lift (crypto_randomUUID env)
               else mret sessionId);
  response ← processChat message sessionId;
  mret {| code := 200; content := chat_reply response |}.

(** *** [handleWebSocket] and its listeners *)

Definition handleWebSocket : D Reply :=
  sessionId ← lift (crypto_randomUUID env);
  lift (modify (with_sessions (map_set sessionId)));;
  notify sessionId (connected sessionId);;
  mret {| code := 101; content := web_socket sessionId |}.

(** The listener of [close]. *)
Definition on_close (sessionId : string) : D unit :=
  lift (modify (with_sessions (map_delete sessionId))).

Section Listener.
(** The chat: [processChat] on [data.payload?.message || ''], its answer as
    a value. *)
Variable chat : JsVal -> string -> D JsVal.

(** [handleWebSocketMessage], with the chat on the whole object. *)
Definition handleWebSocketMessage_on (sessionId : string) (data : JsVal) : D unit :=
  type ← lift (read data "type");
  if is_string "chat" type then
    response ← chat (js_or (opt_member (opt_member data "payload") "message")
                       (JString "")) sessionId;
    lift (socket_send sessionId (chat_response response))
  else if is_string "subscribe_anomalies" type then
    anomalies ← lift (getRecentAnomalies rt);
    lift (socket_send sessionId (subscribed anomalies))
  else if is_string "get_predictions" type then
    predictions ← lift (getAllPredictions rt);
    lift (socket_send sessionId (predictions_frame predictions))
  else mret tt.

(** The listener of [message]. *)
Definition on_message (sessionId : string) (data : string) : D unit :=
  catching
    (match JSON_parse rt data with
     | Some data => handleWebSocketMessage_on sessionId data
     | None => reject
     end)
    (notify sessionId invalid_message).
End Listener.
End Object.

(** ** More observations *)

(** An outcome with [s] in the place of its state. *)
Definition moved {A} (r : Outcome A) (s : Agent) : Outcome A :=
  match r with
  | Returned a _ => Returned a s
  | Threw _ => Threw s
  end.

Section Created.
Variable env : Env.
Variable flag : FeatureFlag.t.
Variable o : Durable.

(** The state in which [createFlag] inserts the flag: an id (when [flag] has
    none) and a date were drawn. *)
Definition before_insert : Agent :=
  if String.eqb (FeatureFlag.id flag) "" then with_draw (with_draw (agent o))
  else with_draw (agent o).

(** The flag [createFlag] stores and answers with for [flag] on [o]. *)
Definition created : FeatureFlag.t :=
  stamped
    (if String.eqb (FeatureFlag.id flag) "" then randomUUID env (draws (agent o))
     else FeatureFlag.id flag)
    (toISOString env (draws before_insert - 1))
    flag.

(** The id it draws for the change that records the creation. *)
Definition creation_id : string := randomUUID env (draws before_insert).
End Created.

Section Asked.
Variable rt : Runtime.
Variable env : Env.
Variable message sessionId : string.
Variable o : Durable.

(** The row [processChat] stores for the message of the user. *)
Definition user_row : ConversationRow.t :=
  ConversationRow.mk (randomUUID env (draws (agent o))) sessionId "user" message
    (toISOString env (S (draws (agent o)))) "{}".

(** The object once that row is stored: two draws and one row later. *)
Definition asked : Durable :=
  with_conversations (fun rows => rows ++ [user_row])
    (with_agent (fun s => with_draw (with_draw s)) o).

(** The request [processChat] makes of the model, for the listings
    [predictions] and [anomalies]. *)
Definition request_of (predictions anomalies : list JsObject) : AiRequest :=
  chat_request
    (chat_messages rt (all_flags asked) predictions anomalies (history_of sessionId asked)
       message).

(** The row it stores for the answer [response] of the model. *)
Definition assistant_row (response : option string) : ConversationRow.t :=
  ConversationRow.mk (randomUUID env (3 + draws (agent o))) sessionId "assistant"
    (assistant_text response) (toISOString env (4 + draws (agent o)))
    (discussed rt (all_flags asked)).
End Asked.

(** What [processChat] leaves untouched between [o] and [o'], and what it
    adds: at most two rows of the session. *)
Definition only_conversations_of (sessionId : string) (o o' : Durable) : Prop :=
  feature_flags (agent o') = feature_flags (agent o)
  /\ flag_changes (agent o') = flag_changes (agent o)
  /\ impact_metrics (agent o') = impact_metrics (agent o)
  /\ predictions (agent o') = predictions (agent o)
  /\ anomalies (agent o') = anomalies (agent o)
  /\ sessions (agent o') = sessions (agent o)
  /\ sent (agent o') = sent (agent o)
  /\ notices o' = notices o
  /\ exists rows,
       conversations o' = conversations o ++ rows
       /\ Forall (fun r => ConversationRow.session_id r = sessionId) rows
       /\ length rows <= 2.

(** The text [getAllPredictions] hands to [JSON.parse] for the impact and
    for the recommendations of a row. *)
Definition impact_text (rt : Runtime) (r : PredictionRow.t) : string :=
  ToString rt (js_or (JString (PredictionRow.predicted_impact r)) (JString "{}")).

Definition recommendations_text (rt : Runtime) (r : PredictionRow.t) : string :=
  ToString rt (js_or (JString (PredictionRow.recommendations r)) (JString "[]")).

(** The rows of [SELECT * FROM predictions ORDER BY generated_at DESC]. *)
Definition predictions_by_date (s : Agent) : list PredictionRow.t :=
  order_by_desc PredictionRow.generated_at (map snd (map_to_list (predictions s))).

(** The object [getAllPredictions] lists for a row whose texts parse to
    [impact] and [advice]. *)
Definition listed_prediction (r : PredictionRow.t) (impact advice : JsVal) : JsObject :=
  set_prop "recommendations" advice
    (set_prop "predictedImpact" impact (PredictionRow.object r)).

(** Whether the character [c] occurs in [s]. *)
Fixpoint occurs (c : ascii) (s : string) : bool :=
  match s with
  | EmptyString => false
  | String c' s' => Ascii.eqb c' c || occurs c s'
  end.

(** The id [recordFlagChange] records [change] under in the state [s]. *)
Definition change_id (env : Env) (change : FlagChange.t) (s : Agent) : string :=
  if String.eqb (FlagChange.id change) "" then randomUUID env (draws s)
  else FlagChange.id change.

(** The five fields of a prediction that [generatePrediction] fills with
    [x || fallback] for a truthy fallback. *)
Definition filled (p : ImpactPrediction.t) : Prop :=
  ToBoolean (ImpactPrediction.riskLevel p) = true
  /\ ToBoolean (ImpactPrediction.riskScore p) = true
  /\ ToBoolean (ImpactPrediction.predictedImpact p) = true
  /\ ToBoolean (ImpactPrediction.recommendations p) = true
  /\ ToBoolean (ImpactPrediction.confidence p) = true.

(** What [generatePrediction] leaves untouched between [s] and [s']. *)
Definition only_predictions_of (flagId : string) (s s' : Agent) : Prop :=
  feature_flags s' = feature_flags s
  /\ flag_changes s' = flag_changes s
  /\ impact_metrics s' = impact_metrics s
  /\ anomalies s' = anomalies s
  /\ sessions s' = sessions s
  /\ sent s' = sent s
  /\ forall other, other <> flagId -> predictions s' !! other = predictions s !! other.

(** ** A reference runtime

    An executable [Runtime], to run the methods on concrete inputs. Texts are
    byte strings: a code unit above 127 written as [\uXXXX] becomes its UTF-8
    bytes, and properties keep insertion order. *)

Module Reference.

(** The float nearest to [s * 10^p], ties to even, for [0 <= s]. *)
Definition float_of_decimal (s p : Z) : float :=
  if (0 <=? p)%Z then float_of_Z (s * 10 ^ p)
  else
    let d := (10 ^ (- p))%Z in
    let t := (Z.log2 d + 70)%Z in
    let q := (s * 2 ^ t / d)%Z in
    let sticky := if (s * 2 ^ t mod d =? 0)%Z then 0%Z else 1%Z in
    SF2Prim (binary_normalize prec emax (2 * q + sticky) (- t - 1) false).

Definition digit_of (c : ascii) : option Z :=
  let n := Z.of_nat (nat_of_ascii c) in
  if ((48 <=? n) && (n <=? 57))%Z then Some (n - 48)%Z else None.

Definition hex_of (c : ascii) : option Z :=
  let n := Z.of_nat (nat_of_ascii c) in
  if ((48 <=? n) && (n <=? 57))%Z then Some (n - 48)%Z
  else if ((65 <=? n) && (n <=? 70))%Z then Some (n - 55)%Z
  else if ((97 <=? n) && (n <=? 102))%Z then Some (n - 87)%Z
  else None.

(** The digits at the head of [s]: their value on top of [acc], how many
    they are on top of [count], and the rest of [s]. *)
Fixpoint scan_digits (acc count : Z) (s : string) : Z * Z * string :=
  match s with
  | String c r =>
      match digit_of c with
      | Some d => scan_digits (10 * acc + d) (count + 1) r
      | None => (acc, count, s)
      end
  | EmptyString => (acc, count, s)
  end.

Definition scan_sign (s : string) : Z * string :=
  match s with
  | String c r =>
      if Ascii.eqb c "+" then (1%Z, r) else if Ascii.eqb c "-" then ((-1)%Z, r) else (1%Z, s)
  | EmptyString => (1%Z, s)
  end.

(** [e] or [E], a sign and digits, when they follow; exponent 0 otherwise. *)
Definition scan_exponent (s : string) : option (Z * string) :=
  match s with
  | String c r =>
      if Ascii.eqb c "e" || Ascii.eqb c "E" then
        let '(sign, r1) := scan_sign r in
        let '(v, n, r2) := scan_digits 0 0 r1 in
        if (n =? 0)%Z then None else Some ((sign * v)%Z, r2)
      else Some (0%Z, s)
  | EmptyString => Some (0%Z, s)
  end.

(** A JSON number at the head of [s]. *)
Definition json_number (s : string) : option (float * string) :=
  let '(negative, s0) :=
    match s with
    | String c r => if Ascii.eqb c "-" then (true, r) else (false, s)
    | EmptyString => (false, s)
    end in
  let '(i, ni, s1) := scan_digits 0 0 s0 in
  let leading_zero :=
    match s0 with String c _ => Ascii.eqb c "0" | EmptyString => false end in
  if (ni =? 0)%Z || (leading_zero && (1 <? ni)%Z) then None
  else
    let fraction :=
      match s1 with
      | String c r =>
          if Ascii.eqb c "." then
            let '(f, nf, s2) := scan_digits i 0 r in
            if (nf =? 0)%Z then None else Some (f, nf, s2)
          else Some (i, 0%Z, s1)
      | EmptyString => Some (i, 0%Z, s1)
      end in
    match fraction with
    | Some (mantissa, nf, s2) =>
        match scan_exponent s2 with
        | Some (e, s3) =>
            let x := float_of_decimal mantissa (e - nf) in
            Some (if negative then PrimFloat.opp x else x, s3)
        | None => None
        end
    | None => None
    end.

Definition is_json_space (c : ascii) : bool :=
  let n := nat_of_ascii c in
  Nat.eqb n 32 || Nat.eqb n 9 || Nat.eqb n 10 || Nat.eqb n 13.

Fixpoint skip_space (s : string) : string :=
  match s with
  | String c r => if is_json_space c then skip_space r else s
  | EmptyString => s
  end.

(** The UTF-8 bytes of a code unit. *)
Definition utf8 (u : Z) : string :=
  let byte (z : Z) := ascii_of_nat (Z.to_nat z) in
  if (u <? 128)%Z then String (byte u) EmptyString
  else if (u <? 2048)%Z then
    String (byte (192 + u / 64)%Z) (String (byte (128 + u mod 64)%Z) EmptyString)
  else
    String (byte (224 + u / 4096)%Z)
      (String (byte (128 + (u / 64) mod 64)%Z) (String (byte (128 + u mod 64)%Z) EmptyString)).

Definition escaped (c : ascii) : option ascii :=
  if Ascii.eqb c "b" then Some (ascii_of_nat 8)
  else if Ascii.eqb c "f" then Some (ascii_of_nat 12)
  else if Ascii.eqb c "n" then Some (ascii_of_nat 10)
  else if Ascii.eqb c "r" then Some (ascii_of_nat 13)
  else if Ascii.eqb c "t" then Some (ascii_of_nat 9)
  else if Ascii.eqb c "/" || Ascii.eqb c "\" || Nat.eqb (nat_of_ascii c) 34 then Some c
  else None.

(** A JSON string, from behind its opening quote. *)
Fixpoint json_string (s : string) : option (string * string) :=
  match s with
  | EmptyString => None
  | String c r =>
      if Nat.eqb (nat_of_ascii c) 34 then Some (EmptyString, r)
      else if Ascii.eqb c "\" then
        match r with
        | String e r1 =>
            if Ascii.eqb e "u" then
              match r1 with
              | String h1 (String h2 (String h3 (String h4 r2))) =>
                  match hex_of h1, hex_of h2, hex_of h3, hex_of h4, json_string r2 with
                  | Some a, Some b, Some c', Some d, Some (text, rest) =>
                      Some (utf8 (4096 * a + 256 * b + 16 * c' + d)%Z +:+ text, rest)
                  | _, _, _, _, _ => None
                  end
              | _ => None
              end
            else
              match escaped e, json_string r1 with
              | Some x, Some (text, rest) => Some (String x text, rest)
              | _, _ => None
              end
        | EmptyString => None
        end
      else if (nat_of_ascii c <? 32)%nat then None
      else
        match json_string r with
        | Some (text, rest) => Some (String c text, rest)
        | None => None
        end
  end.

Definition starts_with (p s : string) : option string :=
  if String.prefix p s then Some (substring (String.length p) (String.length s - String.length p) s)
  else None.

Fixpoint json_value (fuel : nat) (s : string) : option (JsVal * string) :=
  match fuel with
  | O => None
  | S fuel' =>
      match skip_space s with
      | EmptyString => None
      | String c r =>
          if Ascii.eqb c "{" then
            match skip_space r with
            | String c' r' =>
                if Ascii.eqb c' "}" then Some (JObject [], r') else json_members fuel' [] r
            | EmptyString => None
            end
          else if Ascii.eqb c "[" then
            match skip_space r with
            | String c' r' =>
                if Ascii.eqb c' "]" then Some (JArray [], r') else json_elements fuel' [] r
            | EmptyString => None
            end
          else if Nat.eqb (nat_of_ascii c) 34 then
            match json_string r with
            | Some (text, rest) => Some (JString text, rest)
            | None => None
            end
          else
            match starts_with "true" (String c r), starts_with "false" (String c r),
                  starts_with "null" (String c r) with
            | Some rest, _, _ => Some (JBool true, rest)
            | _, Some rest, _ => Some (JBool false, rest)
            | _, _, Some rest => Some (JNull, rest)
            | _, _, _ =>
                match json_number (String c r) with
                | Some (x, rest) => Some (JNumber x, rest)
                | None => None
                end
            end
      end
  end
with json_elements (fuel : nat) (seen : list JsVal) (s : string) : option (JsVal * string) :=
  match fuel with
  | O => None
  | S fuel' =>
      match json_value fuel' s with
      | Some (v, r) =>
          match skip_space r with
          | String c r' =>
              if Ascii.eqb c "," then json_elements fuel' (seen ++ [v]) r'
              else if Ascii.eqb c "]" then Some (JArray (seen ++ [v]), r')
              else None
          | EmptyString => None
          end
      | None => None
      end
  end
with json_members (fuel : nat) (seen : JsObject) (s : string) : option (JsVal * string) :=
  match fuel with
  | O => None
  | S fuel' =>
      match skip_space s with
      | String q r =>
          if Nat.eqb (nat_of_ascii q) 34 then
            match json_string r with
            | Some (k, r1) =>
                match skip_space r1 with
                | String c r2 =>
                    if Ascii.eqb c ":" then
                      match json_value fuel' r2 with
                      | Some (v, r3) =>
                          match skip_space r3 with
                          | String c' r4 =>
                              if Ascii.eqb c' "," then json_members fuel' (set_prop k v seen) r4
                              else if Ascii.eqb c' "}" then Some (JObject (set_prop k v seen), r4)
                              else None
                          | EmptyString => None
                          end
                      | None => None
                      end
                    else None
                | EmptyString => None
                end
            | None => None
            end
          else None
      | EmptyString => None
      end
  end.

(** [JSON.parse] *)
Definition parse (text : string) : option JsVal :=
  match json_value (2 * String.length text + 2) text with
  | Some (v, rest) =>
      match skip_space rest with
      | EmptyString => Some v
      | _ => None
      end
  | None => None
  end.

(** *** [Number::toString] *)

(** [floor (num / den * 10^a)] *)
Definition scaled_floor (num den a : Z) : Z :=
  if (0 <=? a)%Z then (num * 10 ^ a / den)%Z else (num / (den * 10 ^ (- a)))%Z.

(** The [n] with [10^(n-1) <= num/den < 10^n], for [0 < num/den]. *)
Definition decimal_exponent (num den : Z) : Z :=
  let guess := ((Z.log2 num - Z.log2 den) * 30103 / 100000)%Z in
  let fits (n : Z) := ((0 <? scaled_floor num den (1 - n)) && (scaled_floor num den (- n) =? 0))%Z in
  if fits (guess - 1)%Z then (guess - 1)%Z
  else if fits guess then guess
  else if fits (guess + 1)%Z then (guess + 1)%Z
  else (guess + 2)%Z.

(** The candidates with [k] digits around [num/den], those that read back as
    [x], the closer one first (the even one on a tie). *)
Definition candidates (x : float) (num den n : Z) (k : Z) : list Z :=
  let lo := scaled_floor num den (k - n) in
  let hi := (lo + 1)%Z in
  let reads_back (c : Z) := PrimFloat.eqb (float_of_decimal c (n - k)) x in
  let twice := scaled_floor (2 * num) den (k - n) in
  let exact := if (0 <=? k - n)%Z then ((2 * num * 10 ^ (k - n)) mod den =? 0)%Z
               else ((2 * num) mod (den * 10 ^ (n - k)) =? 0)%Z in
  let lo_first :=
    if (twice <? 2 * lo + 1)%Z then true
    else if (twice =? 2 * lo + 1)%Z && exact then Z.even lo
    else false in
  List.filter reads_back (if lo_first then [lo; hi] else [hi; lo]).

Fixpoint shortest (fuel : nat) (x : float) (num den n k : Z) : Z * Z :=
  match fuel with
  | O => (scaled_floor num den (k - n), k)
  | S fuel' =>
      match candidates x num den n k with
      | c :: _ => (c, k)
      | [] => shortest fuel' x num den n (k + 1)
      end
  end.

Fixpoint strip_zeros (fuel : nat) (c n : Z) : Z * Z :=
  match fuel with
  | O => (c, n)
  | S fuel' => if ((c mod 10 =? 0) && (0 <? c))%Z then strip_zeros fuel' (c / 10) n else (c, n)
  end.

Definition exponent_text (e : Z) : string :=
  (if (e <? 0)%Z then "-" else "+") +:+ dec_of_N (Z.to_N (Z.abs e)).

Definition to_string (x : float) : string :=
  if PrimFloat.is_nan x then "NaN"
  else if PrimFloat.is_zero x then "0"
  else if PrimFloat.is_infinity x then (if PrimFloat.ltb x 0 then "-Infinity" else "Infinity")
  else
    let '(m, e) := magnitude x in
    let num := (if (0 <=? e)%Z then m * 2 ^ e else m)%Z in
    let den := (if (0 <=? e)%Z then 1 else 2 ^ (- e))%Z in
    let n0 := decimal_exponent num den in
    let '(c0, k0) := shortest 17 (PrimFloat.abs x) num den n0 1 in
    let digits0 := dec_of_N (Z.to_N c0) in
    let n := (n0 + (Z.of_nat (String.length digits0) - k0))%Z in
    let '(c, _) := strip_zeros 20 c0 0 in
    let digits := dec_of_N (Z.to_N c) in
    let k := Z.of_nat (String.length digits) in
    (if PrimFloat.ltb x 0 then "-" else "") +:+
    (if ((k <=? n) && (n <=? 21))%Z then digits +:+ zeros (Z.to_nat (n - k))
     else if ((0 <? n) && (n <=? 21))%Z then
       substring 0 (Z.to_nat n) digits +:+ "." +:+ substring (Z.to_nat n) (Z.to_nat (k - n)) digits
     else if ((-6 <? n) && (n <=? 0))%Z then "0." +:+ zeros (Z.to_nat (- n)) +:+ digits
     else if (k =? 1)%Z then digits +:+ "e" +:+ exponent_text (n - 1)
     else substring 0 1 digits +:+ "." +:+ substring 1 (Z.to_nat (k - 1)) digits
          +:+ "e" +:+ exponent_text (n - 1)).

(** *** [JSON.stringify] *)

Definition hex_digit (n : nat) : ascii :=
  ascii_of_nat (if (n <? 10)%nat then 48 + n else 87 + n).

Fixpoint quote_body (s : string) : string :=
  match s with
  | EmptyString => EmptyString
  | String c r =>
      let n := nat_of_ascii c in
      (if Nat.eqb n 34 then "\" +:+ dq
       else if Nat.eqb n 92 then "\\"
       else if Nat.eqb n 8 then "\b"
       else if Nat.eqb n 12 then "\f"
       else if Nat.eqb n 10 then "\n"
       else if Nat.eqb n 13 then "\r"
       else if Nat.eqb n 9 then "\t"
       else if (n <? 32)%nat then
         "\u00" +:+ String (hex_digit (n / 16)) (String (hex_digit (n mod 16)) EmptyString)
       else String c EmptyString) +:+ quote_body r
  end.

Definition quote (s : string) : string := dq +:+ quote_body s +:+ dq.

(** [JSON.stringify(v)]; the text ["undefined"] where JavaScript gives
    [undefined]. *)
Fixpoint stringify (v : JsVal) : string :=
  match v with
  | JUndefined => "undefined"
  | JNull => "null"
  | JBool b => if b then "true" else "false"
  | JNumber x => if PrimFloat.is_finite x then to_string x else "null"
  | JString s => quote s
  | JArray items =>
      "[" +:+ String.concat ","
                (map (fun x => match x with JUndefined => "null" | _ => stringify x end) items)
          +:+ "]"
  | JObject props =>
      "{" +:+ String.concat ","
                (omap id
                   (map (fun '(k, x) => match x with
                                        | JUndefined => None
                                        | _ => Some (quote k +:+ ":" +:+ stringify x)
                                        end) props))
          +:+ "}"
  end.

(** *** [StringToNumber] *)

Definition is_space (c : ascii) : bool :=
  let n := nat_of_ascii c in
  Nat.eqb n 32 || ((9 <=? n)%nat && (n <=? 13)%nat).

Fixpoint trim_end (s : string) : string :=
  match s with
  | EmptyString => EmptyString
  | String c r =>
      match trim_end r with
      | EmptyString => if is_space c then EmptyString else String c EmptyString
      | r' => String c r'
      end
  end.

Fixpoint trim_start (s : string) : string :=
  match s with
  | String c r => if is_space c then trim_start r else s
  | EmptyString => s
  end.

(** Digits of a base at the head of [s]: value, count, rest. *)
Fixpoint scan_radix (base acc count : Z) (s : string) : Z * Z * string :=
  match s with
  | String c r =>
      match hex_of c with
      | Some d => if (d <? base)%Z then scan_radix base (base * acc + d) (count + 1) r
                  else (acc, count, s)
      | None => (acc, count, s)
      end
  | EmptyString => (acc, count, s)
  end.

Definition radix_literal (s : string) : option float :=
  match s with
  | String z (String b r) =>
      let base :=
        if Ascii.eqb b "x" || Ascii.eqb b "X" then 16%Z
        else if Ascii.eqb b "o" || Ascii.eqb b "O" then 8%Z
        else if Ascii.eqb b "b" || Ascii.eqb b "B" then 2%Z
        else 0%Z in
      if Ascii.eqb z "0" && negb (base =? 0)%Z then
        match scan_radix base 0 0 r with
        | (v, n, EmptyString) => if (n =? 0)%Z then None else Some (float_of_Z v)
        | _ => None
        end
      else None
  | _ => None
  end.

Definition decimal_literal (s : string) : option float :=
  let '(sign, s0) := scan_sign s in
  let signed (x : float) := if (sign <? 0)%Z then PrimFloat.opp x else x in
  if String.eqb s0 "Infinity" then Some (signed PrimFloat.infinity)
  else
    let '(i, ni, s1) := scan_digits 0 0 s0 in
    let '(f, nf, s2) :=
      match s1 with
      | String c r => if Ascii.eqb c "." then scan_digits i 0 r else (i, 0%Z, s1)
      | EmptyString => (i, 0%Z, s1)
      end in
    if (ni + nf =? 0)%Z then None
    else
      match scan_exponent s2 with
      | Some (e, EmptyString) => Some (signed (float_of_decimal f (e - nf)))
      | _ => None
      end.

Definition to_number (s : string) : float :=
  let t := trim_end (trim_start s) in
  if String.eqb t "" then 0%float
  else
    match radix_literal t, decimal_literal t with
    | Some x, _ => x
    | None, Some x => x
    | None, None => PrimFloat.nan
    end.

Definition runtime : Runtime :=
  {| JSON_parse := parse;
     JSON_stringify := stringify;
     Number_toString := to_string;
     String_toNumber := to_number;
     sql_accepts := fun _ => false |}.

End Reference.

(** ** Scenarios

    Concrete inputs the properties below are run on, under the reference
    runtime. *)

Module Scenario.

Definition two_digits (n : nat) : string :=
  (if (n <? 10)%nat then "0" else "") +:+ dec_of_N (N.of_nat n).

(** A world whose ids and dates count the draws, and whose model gives
    [first] to the request made at draw 0 and fails afterwards. *)
Definition world (first : AiOutcome) : Env :=
  {| AI_run := fun n _ => if Nat.eqb n 0 then first else AiRejects;
     randomUUID := fun n => "id-" +:+ dec_of_N (N.of_nat n);
     toISOString := fun n => "2025-06-01T12:00:" +:+ two_digits n +:+ ".000Z" |}.

(** An agent with one flag, one open socket and empty logs. *)
Definition start : Agent :=
  {| feature_flags :=
       [ FlagRow.mk "F" "checkout-v2" "New checkout flow" 1 25 "production"
           "2025-05-01T09:00:00.000Z" "2025-05-01T09:00:00.000Z" "[]" "alice" ];
     flag_changes := [];
     impact_metrics := [];
     predictions := ∅;
     anomalies := [];
     sessions := ["session-1"];
     sent := [];
     draws := 0 |}.

(** A change of flag [F] to a rollout of 25 percent. *)
Definition rollout : FlagChange.t :=
  FlagChange.mk "change-1" "F" "checkout-v2" "rollout_changed"
    (JObject [("rolloutPercentage", JNumber 10)])
    (JObject [("rolloutPercentage", JNumber 25)])
    "alice" "2025-06-01T11:59:00.000Z" "production".

(** A sample of flag [F] taken at second [n] of 11:00. *)
Definition sample (n : nat) (errorRate latencyP50 : float) : ImpactMetrics.t :=
  ImpactMetrics.mk "F" ("2025-06-01T11:00:" +:+ two_digits n +:+ ".000Z")
    errorRate latencyP50 (latencyP50 * 2) 1000 0.1 4.5.

(** The state after [POST /metrics] with each sample in turn. *)
Definition ingest (env : Env) (samples : list ImpactMetrics.t) (s : Agent) : Agent :=
  fold_left (fun s m => final_state (recordMetrics Reference.runtime env m s)) samples s.

(** Error rates 1, 1, 1, 1, 1, 5, oldest first, at a steady latency. *)
Definition six_samples : list ImpactMetrics.t :=
  [ sample 1 1 50; sample 2 1 50; sample 3 1 50; sample 4 1 50; sample 5 1 50;
    sample 6 5 50 ].

(** One old sample at error rate 1, five newer ones at error rate [recent]. *)
Definition error_window (recent : float) : list ImpactMetrics.t :=
  [ sample 1 1 50; sample 2 recent 50; sample 3 recent 50; sample 4 recent 50;
    sample 5 recent 50; sample 6 recent 50 ].

(** One old sample at latency 50, five newer ones at latency [recent]. *)
Definition latency_window (recent : float) : list ImpactMetrics.t :=
  [ sample 1 1 50; sample 2 1 recent; sample 3 1 recent; sample 4 1 recent;
    sample 5 1 recent; sample 6 1 recent ].

(** A window as an array of objects of the interface, newest first. *)
Definition as_interface (samples : list ImpactMetrics.t) : list JsObject :=
  map ImpactMetrics.object (rev samples).

(** Responses of the model. *)
Definition prose : string := "I could not assess this change.".

Definition broken : string := "Risk: {riskLevel: high}".

Definition zero_risk : string :=
  String.concat dq
    [ "Here is my analysis: {"; "riskLevel"; ": "; "low"; ", "; "riskScore"; ": 0, ";
      "predictedImpact"; ": {"; "errorRateChange"; ": 0, "; "latencyChange"; ": 0, ";
      "userImpactPercentage"; ": 25}, "; "recommendations"; ": ["; "Proceed"; "], ";
      "reasoning"; ": "; "No risk found"; ", "; "confidence"; ": 0}" ].

Definition confident : string :=
  String.concat dq
    [ "{"; "riskLevel"; ": "; "high"; ", "; "riskScore"; ": 250, ";
      "predictedImpact"; ": {"; "errorRateChange"; ": 2.5, "; "latencyChange"; ": 40, ";
      "userImpactPercentage"; ": 25}, "; "recommendations"; ": ["; "Roll out slowly"; "], ";
      "reasoning"; ": "; "Large blast radius"; ", "; "confidence"; ": 0.9}" ].

(** Thirty anomalies of flag [F], one a minute from 10:01 on, every fourth
    one resolved. *)
Definition alarm (n : nat) : AnomalyRow.t :=
  AnomalyRow.mk ("alarm-" +:+ two_digits n) "F" "checkout-v2" "error_spike" "warning"
    ("2025-06-01T10:" +:+ two_digits n +:+ ":00.000Z") "{}"
    "Error rate increased by 80.0% since flag change"
    (if (n mod 4 =? 0)%nat then 1%Z else 0%Z).

Definition crowded : Agent :=
  with_anomalies (fun _ => map alarm (seq 1 30)) start.

End Scenario.

(** ** Scenarios on the whole object *)

Module Office.

(** A world whose ids and dates count the draws, and whose model gives
    [reply] to the request made at draw 2, where [processChat] makes its
    own, and fails otherwise. *)
Definition world (reply : AiOutcome) : Env :=
  {| AI_run := fun n _ => if Nat.eqb n 2 then reply else AiRejects;
     randomUUID := fun n => "id-" +:+ dec_of_N (N.of_nat n);
     toISOString := fun n => "2025-06-01T12:00:" +:+ Scenario.two_digits n +:+ ".000Z" |}.

(** The agent of [Scenario.start], with no conversation yet. *)
Definition opened : Durable :=
  {| agent := Scenario.start; conversations := []; notices := [] |}.

(** A body of [POST /flags] without an id, with an empty description,
    environment and owner. *)
Definition dark_mode : FeatureFlag.t :=
  FeatureFlag.mk "" "dark-mode" "" true 0 "" "" "" [] "".

(** A session with twelve messages, one a second from 11:00:01 on. *)
Definition said (n : nat) : ConversationRow.t :=
  ConversationRow.mk ("m-" +:+ Scenario.two_digits n) "session-1"
    (if Nat.even n then "assistant" else "user")
    ("message " +:+ Scenario.two_digits n)
    ("2025-06-01T11:00:" +:+ Scenario.two_digits n +:+ ".000Z") "{}".

Definition busy : Durable :=
  {| agent := Scenario.start; conversations := map said (seq 1 12); notices := [] |}.

End Office.

(** * Properties *)

Import Scenario.

(** Two floats that [==] tells apart are different. *)
Lemma float_neq (x y : float) : PrimFloat.eqb x y = false -> PrimFloat.eqb y y = true -> x <> y.
Proof. intros H1 H2 ->. congruence. Qed.

(** Split a conjunction of closed facts and evaluate each. *)
Ltac evaluate :=
  cbv zeta; repeat match goal with |- _ /\ _ => split end; vm_compute; reflexivity.

Ltac differ :=
  let H := fresh in
  intro H; cbn in H;
  first [ discriminate H
        | injection H as H; revert H; apply float_neq; vm_compute; reflexivity ].

(** ** Text order *)

Lemma ascii_compare_trans (c : comparison) (a b d : ascii) :
  Ascii.compare a b = c -> Ascii.compare b d = c -> Ascii.compare a d = c.
Proof.
  unfold Ascii.compare. intros H1 H2.
  destruct c.
  - apply N.compare_eq_iff in H1, H2. apply N.compare_eq_iff. congruence.
  - rewrite N.compare_lt_iff in *. lia.
  - rewrite N.compare_gt_iff in *. lia.
Qed.

Lemma ascii_compare_refl (a : ascii) : Ascii.compare a a = Eq.
Proof. unfold Ascii.compare. apply N.compare_refl. Qed.

Lemma string_compare_eq (s1 s2 : string) : String.compare s1 s2 = Eq -> s1 = s2.
Proof. apply String.compare_eq_iff. Qed.

Lemma string_compare_refl (s : string) : String.compare s s = Eq.
Proof. induction s as [|a s IH]; simpl; [easy|]. now rewrite ascii_compare_refl. Qed.

Lemma string_compare_lt_trans (s1 : string) :
  forall s2 s3, String.compare s1 s2 = Lt -> String.compare s2 s3 = Lt ->
                String.compare s1 s3 = Lt.
Proof.
  induction s1 as [|a s1 IH]; intros [|b s2] [|d s3]; simpl; try congruence.
  destruct (Ascii.compare a b) eqn:Hab; try discriminate;
    destruct (Ascii.compare b d) eqn:Hbd; try discriminate; intros H1 H2.
  - apply Ascii.compare_eq_iff in Hab, Hbd. subst.
    rewrite ascii_compare_refl. eauto.
  - apply Ascii.compare_eq_iff in Hab. subst. now rewrite Hbd.
  - apply Ascii.compare_eq_iff in Hbd. subst. now rewrite Hab.
  - now rewrite (ascii_compare_trans Lt a b d).
Qed.

Lemma leb_trans (s1 s2 s3 : string) :
  String.leb s1 s2 = true -> String.leb s2 s3 = true -> String.leb s1 s3 = true.
Proof.
  unfold String.leb.
  destruct (String.compare s1 s2) eqn:H12; try discriminate;
    destruct (String.compare s2 s3) eqn:H23; try discriminate; intros _ _.
  - apply string_compare_eq in H12, H23. subst. now rewrite string_compare_refl.
  - apply string_compare_eq in H12. subst. now rewrite H23.
  - apply string_compare_eq in H23. subst. now rewrite H12.
  - now rewrite (string_compare_lt_trans s1 s2 s3).
Qed.

Lemma leb_refl (s : string) : String.leb s s = true.
Proof. unfold String.leb. now rewrite string_compare_refl. Qed.

(** ** [ORDER BY ... DESC LIMIT n] *)

Section Ordering.
Context {R : Type} (key : R -> string).

#[local] Abbreviation before := (before key).

Lemma before_trans (x y z : R) : before x y -> before y z -> before x z.
Proof. unfold before. intros H1 H2. eapply leb_trans; eauto. Qed.

Lemma before_total (x y : R) : before x y \/ before y x.
Proof. unfold before. apply String.leb_total. Qed.

Lemma length_insert_desc (x : R) (l : list R) :
  length (insert_desc key x l) = S (length l).
Proof.
  induction l as [|y l IH]; simpl; [reflexivity|].
  destruct (String.leb (key y) (key x)); simpl; congruence.
Qed.

Lemma length_order_by_desc (l : list R) : length (order_by_desc key l) = length l.
Proof.
  induction l as [|x l IH]; [reflexivity|].
  unfold order_by_desc in *. simpl. now rewrite length_insert_desc, IH.
Qed.

Lemma elem_of_insert_desc (x y : R) (l : list R) :
  y ∈ insert_desc key x l <-> y = x \/ y ∈ l.
Proof.
  induction l as [|z l IH]; simpl.
  - now rewrite list_elem_of_singleton, elem_of_nil; intuition.
  - destruct (String.leb (key z) (key x)).
    + now rewrite elem_of_cons.
    + rewrite !elem_of_cons, IH. tauto.
Qed.

Lemma elem_of_order_by_desc (y : R) (l : list R) : y ∈ order_by_desc key l <-> y ∈ l.
Proof.
  induction l as [|x l IH]; [reflexivity|].
  unfold order_by_desc in *. simpl. rewrite elem_of_insert_desc, IH, elem_of_cons.
  tauto.
Qed.

Lemma insert_desc_sorted (x : R) (l : list R) :
  StronglySorted before l -> StronglySorted before (insert_desc key x l).
Proof.
  induction 1 as [|y l Hl IH Hy]; simpl.
  - repeat constructor.
  - destruct (String.leb (key y) (key x)) eqn:Hyx.
    + constructor; [now constructor|].
      constructor; [exact Hyx|].
      eapply Forall_impl; [exact Hy|]. intros z Hz. eapply before_trans; eauto.
    + constructor; [exact IH|].
      apply Forall_forall. intros z Hz. apply elem_of_insert_desc in Hz as [->|Hz].
      * destruct (before_total x y) as [H|H]; [unfold before in H; congruence|exact H].
      * rewrite Forall_forall in Hy. auto.
Qed.

Lemma order_by_desc_sorted (l : list R) : StronglySorted before (order_by_desc key l).
Proof.
  induction l as [|x l IH]; [constructor|].
  unfold order_by_desc in *. simpl. now apply insert_desc_sorted.
Qed.

Lemma length_select_desc (cond : R -> bool) (n : nat) (rows : list R) :
  length (select_desc cond key n rows) = min n (length (List.filter cond rows)).
Proof. unfold select_desc. now rewrite length_take, length_order_by_desc. Qed.

Lemma select_desc_sorted (cond : R -> bool) (n : nat) (rows : list R) :
  StronglySorted before (select_desc cond key n rows).
Proof.
  unfold select_desc.
  pose proof (order_by_desc_sorted (List.filter cond rows)) as H.
  rewrite <- (take_drop n (order_by_desc key (List.filter cond rows))) in H.
  now apply StronglySorted_app_1_l in H.
Qed.

Lemma elem_of_select_desc (cond : R -> bool) (n : nat) (rows : list R) (x : R) :
  x ∈ select_desc cond key n rows -> x ∈ rows /\ cond x = true.
Proof.
  unfold select_desc. intros H. apply elem_of_take in H as (i & H & _).
  apply list_elem_of_lookup_2 in H. rewrite elem_of_order_by_desc in H.
  rewrite list_elem_of_In, filter_In in H. now rewrite <- list_elem_of_In in H.
Qed.

(** A row the [WHERE] clause keeps and the [LIMIT] drops comes no earlier
    than any row of the result. *)
Lemma select_desc_newest (cond : R -> bool) (n : nat) (rows : list R) (x y : R) :
  y ∈ select_desc cond key n rows ->
  x ∈ rows -> cond x = true -> x ∉ select_desc cond key n rows ->
  before y x.
Proof.
  unfold select_desc. intros Hy Hx Hc Hnot.
  set (L := order_by_desc key (List.filter cond rows)) in *.
  assert (x ∈ L) as HxL.
  { unfold L. rewrite elem_of_order_by_desc, list_elem_of_In, filter_In.
    now rewrite <- list_elem_of_In. }
  rewrite <- (take_drop n L) in HxL. apply elem_of_app in HxL as [HxL|HxL]; [easy|].
  pose proof (order_by_desc_sorted (List.filter cond rows)) as H. fold L in H.
  rewrite <- (take_drop n L) in H.
  eapply StronglySorted_app_1_elem_of; eauto.
Qed.
End Ordering.

(** ** The detector needs six samples *)

Lemma length_metrics_query (flagId : string) (n : nat) (s : Agent) :
  length (metrics_query flagId n s)
  = min n (length (List.filter (fun r => String.eqb (MetricsRow.flag_id r) flagId)
                     (impact_metrics s))).
Proof. unfold metrics_query. now rewrite length_map, length_select_desc. Qed.

Lemma detectAnomalies_over_short rt env flagId metrics s :
  length metrics <= 5 -> detectAnomalies_over rt env flagId metrics s = Returned tt s.
Proof.
  intros H. unfold detectAnomalies_over.
  destruct (length metrics <? 5)%nat eqn:H5; [reflexivity|].
  apply Nat.ltb_ge in H5.
  replace (length (drop 5 metrics) =? 0)%nat with true; [reflexivity|].
  symmetry. apply Nat.eqb_eq. rewrite length_drop. lia.
Qed.

(** C7. With at most five stored samples of a flag (fewer than five, or
    exactly five and so no baseline), [detectAnomalies] returns without an
    error and leaves the state as it found it: no row, no frame, no draw. *)
Theorem detectAnomalies_needs_six_samples rt env flagId s :
  length (List.filter (fun r => String.eqb (MetricsRow.flag_id r) flagId) (impact_metrics s)) <= 5 ->
  detectAnomalies rt env flagId s = Returned tt s.
Proof.
  intros H. unfold detectAnomalies. cbn.
  apply detectAnomalies_over_short. rewrite length_metrics_query. lia.
Qed.


Lemma detectAnomalies_needs_six_samples_witness :
  let rt := Reference.runtime in
  let env := world AiRejects in
  let five := ingest env (take 5 six_samples) start in
  map MetricsRow.error_rate (impact_metrics five) = [1; 1; 1; 1; 1]%float
  /\ detectAnomalies rt env "F" five = Returned tt five.
Proof.
  cbv zeta. split; [vm_compute; reflexivity|].
  apply detectAnomalies_needs_six_samples. vm_compute. lia.
Defined.

(** ** The prompt without history *)

(** C8. Over an empty history both averages are 0, computed without a
    division, and the block of the prompt that reports them reads 0.00 for
    each; [buildPredictionPrompt] is a function of its three arguments, with a
    prompt for every input. *)
Theorem buildPredictionPrompt_no_history rt (change : FlagChange.t)
    (recentChanges : list JsObject) :
  avgErrorRate rt [] = 0%float
  /\ avgLatency rt [] = 0%float
  /\ PrimFloat.is_nan (average rt "errorRate" []) = true
  /\ historical_metrics rt []
     = String.concat ""
         [ "## Historical Metrics (Last "; Number_toString rt 0; " data points)"; nl;
           "- Average Error Rate: 0.00%"; nl;
           "- Average Latency (P50): 0.00ms"; nl;
           "- Total Request Count: "; Number_toString rt 0; nl ]
  /\ buildPredictionPrompt rt change [] recentChanges
     = String.concat ""
         [ nl; "Analyze this feature flag change and predict its impact:"; nl; nl;
           flag_change_details rt change; nl;
           historical_metrics rt []; nl;
           recent_change_history rt recentChanges; nl;
           closing_instructions change ].
Proof.
  repeat split; reflexivity.
Qed.

(** ** What the detector reads off a stored row *)

Lemma nan_div (y : float) : (PrimFloat.nan / y)%float = PrimFloat.nan.
Proof.
  apply Prim2SF_inj. rewrite div_spec. reflexivity.
Qed.

Lemma sum_of_missing rt (k : string) (rows : list JsObject) :
  Forall (fun m => own k m = JUndefined) rows -> rows <> [] ->
  sum_of rt k rows = JNumber PrimFloat.nan.
Proof.
  unfold sum_of. intros H Hne.
  assert (forall acc, acc = JNumber 0 \/ acc = JNumber PrimFloat.nan ->
            rows <> [] ->
            fold_left (fun sum m => js_add rt sum (own k m)) rows acc = JNumber PrimFloat.nan) as G.
  { clear Hne. induction H as [|m rows Hm _ IH]; intros acc Hacc Hne; [congruence|].
    simpl. rewrite Hm.
    assert (js_add rt acc JUndefined = JNumber PrimFloat.nan) as ->
      by (destruct Hacc as [-> | ->]; reflexivity).
    destruct rows as [|m' rows']; [reflexivity|].
    apply IH; [now right|discriminate]. }
  apply G; auto.
Qed.

Lemma average_of_missing rt (k : string) (rows : list JsObject) :
  Forall (fun m => own k m = JUndefined) rows -> rows <> [] ->
  average rt k rows = PrimFloat.nan.
Proof.
  intros H Hne. unfold average, js_div. rewrite sum_of_missing by assumption.
  apply nan_div.
Qed.

(** A row of [impact_metrics] has neither of the two properties the detector
    sums. *)
Lemma stored_row_lacks (r : MetricsRow.t) :
  own "errorRate" (MetricsRow.object r) = JUndefined
  /\ own "latencyP50" (MetricsRow.object r) = JUndefined.
Proof. split; reflexivity. Qed.

Lemma nonempty_length {A} (l : list A) : 0 < length l -> l <> [].
Proof. destruct l; simpl; [lia|discriminate]. Qed.

Lemma detectAnomalies_over_missing rt env flagId (metrics : list JsObject) s :
  Forall (fun m => own "errorRate" m = JUndefined) metrics ->
  Forall (fun m => own "latencyP50" m = JUndefined) metrics ->
  detectAnomalies_over rt env flagId metrics s = Returned tt s.
Proof.
  intros He Hl. unfold detectAnomalies_over.
  destruct (length metrics <? 5)%nat eqn:H5; [reflexivity|].
  apply Nat.ltb_ge in H5.
  destruct (length (drop 5 metrics) =? 0)%nat eqn:H0; [reflexivity|].
  apply Nat.eqb_neq in H0.
  assert (take 5 metrics <> []) as Hr by (apply nonempty_length; rewrite length_take; lia).
  assert (drop 5 metrics <> []) as Hb by (apply nonempty_length; lia).
  pose proof (average_of_missing rt _ _ (Forall_take _ 5 _ He) Hr) as E1.
  pose proof (average_of_missing rt _ _ (Forall_drop _ 5 _ He) Hb) as E2.
  pose proof (average_of_missing rt _ _ (Forall_take _ 5 _ Hl) Hr) as E3.
  pose proof (average_of_missing rt _ _ (Forall_drop _ 5 _ Hl) Hb) as E4.
  rewrite E1, E2, E3, E4. reflexivity.
Qed.

Lemma detectAnomalies_never_fires rt env flagId s :
  detectAnomalies rt env flagId s = Returned tt s.
Proof.
  unfold detectAnomalies, mbind, M_bind, get_state.
  apply detectAnomalies_over_missing; unfold metrics_query;
    apply Forall_map, Forall_forall; intros r _; apply stored_row_lacks.
Qed.

(** ** What the detector writes *)

Lemma createAnomaly_eval rt (a : Anomaly.t) (s : Agent) :
  createAnomaly rt a s
  = if existsb (fun r => String.eqb (AnomalyRow.id r) (Anomaly.id a)) (anomalies s)
    then Threw s
    else Returned tt
           (with_sent (fun l => l ++ map (fun sid => (sid, anomaly_detected a)) (sessions s))
              (with_anomalies (fun rows => rows ++ [anomaly_row rt a]) s)).
Proof.
  unfold createAnomaly, mbind, M_bind, get_state, throw, modify, broadcast.
  now destruct (existsb _ (anomalies s)).
Qed.

Lemma emitted_app (s s' : Agent) (rows : list AnomalyRow.t) :
  anomalies s' = anomalies s ++ rows -> emitted s s' = rows.
Proof. unfold emitted. intros ->. now rewrite drop_app_length. Qed.

Lemma emitted_same (s s' : Agent) : anomalies s' = anomalies s -> emitted s s' = [].
Proof. intros H. apply emitted_app. now rewrite app_nil_r. Qed.



(** A rule writes one row when it holds and the id is free, none otherwise. *)
Lemma report_if_rows rt env (rule : bool) (anomaly : string -> string -> Anomaly.t)
    (s : Agent) :
  anomalies (final_state (report_if rt env rule anomaly s)) = anomalies s
  \/ (rule = true
      /\ anomalies (final_state (report_if rt env rule anomaly s))
         = anomalies s
           ++ [anomaly_row rt
                 (anomaly (randomUUID env (draws s)) (toISOString env (S (draws s))))]).
Proof.
  unfold report_if. destruct rule; [|now left].
  unfold mbind, M_bind, crypto_randomUUID, Date_now.
  rewrite createAnomaly_eval.
  destruct (existsb _ _); [left|right]; easy.
Qed.

Section Rules.
Variable rt : Runtime.
Variable env : Env.
Variable flagId : string.
Variable metrics : list JsObject.

Lemma detectAnomalies_over_rows (s : Agent) :
  exists rows,
    anomalies (final_state (detectAnomalies_over rt env flagId metrics s))
    = anomalies s ++ rows
    /\ Forall (by_the_rules rt metrics) rows.
Proof.
  unfold detectAnomalies_over.
  destruct (length metrics <? 5)%nat; [exists []; now rewrite app_nil_r|].
  destruct (length (drop 5 metrics) =? 0)%nat; [exists []; now rewrite app_nil_r|].
  unfold mbind at 1 2. unfold M_bind at 1 2. unfold get_state.
  match goal with
  | |- context [match report_if rt env ?rule1 ?a1 s with _ => _ end] =>
      destruct (report_if_rows rt env rule1 a1 s) as [H1|[Hr1 H1]];
      destruct (report_if rt env rule1 a1 s) as [[] s1|s1] eqn:E1; cbn [final_state] in H1
  end.
  all: try match goal with
  | |- context [report_if rt env ?rule2 ?a2 ?s'] =>
      destruct (report_if_rows rt env rule2 a2 s') as [H2|[Hr2 H2]]; rewrite H2, H1
  end.
  all: cbn [final_state]; try rewrite H1.
  all: try apply andb_true_iff in Hr1.
  all: try (exists []; now rewrite app_nil_r).
  all: eexists; (split; [rewrite <- ?app_assoc; reflexivity|]).
  all: cbn [app].
  all: repeat match goal with
              | |- Forall _ (_ :: _) => apply List.Forall_cons
              | |- Forall _ [] => apply List.Forall_nil
              end.
  all: first [ left; repeat split; solve [apply Hr1 | reflexivity]
             | right; repeat split; solve [assumption | reflexivity] ].
Qed.

End Rules.

(** C2 (as amended). A row of type error_spike that the detector writes for
    a window is written only when the recent mean error rate exceeds 1.5
    times the baseline mean and exceeds 1, and its severity is critical
    exactly when the recent mean exceeds twice the baseline mean, warning
    otherwise: at a baseline of 1.0 it is warning for a recent mean of 2.0 and
    of 1.99, and critical for 2.01. *)
Theorem error_spike_severity rt env flagId (metrics : list JsObject) (s : Agent)
    (row : AnomalyRow.t) :
  row ∈ emitted s (final_state (detectAnomalies_over rt env flagId metrics s)) ->
  AnomalyRow.type row = "error_spike" ->
  let recent := average rt "errorRate" (take 5 metrics) in
  let baseline := average rt "errorRate" (drop 5 metrics) in
  (js_gt recent (baseline * 1.5)%float = true /\ js_gt recent 1%float = true)
  /\ (AnomalyRow.severity row = "critical" <-> js_gt recent (baseline * 2)%float = true)
  /\ (AnomalyRow.severity row = "warning" <-> js_gt recent (baseline * 2)%float = false)
  /\ (baseline = 1%float -> recent = 2%float -> AnomalyRow.severity row = "warning")
  /\ (baseline = 1%float -> recent = 1.99%float -> AnomalyRow.severity row = "warning")
  /\ (baseline = 1%float -> recent = 2.01%float -> AnomalyRow.severity row = "critical").
Proof.
  intros Hin Hty recent baseline.
  destruct (detectAnomalies_over_rows rt env flagId metrics s) as (rows & Hrows & Hall).
  rewrite (emitted_app _ _ _ Hrows) in Hin.
  rewrite Forall_forall in Hall. specialize (Hall row Hin).
  destruct Hall as [(_ & H1 & H2 & Hsev)|(Hty' & _)]; [|congruence].
  fold recent baseline in H1, H2, Hsev. rewrite Hsev.
  split; [now split|].
  split; [destruct (js_gt recent (baseline * 2)); simpl; split; congruence|].
  split; [destruct (js_gt recent (baseline * 2)); simpl; split; congruence|].
  repeat split; intros -> ->; reflexivity.
Qed.

Lemma error_spike_severity_witness :
  let rt := Reference.runtime in
  let env := world AiRejects in
  let window := as_interface (error_window 2) in
  exists row,
    row ∈ emitted start (final_state (detectAnomalies_over rt env "F" window start))
    /\ AnomalyRow.severity row = "warning".
Proof.
  cbv zeta.
  assert (exists row,
            emitted start
              (final_state (detectAnomalies_over Reference.runtime (world AiRejects) "F"
                              (as_interface (error_window 2)) start)) = [row]
            /\ AnomalyRow.type row = "error_spike") as (row & Hrows & Htype).
  { eexists. split; [vm_compute; reflexivity|reflexivity]. }
  exists row.
  assert (row ∈ emitted start
            (final_state (detectAnomalies_over Reference.runtime (world AiRejects) "F"
                            (as_interface (error_window 2)) start))) as Hin.
  { rewrite Hrows. apply list_elem_of_singleton. reflexivity. }
  split; [exact Hin|].
  pose proof (error_spike_severity Reference.runtime (world AiRejects) "F"
                (as_interface (error_window 2)) start row Hin Htype)
    as (_ & _ & _ & Htwo & _).
  apply Htwo; vm_compute; reflexivity.
Defined.

(** C2, as stated, fails. Over a window whose recent mean is 2.0 and whose
    baseline mean is 1.0, held in objects of the interface, the detector
    writes one error_spike row and its severity is warning, not critical;
    over the same samples as stored rows it writes no row at all. *)
Lemma ratio_two_counterexample :
  let rt := Reference.runtime in
  let env := world AiRejects in
  let window := as_interface (error_window 2) in
  let table := ingest env (error_window 2) start in
  average rt "errorRate" (take 5 window) = 2%float
  /\ average rt "errorRate" (drop 5 window) = 1%float
  /\ map (fun row => (AnomalyRow.type row, AnomalyRow.severity row))
       (emitted start (final_state (detectAnomalies_over rt env "F" window start)))
     = [("error_spike", "warning")]
  /\ map MetricsRow.error_rate (impact_metrics table) = [1; 2; 2; 2; 2; 2]%float
  /\ detectAnomalies rt env "F" table = Returned tt table
  /\ anomalies table = [].
Proof. evaluate. Qed.

(** C5, on the code. Six samples of flag [F] with error rates 1, 1, 1, 1, 1, 5
    are ingested, oldest first. The query hands the detector the five newest
    and then the oldest, as rows: objects with an [error_rate] and no
    [errorRate]. Both means the detector computes are NaN, it writes no row
    and sends no frame. Over the same window held in objects of the interface
    it writes one row: an error_spike of severity warning whose message
    reports 80.0 percent. *)
Theorem six_samples_raise_no_anomaly :
  let rt := Reference.runtime in
  let env := world AiRejects in
  let table := ingest env six_samples start in
  let rows := metrics_query "F" 50 table in
  map MetricsRow.error_rate (impact_metrics table) = [1; 1; 1; 1; 1; 5]%float
  /\ map (own "error_rate") (take 5 rows) = map JNumber [5; 1; 1; 1; 1]%float
  /\ map (own "error_rate") (drop 5 rows) = map JNumber [1]%float
  /\ map (own "errorRate") rows = replicate 6 JUndefined
  /\ average rt "errorRate" (take 5 rows) = PrimFloat.nan
  /\ average rt "errorRate" (drop 5 rows) = PrimFloat.nan
  /\ detectAnomalies rt env "F" table = Returned tt table
  /\ anomalies table = []
  /\ sent table = []
  /\ average rt "errorRate" (take 5 (as_interface six_samples)) = 1.8%float
  /\ average rt "errorRate" (drop 5 (as_interface six_samples)) = 1%float
  /\ map (fun row => (AnomalyRow.type row, AnomalyRow.severity row, AnomalyRow.message row))
       (emitted start
          (final_state (detectAnomalies_over rt env "F" (as_interface six_samples) start)))
     = [("error_spike", "warning", "Error rate increased by 80.0% since flag change")].
Proof. evaluate. Qed.

(** C6, on the code. Whatever the stored metrics, [detectAnomalies] returns
    with the state it found: it writes no row. So with a baseline mean p50 of
    50 and a recent mean of 160 in the table no latency_spike is written,
    where the same window in objects of the interface yields one
    latency_spike of severity critical and none at a recent mean of 95. *)
Theorem latency_spike_not_raised_from_store :
  (forall rt env flagId s, detectAnomalies rt env flagId s = Returned tt s)
  /\ let rt := Reference.runtime in
     let env := world AiRejects in
     let table := ingest env (latency_window 160) start in
     let rows := metrics_query "F" 50 table in
     map MetricsRow.latency_p50 (impact_metrics table) = [50; 160; 160; 160; 160; 160]%float
     /\ map (own "latencyP50") rows = replicate 6 JUndefined
     /\ average rt "latencyP50" (take 5 rows) = PrimFloat.nan
     /\ detectAnomalies rt env "F" table = Returned tt table
     /\ anomalies table = []
     /\ average rt "latencyP50" (take 5 (as_interface (latency_window 160))) = 160%float
     /\ average rt "latencyP50" (drop 5 (as_interface (latency_window 160))) = 50%float
     /\ map (fun row => (AnomalyRow.type row, AnomalyRow.severity row))
          (emitted start
             (final_state
                (detectAnomalies_over rt env "F" (as_interface (latency_window 160)) start)))
        = [("latency_spike", "critical")]
     /\ emitted start
          (final_state
             (detectAnomalies_over rt env "F" (as_interface (latency_window 95)) start))
        = [].
Proof.
  split; [apply detectAnomalies_never_fires|].
  evaluate.
Qed.

(** ** The prediction engine, path by path *)

Section Prediction.
Variable rt : Runtime.
Variable env : Env.
Variable change : FlagChange.t.
Variable s : Agent.

Lemma generatePrediction_rejected :
  answer rt env change s = AiRejects ->
  generatePrediction rt env change s
  = Returned (error_prediction change (toISOString env (S (draws s))))
      (with_draw (with_draw s)).
Proof.
  unfold answer. intros H.
  unfold generatePrediction, try_catch, mbind, M_bind, get_state, env_AI_run.
  now rewrite H.
Qed.

Lemma generatePrediction_resolved (response : option string) (o : JsObject) :
  answer rt env change s = AiResolves response ->
  parse_response rt (response_text response) = JObject o ->
  bindings_accepted rt (assembled env change s o) = true ->
  generatePrediction rt env change s
  = Returned (assembled env change s o) (stored rt s (assembled env change s o)).
Proof.
  unfold answer. intros H Hp Hb.
  unfold generatePrediction, try_catch, mbind, M_bind, get_state, env_AI_run.
  rewrite H, Hp. cbn -[make_prediction].
  unfold store_prediction. fold (assembled env change s o). now rewrite Hb.
Qed.

Lemma stored_lookup (p : ImpactPrediction.t) :
  predictions (stored rt s p) !! ImpactPrediction.flagId p = Some (prediction_row rt p).
Proof. unfold stored. cbn. apply lookup_insert_eq. Qed.

Lemma stored_lookup_other (p : ImpactPrediction.t) (other : string) :
  other <> ImpactPrediction.flagId p ->
  predictions (stored rt s p) !! other = predictions s !! other.
Proof. intros H. unfold stored. cbn. now apply lookup_insert_ne. Qed.

(** Every path returns, and leaves in [predictions] either what was there or
    the row of the prediction it returns. *)
Lemma generatePrediction_returns :
  exists p s',
    generatePrediction rt env change s = Returned p s'
    /\ (predictions s' = predictions s
        \/ predictions s' = <[FlagChange.flagId change := prediction_row rt p]> (predictions s)).
Proof.
  unfold generatePrediction, try_catch, mbind, M_bind, get_state, env_AI_run.
  destruct (AI_run env (draws s) _) as [|response]; [eauto|].
  destruct (parse_response rt (response_text response)) as [| |b|x|t|items|o];
    cbn -[make_prediction]; eauto.
  all: unfold store_prediction;
    match goal with |- context [bindings_accepted rt ?p] =>
      destruct (bindings_accepted rt p) end; cbn -[make_prediction]; eauto.
Qed.
End Prediction.

(** C1 (as amended). When the model call succeeds with a non-empty text:
    if the text has no opening brace followed by a closing one, the parsed
    response is the empty object, and the prediction returned and stored is
    the one of the per-field defaults (risk "medium", score 50, deltas 0 and 0
    with the user impact [change.newValue?.rolloutPercentage || 0], no
    recommendation, empty reasoning, confidence 0.7); if the text has such a
    span and [JSON.parse] rejects it, the prediction returned and stored is
    the fixed fallback of confidence 0.5. *)
Theorem generatePrediction_unparsed_response rt env change s (text : string) :
  answer rt env change s = AiResolves (Some text) ->
  text <> "" ->
  let generatedAt := toISOString env (S (draws s)) in
  let defaults :=
    ImpactPrediction.mk (FlagChange.flagId change) (FlagChange.flagName change)
      (JString "medium") (JNumber 50)
      (JObject [ ("errorRateChange", JNumber 0); ("latencyChange", JNumber 0);
                 ("userImpactPercentage",
                   js_or (opt_member (FlagChange.newValue change) "rolloutPercentage")
                     (JNumber 0)) ])
      (JArray []) (JString "") (JNumber 0.7) generatedAt in
  let fallback :=
    ImpactPrediction.mk (FlagChange.flagId change) (FlagChange.flagName change)
      (JString "medium") (JNumber 50)
      (JObject [ ("errorRateChange", JNumber 0); ("latencyChange", JNumber 0);
                 ("userImpactPercentage", JNumber 0) ])
      (JArray [JString "Monitor closely after deployment"])
      (JString "Unable to fully analyze - recommend manual review")
      (JNumber 0.5) generatedAt in
  (match_braces text = None ->
     generatePrediction rt env change s = Returned defaults (stored rt s defaults)
     /\ predictions (stored rt s defaults) !! FlagChange.flagId change
        = Some (prediction_row rt defaults))
  /\ (forall jsonMatch,
        match_braces text = Some jsonMatch -> JSON_parse rt jsonMatch = None ->
        generatePrediction rt env change s = Returned fallback (stored rt s fallback)
        /\ predictions (stored rt s fallback) !! FlagChange.flagId change
           = Some (prediction_row rt fallback)).
Proof.
  intros Hai Htext generatedAt defaults fallback.
  assert (response_text (Some text) = text) as Hresp.
  { unfold response_text. destruct (String.eqb_spec text ""); congruence. }
  split.
  - intros Hnone. split; [|apply (stored_lookup rt s defaults)].
    apply (generatePrediction_resolved rt env change s (Some text) []); auto.
    rewrite Hresp. unfold parse_response. now rewrite Hnone.
  - intros jsonMatch Hsome Hparse. split; [|apply (stored_lookup rt s fallback)].
    apply (generatePrediction_resolved rt env change s (Some text) parse_fallback); auto.
    rewrite Hresp. unfold parse_response. now rewrite Hsome, Hparse.
Qed.

Lemma generatePrediction_unparsed_response_witness :
  let rt := Reference.runtime in
  let env := Scenario.world (AiResolves (Some Scenario.broken)) in
  exists p,
    generatePrediction rt env Scenario.rollout Scenario.start
    = Returned p (stored rt Scenario.start p)
    /\ ImpactPrediction.confidence p = JNumber 0.5
    /\ ImpactPrediction.recommendations p = JArray [JString "Monitor closely after deployment"].
Proof.
  cbv zeta. eexists. split.
  - refine (proj1 (proj2 (generatePrediction_unparsed_response Reference.runtime
              (Scenario.world (AiResolves (Some Scenario.broken)))
              Scenario.rollout Scenario.start Scenario.broken _ _) "{riskLevel: high}" _ _)).
    + reflexivity.
    + discriminate.
    + reflexivity.
    + reflexivity.
  - split; reflexivity.
Defined.

(** C1, as stated, fails: a response without braces yields confidence 0.7, no
    recommendation, empty reasoning and a user impact of 25, not the fixed
    fallback. *)
Lemma no_braces_counterexample :
  let rt := Reference.runtime in
  let env := Scenario.world (AiResolves (Some Scenario.prose)) in
  match_braces Scenario.prose = None
  /\ answer rt env Scenario.rollout Scenario.start = AiResolves (Some Scenario.prose)
  /\ exists p s',
       generatePrediction rt env Scenario.rollout Scenario.start = Returned p s'
       /\ predictions s' !! "F" = Some (prediction_row rt p)
       /\ ImpactPrediction.confidence p = JNumber 0.7
       /\ ImpactPrediction.confidence p <> JNumber 0.5
       /\ ImpactPrediction.recommendations p = JArray []
       /\ ImpactPrediction.recommendations p
          <> JArray [JString "Monitor closely after deployment"]
       /\ ImpactPrediction.reasoning p = JString ""
       /\ ImpactPrediction.predictedImpact p
          = JObject [ ("errorRateChange", JNumber 0); ("latencyChange", JNumber 0);
                      ("userImpactPercentage", JNumber 25) ].
Proof.
  cbv zeta. split; [reflexivity|]. split; [reflexivity|].
  eexists. eexists. split; [vm_compute; reflexivity|].
  split; [vm_compute; reflexivity|].
  split; [reflexivity|]. split; [differ|].
  split; [reflexivity|]. split; [differ|].
  split; reflexivity.
Qed.

(** C3 (as amended). A call whose model call resolves, whose parsed response
    is an object and whose bindings the storage takes returns the assembled
    prediction and stores it under the flag id, in the place of any earlier
    one, the rows of other flags untouched. A call whose model call fails
    returns the fallback of confidence 0.3 and stores nothing: [predictions]
    is what it was. Every call returns. *)
Theorem generatePrediction_stores_on_success rt env change s :
  (forall response o,
     answer rt env change s = AiResolves response ->
     parse_response rt (response_text response) = JObject o ->
     bindings_accepted rt (assembled env change s o) = true ->
     let p := assembled env change s o in
     generatePrediction rt env change s = Returned p (stored rt s p)
     /\ predictions (stored rt s p) !! FlagChange.flagId change = Some (prediction_row rt p)
     /\ forall other, other <> FlagChange.flagId change ->
          predictions (stored rt s p) !! other = predictions s !! other)
  /\ (answer rt env change s = AiRejects ->
      let s' := with_draw (with_draw s) in
      generatePrediction rt env change s
      = Returned (error_prediction change (toISOString env (S (draws s)))) s'
      /\ predictions s' = predictions s)
  /\ exists p s',
       generatePrediction rt env change s = Returned p s'
       /\ (predictions s' = predictions s
           \/ predictions s'
              = <[FlagChange.flagId change := prediction_row rt p]> (predictions s)).
Proof.
  split; [|split].
  - intros response o Hai Hparse Hbind p. split; [|split].
    + now apply (generatePrediction_resolved rt env change s response o).
    + apply (stored_lookup rt s p).
    + intros other Hother. now apply (stored_lookup_other rt s p).
  - intros Hai s'. split; [|reflexivity].
    now apply generatePrediction_rejected.
  - apply generatePrediction_returns.
Qed.

Lemma generatePrediction_stores_on_success_witness :
  let rt := Reference.runtime in
  let env := world (AiResolves (Some confident)) in
  exists p,
    generatePrediction rt env rollout start = Returned p (stored rt start p)
    /\ ImpactPrediction.riskScore p = JNumber 250
    /\ predictions (stored rt start p) !! "F" = Some (prediction_row rt p).
Proof.
  cbv zeta.
  pose proof (proj1 (generatePrediction_stores_on_success Reference.runtime
                       (world (AiResolves (Some confident))) rollout start)
                (Some confident)
                (match JSON_parse Reference.runtime confident with
                 | Some (JObject o) => o
                 | _ => []
                 end)
                eq_refl eq_refl eq_refl) as (Hrun & Hrow & _).
  eexists. split; [exact Hrun|]. split; [reflexivity|exact Hrow].
Defined.

(** C3, as stated, fails: after a stored prediction of confidence 0.9, a call
    whose model call fails returns the fallback of confidence 0.3, and the
    row stored for the flag is still the earlier one. *)
Lemma failed_call_not_stored_counterexample :
  let rt := Reference.runtime in
  let env := Scenario.world (AiResolves (Some Scenario.confident)) in
  exists p1 s1 p2 s2,
    generatePrediction rt env Scenario.rollout Scenario.start = Returned p1 s1
    /\ predictions s1 !! "F" = Some (prediction_row rt p1)
    /\ answer rt env Scenario.rollout s1 = AiRejects
    /\ generatePrediction rt env Scenario.rollout s1 = Returned p2 s2
    /\ ImpactPrediction.confidence p2 = JNumber 0.3
    /\ predictions s2 !! "F" = Some (prediction_row rt p1)
    /\ PredictionRow.confidence (prediction_row rt p1) = JNumber 0.9
    /\ predictions s2 !! "F" <> Some (prediction_row rt p2).
Proof.
  cbv zeta. do 4 eexists.
  split; [vm_compute; reflexivity|].
  split; [vm_compute; reflexivity|].
  split; [vm_compute; reflexivity|].
  split; [vm_compute; reflexivity|].
  split; [reflexivity|].
  split; [vm_compute; reflexivity|].
  split; [reflexivity|].
  intros H.
  apply (f_equal (fun row => match row with
                             | Some r => PredictionRow.confidence r
                             | None => JNull
                             end)) in H.
  vm_compute in H. revert H. differ.
Qed.

(** C4, at the values the code replaces. For a response whose braces parse to
    an object with a text risk level, a text reasoning and numbers for the
    risk score and the confidence, the prediction returned and stored carries
    each number as the model gave it (250, -5 and 7 alike) unless the number
    is 0: a risk score of 0 comes out as 50 and a confidence of 0 as 0.7. *)
Theorem generatePrediction_replaces_zero rt env change s
    (text jsonMatch : string) (o : JsObject) (level reason : string) (score certainty : float) :
  answer rt env change s = AiResolves (Some text) ->
  text <> "" ->
  match_braces text = Some jsonMatch ->
  JSON_parse rt jsonMatch = Some (JObject o) ->
  own "riskLevel" o = JString level ->
  own "reasoning" o = JString reason ->
  own "riskScore" o = JNumber score ->
  own "confidence" o = JNumber certainty ->
  exists p,
    generatePrediction rt env change s = Returned p (stored rt s p)
    /\ ImpactPrediction.riskScore p
       = (if PrimFloat.is_zero score || PrimFloat.is_nan score then JNumber 50
          else JNumber score)
    /\ ImpactPrediction.confidence p
       = (if PrimFloat.is_zero certainty || PrimFloat.is_nan certainty then JNumber 0.7
          else JNumber certainty)
    /\ (score = 0%float -> ImpactPrediction.riskScore p = JNumber 50)
    /\ (certainty = 0%float -> ImpactPrediction.confidence p = JNumber 0.7).
Proof.
  intros Hai Htext Hmatch Hparse Hlevel Hreason Hscore Hcertainty.
  exists (assembled env change s o).
  assert (response_text (Some text) = text) as Hresp.
  { unfold response_text. destruct (String.eqb_spec text ""); congruence. }
  assert (ImpactPrediction.riskScore (assembled env change s o)
          = if PrimFloat.is_zero score || PrimFloat.is_nan score then JNumber 50
            else JNumber score) as Hs.
  { unfold assembled, make_prediction. cbn [ImpactPrediction.riskScore].
    rewrite Hscore. unfold js_or, ToBoolean.
    now destruct (PrimFloat.is_zero score || PrimFloat.is_nan score). }
  assert (ImpactPrediction.confidence (assembled env change s o)
          = if PrimFloat.is_zero certainty || PrimFloat.is_nan certainty then JNumber 0.7
            else JNumber certainty) as Hc.
  { unfold assembled, make_prediction. cbn [ImpactPrediction.confidence].
    rewrite Hcertainty. unfold js_or, ToBoolean.
    now destruct (PrimFloat.is_zero certainty || PrimFloat.is_nan certainty). }
  split; [|split; [exact Hs|split; [exact Hc|split]]].
  - apply (generatePrediction_resolved rt env change s (Some text) o); auto.
    + rewrite Hresp. unfold parse_response. now rewrite Hmatch, Hparse.
    + unfold bindings_accepted. rewrite Hs, Hc.
      unfold assembled, make_prediction.
      cbn [ImpactPrediction.riskLevel ImpactPrediction.reasoning].
      rewrite Hlevel, Hreason. unfold js_or, ToBoolean.
      destruct (negb (String.eqb level "")), (negb (String.eqb reason "")),
        (PrimFloat.is_zero score || PrimFloat.is_nan score),
        (PrimFloat.is_zero certainty || PrimFloat.is_nan certainty); reflexivity.
  - intros ->. now rewrite Hs.
  - intros ->. now rewrite Hc.
Qed.

Lemma generatePrediction_replaces_zero_witness :
  let rt := Reference.runtime in
  let env := Scenario.world (AiResolves (Some Scenario.zero_risk)) in
  exists p,
    generatePrediction rt env Scenario.rollout Scenario.start
    = Returned p (stored rt Scenario.start p)
    /\ ImpactPrediction.riskScore p = JNumber 50
    /\ ImpactPrediction.confidence p = JNumber 0.7.
Proof.
  cbv zeta.
  destruct (generatePrediction_replaces_zero Reference.runtime
              (Scenario.world (AiResolves (Some Scenario.zero_risk)))
              Scenario.rollout Scenario.start Scenario.zero_risk
              (default "" (match_braces Scenario.zero_risk))
              (match JSON_parse Reference.runtime (default "" (match_braces Scenario.zero_risk))
               with Some (JObject o) => o | _ => [] end)
              "low" "No risk found" 0 0
              eq_refl ltac:(discriminate) eq_refl eq_refl eq_refl eq_refl eq_refl eq_refl)
    as (p & Hp & _ & _ & Hs & Hc).
  exists p. split; [exact Hp|]. split; [now apply Hs|now apply Hc].
Defined.

(** ** The listing of anomalies *)

Lemma own_set_prop_eq (k : string) (v : JsVal) (o : JsObject) : own k (set_prop k v o) = v.
Proof.
  induction o as [|[k' v'] o IH]; simpl.
  - now rewrite String.eqb_refl.
  - destruct (String.eqb k k') eqn:E; simpl; rewrite ?String.eqb_refl, ?E; auto.
Qed.

Lemma own_set_prop_ne (k k' : string) (v : JsVal) (o : JsObject) :
  k <> k' -> own k (set_prop k' v o) = own k o.
Proof.
  intros Hne. apply String.eqb_neq in Hne.
  induction o as [|[k0 v0] o IH]; simpl.
  - now rewrite Hne.
  - destruct (String.eqb k' k0) eqn:E; simpl.
    + apply String.eqb_eq in E. subst k0. now rewrite Hne.
    + now rewrite IH.
Qed.

Lemma map_m_pure {R A B} (f : A -> M B) (h : R -> A) (g : R -> B) (rows : list R)
    (s : Agent) :
  Forall (fun r => f (h r) s = Returned (g r) s) rows ->
  map_m f (map h rows) s = Returned (map g rows) s.
Proof.
  induction 1 as [|r rows Hr _ IH]; [reflexivity|].
  simpl. unfold mbind, M_bind. now rewrite Hr, IH.
Qed.

Section Listing.
Variable rt : Runtime.

Lemma listed_parsed (r : AnomalyRow.t) (s : Agent) :
  JSON_parse rt (metrics_text rt r) <> None ->
  listed rt (AnomalyRow.object r) s
  = Returned (listed_as r (default JNull (JSON_parse rt (metrics_text rt r)))) s.
Proof.
  unfold listed, parse_or, mbind, M_bind, metrics_text. cbn [own AnomalyRow.object String.eqb Ascii.eqb Bool.eqb].
  destruct (JSON_parse rt _); [reflexivity|congruence].
Qed.
End Listing.

Lemma getRecentAnomalies_parsed rt (s : Agent) :
  Forall (fun r => JSON_parse rt (metrics_text rt r) <> None) (recent_unresolved s) ->
  getRecentAnomalies rt s
  = Returned
      (map (fun r => listed_as r (default JNull (JSON_parse rt (metrics_text rt r))))
         (recent_unresolved s))
      s.
Proof.
  intros H. unfold getRecentAnomalies, mbind, M_bind, get_state.
  apply map_m_pure. eapply Forall_impl; [exact H|].
  intros r Hr. now apply listed_parsed.
Qed.

(** C9. When the [metrics] text of every listed row parses,
    [getRecentAnomalies] returns, changes nothing, and lists the rows of
    [SELECT ... WHERE resolved = 0 ORDER BY detected_at DESC LIMIT 20]: at
    most 20 objects (all the unresolved rows when they are fewer), each with
    [resolved] false, in the order of the rows, which runs from the latest
    [detected_at] to the earliest; every listed row is an unresolved row of
    the table, and an unresolved row that is not listed is no later than any
    listed one. [GET /anomalies] answers with this list, and a
    [subscribe_anomalies] message is answered with it on its socket. *)
Theorem getRecentAnomalies_newest_unresolved rt (s : Agent) :
  Forall (fun r => JSON_parse rt (metrics_text rt r) <> None) (recent_unresolved s) ->
  let later_first (x y : AnomalyRow.t) :=
    String.leb (AnomalyRow.detected_at y) (AnomalyRow.detected_at x) = true in
  exists listing,
    getRecentAnomalies rt s = Returned listing s
    /\ getAnomalies rt s = Returned {| status := 200; body := body_anomalies listing |} s
    /\ (forall processChat sessionId data,
          member data "type" = Some (JString "subscribe_anomalies") ->
          handleWebSocketMessage rt processChat sessionId data s
          = Returned tt (with_sent (fun l => l ++ [(sessionId, subscribed listing)]) s))
    /\ map (own "id") listing
       = map (fun r => JString (AnomalyRow.id r)) (recent_unresolved s)
    /\ map (own "detected_at") listing
       = map (fun r => JString (AnomalyRow.detected_at r)) (recent_unresolved s)
    /\ Forall (fun a => own "resolved" a = JBool false) listing
    /\ length listing
       = min 20 (length (List.filter (fun r => Z.eqb (AnomalyRow.resolved r) 0) (anomalies s)))
    /\ (forall r, r ∈ recent_unresolved s -> r ∈ anomalies s /\ AnomalyRow.resolved r = 0%Z)
    /\ StronglySorted later_first (recent_unresolved s)
    /\ (forall x y,
          y ∈ recent_unresolved s ->
          x ∈ anomalies s -> AnomalyRow.resolved x = 0%Z -> x ∉ recent_unresolved s ->
          later_first y x).
Proof.
  intros Hparse later_first.
  pose proof (getRecentAnomalies_parsed rt s Hparse) as Hget.
  eexists. split; [exact Hget|].
  assert (forall r, r ∈ recent_unresolved s -> r ∈ anomalies s /\ AnomalyRow.resolved r = 0%Z)
    as Hin.
  { intros r Hr. apply elem_of_select_desc in Hr as [Hr Hc]. split; [exact Hr|].
    now apply Z.eqb_eq. }
  split; [|split; [|split; [|split; [|split; [|split; [|split; [exact Hin|split]]]]]]].
  - unfold getAnomalies, mbind, M_bind. now rewrite Hget.
  - intros processChat sessionId data Htype.
    unfold handleWebSocketMessage, read, mbind, M_bind. rewrite Htype. cbn.
    unfold mbind, M_bind. now rewrite Hget.
  - rewrite map_map. apply map_ext. intros r. unfold listed_as.
    now rewrite !own_set_prop_ne by discriminate.
  - rewrite map_map. apply map_ext. intros r. unfold listed_as.
    now rewrite !own_set_prop_ne by discriminate.
  - apply Forall_map, Forall_forall. intros r Hr. apply Hin in Hr as [_ Hr].
    unfold listed_as. rewrite own_set_prop_eq, Hr. reflexivity.
  - rewrite length_map. apply length_select_desc.
  - apply select_desc_sorted.
  - intros x y Hy Hx Hres Hnot.
    eapply (select_desc_newest AnomalyRow.detected_at); eauto. now apply Z.eqb_eq.
Qed.

Lemma getRecentAnomalies_newest_unresolved_witness :
  exists listing,
    getRecentAnomalies Reference.runtime crowded = Returned listing crowded
    /\ length listing = 20
    /\ map (own "id") listing
       = map (fun n => JString ("alarm-" +:+ two_digits n))
           [30; 29; 27; 26; 25; 23; 22; 21; 19; 18; 17; 15; 14; 13; 11; 10; 9; 7; 6; 5].
Proof.
  assert (Forall (fun r => JSON_parse Reference.runtime (metrics_text Reference.runtime r) <> None)
            (recent_unresolved crowded)) as Hparse.
  { apply Forall_forall. intros r Hr.
    apply elem_of_select_desc in Hr as [Hr _].
    apply list_elem_of_In, in_map_iff in Hr as (n & <- & _). discriminate. }
  destruct (getRecentAnomalies_newest_unresolved Reference.runtime crowded Hparse)
    as (listing & Hget & _ & _ & Hids & _ & _ & Hlen & _).
  exists listing. split; [exact Hget|]. split.
  - rewrite Hlen. vm_compute. reflexivity.
  - rewrite Hids. vm_compute. reflexivity.
Defined.

(** ** Which tables a method writes *)

Lemma same_logs_refl (s : Agent) : same_logs s s.
Proof. repeat split. Qed.

Lemma same_logs_trans (s1 s2 s3 : Agent) :
  same_logs s1 s2 -> same_logs s2 s3 -> same_logs s1 s3.
Proof. unfold same_logs. intros (?&?&?) (?&?&?). repeat split; congruence. Qed.

Lemma keeps_ret {A} (a : A) : keeps_logs (mret a).
Proof. intros s. apply same_logs_refl. Qed.

Lemma keeps_throw {A} : keeps_logs (@throw A).
Proof. intros s. apply same_logs_refl. Qed.

Lemma keeps_get_state : keeps_logs get_state.
Proof. intros s. apply same_logs_refl. Qed.

Lemma keeps_bind {A B} (m : M A) (k : A -> M B) :
  keeps_logs m -> (forall a, keeps_logs (k a)) -> keeps_logs (m ≫= k).
Proof.
  intros Hm Hk s. specialize (Hm s). unfold mbind, M_bind.
  destruct (m s) as [a s1|s1]; [|exact Hm].
  eapply same_logs_trans; [exact Hm|apply Hk].
Qed.

Lemma keeps_try_catch {A} (body handler : M A) :
  keeps_logs body -> keeps_logs handler -> keeps_logs (try_catch body handler).
Proof.
  intros Hb Hh s. specialize (Hb s). unfold try_catch.
  destruct (body s) as [a s1|s1]; [exact Hb|].
  eapply same_logs_trans; [exact Hb|apply Hh].
Qed.

Lemma keeps_if {A} (c : bool) (m1 m2 : M A) :
  keeps_logs m1 -> keeps_logs m2 -> keeps_logs (if c then m1 else m2).
Proof. now destruct c. Qed.

Lemma keeps_modify (f : Agent -> Agent) :
  (forall s, same_logs s (f s)) -> keeps_logs (modify f).
Proof. intros H s. apply H. Qed.

Create HintDb logs.
#[local] Hint Resolve keeps_ret keeps_throw keeps_get_state keeps_try_catch keeps_if
  same_logs_refl : logs.
#[local] Hint Extern 2 (keeps_logs (_ ≫= _)) => apply keeps_bind; [|intros] : logs.
#[local] Hint Extern 2 (keeps_logs (modify _)) =>
  apply keeps_modify; intros; repeat split : logs.
#[local] Hint Extern 3 (keeps_logs (match ?x with _ => _ end)) => destruct x : logs.

Section Frames.
Variable rt : Runtime.
Variable env : Env.

Lemma keeps_crypto_randomUUID : keeps_logs (crypto_randomUUID env).
Proof. intros s. repeat split. Qed.

Lemma keeps_Date_now : keeps_logs (Date_now env).
Proof. intros s. repeat split. Qed.

Lemma keeps_env_AI_run (request : AiRequest) : keeps_logs (env_AI_run env request).
Proof. intros s. unfold env_AI_run. destruct (AI_run _ _ _); repeat split. Qed.

Lemma keeps_broadcast (message : Frame) : keeps_logs (broadcast message).
Proof. intros s. repeat split. Qed.

Lemma keeps_read (v : JsVal) (k : string) : keeps_logs (read v k).
Proof. unfold read. destruct (member v k); auto with logs. Qed.

Hint Resolve keeps_crypto_randomUUID keeps_Date_now keeps_env_AI_run keeps_broadcast
  keeps_read : logs.

Lemma keeps_store_prediction (p : ImpactPrediction.t) : keeps_logs (store_prediction rt p).
Proof. unfold store_prediction. auto with logs. Qed.

Lemma keeps_createAnomaly (a : Anomaly.t) : keeps_logs (createAnomaly rt a).
Proof. unfold createAnomaly. auto 10 with logs. Qed.

Hint Resolve keeps_store_prediction keeps_createAnomaly : logs.

Lemma keeps_report_if (rule : bool) (anomaly : string -> string -> Anomaly.t) :
  keeps_logs (report_if rt env rule anomaly).
Proof. unfold report_if. auto 10 with logs. Qed.

Hint Resolve keeps_report_if : logs.

Lemma keeps_generatePrediction (change : FlagChange.t) :
  keeps_logs (generatePrediction rt env change).
Proof. unfold generatePrediction. auto 20 with logs. Qed.

Lemma keeps_detectAnomalies_over (flagId : string) (metrics : list JsObject) :
  keeps_logs (detectAnomalies_over rt env flagId metrics).
Proof. unfold detectAnomalies_over. auto 20 with logs. Qed.

Hint Resolve keeps_detectAnomalies_over : logs.

Lemma keeps_detectAnomalies (flagId : string) : keeps_logs (detectAnomalies rt env flagId).
Proof. unfold detectAnomalies. auto 20 with logs. Qed.

Hint Resolve keeps_generatePrediction keeps_detectAnomalies : logs.

Lemma keeps_analyzeFlag (flagId : string) : keeps_logs (analyzeFlag rt env flagId).
Proof.
  unfold analyzeFlag. apply keeps_bind; [auto with logs|]. intros s.
  destruct (List.filter _ _); auto 20 with logs.
Qed.
End Frames.

Lemma recordFlagChange_appends rt env (change change' : FlagChange.t) (s s1 : Agent) :
  recordFlagChange rt env change s = Returned change' s1 ->
  flag_changes s1 = flag_changes s ++ [change_row rt change'].
Proof.
  unfold recordFlagChange, mbind, M_bind, get_state, crypto_randomUUID, Date_now,
    mret, M_ret, throw, modify.
  destruct (String.eqb (FlagChange.id change) ""),
    (String.eqb (FlagChange.changedAt change) "");
    cbn [flag_changes with_draw];
    destruct (existsb _ (flag_changes s)); intros H; inversion H; reflexivity.
Qed.

Lemma recordFlagChange_returns rt env (change : FlagChange.t) (s : Agent) :
  let id := if String.eqb (FlagChange.id change) "" then randomUUID env (draws s)
            else FlagChange.id change in
  existsb (fun r => String.eqb (ChangeRow.id r) id) (flag_changes s) = false ->
  exists change' s1,
    recordFlagChange rt env change s = Returned change' s1 /\ FlagChange.id change' = id.
Proof.
  cbv zeta.
  unfold recordFlagChange, mbind, M_bind, get_state, crypto_randomUUID, Date_now,
    mret, M_ret, throw, modify.
  destruct (String.eqb (FlagChange.id change) ""),
    (String.eqb (FlagChange.changedAt change) "");
    cbn [flag_changes with_draw]; intros ->; eauto.
Qed.

(** C10. [analyzeFlag] leaves the flags, the change log and the metrics as
    they were, however it ends; for a flag that exists it draws an id and a
    date, makes a change of type "enabled" by "manual_analysis" whose new
    value is the flag's row, and runs [generatePrediction] and
    [detectAnomalies] on it without recording it. [recordChange] first
    appends the row of the change to the change log, then runs the same two
    steps from the state that holds the row, and the row is still the last of
    the log when it ends; the row is appended whenever its id is free. *)
Theorem analyzeFlag_leaves_change_log rt env (flagId : string) (s : Agent) :
  same_logs s (final_state (analyzeFlag rt env flagId s))
  /\ (forall row rest,
        List.filter (fun r => String.eqb (FlagRow.id r) flagId) (feature_flags s)
        = row :: rest ->
        exists change,
          FlagChange.changeType change = "enabled"
          /\ FlagChange.changedBy change = "manual_analysis"
          /\ FlagChange.flagId change = FlagRow.id row
          /\ FlagChange.newValue change = JObject (FlagRow.object row)
          /\ analyzeFlag rt env flagId s
             = (prediction ← generatePrediction rt env change;
                detectAnomalies rt env flagId;;
                mret {| status := 200;
                        body := body_analysis (FlagRow.object row) prediction |})
                 (with_draw (with_draw s)))
  /\ (forall change change' s1,
        recordFlagChange rt env change s = Returned change' s1 ->
        flag_changes s1 = flag_changes s ++ [change_row rt change']
        /\ recordChange rt env change s
           = (prediction ← generatePrediction rt env change';
              detectAnomalies rt env (FlagChange.flagId change');;
              broadcast (flag_changed change' prediction);;
              mret {| status := 200; body := body_change change' prediction |}) s1
        /\ flag_changes (final_state (recordChange rt env change s))
           = flag_changes s ++ [change_row rt change'])
  /\ (forall change,
        existsb (fun r => String.eqb (ChangeRow.id r)
                            (if String.eqb (FlagChange.id change) ""
                             then randomUUID env (draws s) else FlagChange.id change))
          (flag_changes s) = false ->
        exists change' s1, recordFlagChange rt env change s = Returned change' s1).
Proof.
  split; [apply keeps_analyzeFlag|]. split; [|split].
  - intros row rest Hrow.
    refine (ex_intro _ _ (conj _ (conj _ (conj _ (conj _ _))))).
    5: (unfold analyzeFlag at 1; unfold mbind at 1; unfold M_bind at 1;
        unfold get_state; rewrite Hrow; reflexivity).
    all: reflexivity.
  - intros change change' s1 Hrec.
    pose proof (recordFlagChange_appends rt env change change' s s1 Hrec) as Happ.
    split; [exact Happ|].
    assert (recordChange rt env change s
            = (prediction ← generatePrediction rt env change';
               detectAnomalies rt env (FlagChange.flagId change');;
               broadcast (flag_changed change' prediction);;
               mret {| status := 200; body := body_change change' prediction |}) s1) as Hrun.
    { unfold recordChange at 1. unfold mbind at 1. unfold M_bind at 1. now rewrite Hrec. }
    split; [exact Hrun|].
    rewrite Hrun, <- Happ.
    assert (keeps_logs (prediction ← generatePrediction rt env change';
               detectAnomalies rt env (FlagChange.flagId change');;
               broadcast (flag_changed change' prediction);;
               mret {| status := 200; body := body_change change' prediction |})) as Hk.
    { apply keeps_bind; [apply keeps_generatePrediction|intros].
      apply keeps_bind; [apply keeps_detectAnomalies|intros].
      apply keeps_bind; [apply keeps_broadcast|intros].
      apply keeps_ret. }
    apply (Hk s1).
  - intros change Hfree.
    destruct (recordFlagChange_returns rt env change s Hfree) as (change' & s1 & H & _).
    eauto.
Qed.

Lemma analyzeFlag_leaves_change_log_witness :
  let rt := Reference.runtime in
  let env := world (AiResolves (Some confident)) in
  flag_changes (final_state (analyzeFlag rt env "F" start)) = []
  /\ (exists response s', analyzeFlag rt env "F" start = Returned response s'
                          /\ status response = 200%Z)
  /\ map ChangeRow.id (flag_changes (final_state (recordChange rt env rollout start)))
     = ["change-1"].
Proof.
  cbv zeta.
  pose proof (analyzeFlag_leaves_change_log Reference.runtime
                (world (AiResolves (Some confident))) "F" start)
    as ((_ & Hlog & _) & _ & Hrecord & _).
  split; [exact Hlog|].
  split; [do 2 eexists; split; [vm_compute; reflexivity|reflexivity]|].
  destruct (Hrecord rollout rollout
              (with_flag_changes (fun rows => rows ++ [change_row Reference.runtime rollout])
                 start) eq_refl) as (_ & _ & Hlast).
  rewrite Hlast. reflexivity.
Defined.

(** * More properties of the agent

    Properties of the code around the claims: the functions the pipeline is
    made of, its two entry points from end to end, and the methods of the
    whole object. *)

(** ** The span of a response handed to [JSON.parse] *)

Lemma occurs_app (c : ascii) (s t : string) :
  occurs c (s +:+ t) = occurs c s || occurs c t.
Proof.
  induction s as [|a s IH]; simpl; [reflexivity|].
  now rewrite IH, orb_assoc.
Qed.

Lemma from_first_open_spec (s t : string) :
  from_first_open s = Some t <->
  exists pre rest, s = pre +:+ String "{" rest /\ occurs "{" pre = false /\ t = String "{" rest.
Proof.
  revert t. induction s as [|c s IH]; intros t; simpl.
  - split; [discriminate|]. intros ([|a pre] & rest & H & _); discriminate.
  - destruct (Ascii.eqb_spec c "{") as [->|Hc].
    + split.
      * intros [= <-]. exists "", s. auto.
      * intros ([|a pre] & rest & H & Hpre & ->); simpl in *.
        -- now inversion H.
        -- inversion H; subst. rewrite Ascii.eqb_refl in Hpre. discriminate.
    + rewrite IH. split.
      * intros (pre & rest & -> & Hpre & ->). exists (String c pre), rest.
        simpl. repeat split; auto.
        apply orb_false_iff. split; [now apply Ascii.eqb_neq|exact Hpre].
      * intros ([|a pre] & rest & H & Hpre & ->); simpl in *.
        -- inversion H; congruence.
        -- inversion H; subst. apply orb_false_iff in Hpre as [_ Hpre]. eauto.
Qed.

Lemma to_last_close_none (s : string) : to_last_close s = None <-> occurs "}" s = false.
Proof.
  induction s as [|a s IH]; simpl; [easy|].
  destruct (to_last_close s).
  - split; [discriminate|]. intros H. apply orb_false_iff in H as [_ H].
    apply IH in H. discriminate.
  - destruct (Ascii.eqb_spec a "}"); simpl; [easy|]. tauto.
Qed.

Lemma to_last_close_intro (body post : string) :
  occurs "}" post = false ->
  to_last_close (body +:+ String "}" post) = Some (body +:+ "}").
Proof.
  intros Hpost. induction body as [|a body IH]; simpl.
  - apply to_last_close_none in Hpost. now rewrite Hpost.
  - now rewrite IH.
Qed.

Lemma to_last_close_elim (s p : string) :
  to_last_close s = Some p ->
  exists body post, s = body +:+ String "}" post /\ occurs "}" post = false
                    /\ p = body +:+ "}".
Proof.
  revert p. induction s as [|c s IH]; intros p; simpl; [discriminate|].
  destruct (to_last_close s) as [q|] eqn:E.
  - destruct (IH q eq_refl) as (body & post & -> & Hpost & ->).
    intros [= <-]. exists (String c body), post. auto.
  - apply to_last_close_none in E.
    destruct (Ascii.eqb_spec c "}") as [->|Hc]; [|discriminate].
    intros [= <-]. exists "", s. auto.
Qed.

Lemma first_open_suffix (pre rest t : string) :
  from_first_open (pre +:+ String "{" rest) = Some t ->
  exists u, t = u +:+ String "{" rest.
Proof.
  induction pre as [|a pre IH]; simpl.
  - intros [= <-]. now exists "".
  - destruct (Ascii.eqb a "{"); [|exact IH].
    intros [= <-]. now exists (String a pre).
Qed.

Lemma from_first_open_none (s : string) : from_first_open s = None <-> occurs "{" s = false.
Proof.
  induction s as [|a s IH]; simpl; [easy|].
  destruct (Ascii.eqb_spec a "{"); simpl; [easy|]. exact IH.
Qed.

(** X1. [responseText.match(/\{[\s\S]*\}/)] in [generatePrediction] matches
    exactly the texts that hold an opening brace with a closing brace
    somewhere after it, and the match runs from the first opening brace of
    the text to its last closing brace: nothing before the match holds an
    opening brace, nothing after it a closing one. There is no match exactly
    when no closing brace follows any opening brace. *)
Theorem match_braces_first_to_last (text : string) :
  (forall m,
     match_braces text = Some m <->
     exists pre mid post,
       text = pre +:+ "{" +:+ mid +:+ "}" +:+ post
       /\ occurs "{" pre = false /\ occurs "}" post = false
       /\ m = "{" +:+ mid +:+ "}")
  /\ (match_braces text = None <->
      forall pre rest, text = pre +:+ "{" +:+ rest -> occurs "}" rest = false).
Proof.
  split.
  - intros m. unfold match_braces. split.
    + destruct (from_first_open text) as [t|] eqn:E; [|discriminate].
      apply from_first_open_spec in E as (pre & rest & -> & Hpre & ->).
      intros H. apply to_last_close_elim in H as (body & post & H & Hpost & ->).
      destruct body as [|a body]; simpl in H; inversion H; subst.
      exists pre, body, post. auto.
    + intros (pre & mid & post & -> & Hpre & Hpost & ->).
      assert (from_first_open (pre +:+ "{" +:+ mid +:+ "}" +:+ post)
              = Some (String "{" (mid +:+ "}" +:+ post))) as ->.
      { apply from_first_open_spec. exists pre, (mid +:+ "}" +:+ post). auto. }
      apply (to_last_close_intro (String "{" mid) post Hpost).
  - unfold match_braces. split.
    + intros H pre rest ->.
      destruct (from_first_open (pre +:+ "{" +:+ rest)) as [t|] eqn:E.
      * apply to_last_close_none in H.
        apply first_open_suffix in E as (u & ->).
        rewrite occurs_app in H. simpl in H.
        now apply orb_false_iff in H as [_ H].
      * apply from_first_open_none in E. rewrite occurs_app in E. simpl in E.
        now rewrite orb_true_r in E.
    + intros H. destruct (from_first_open text) as [t|] eqn:E; [|reflexivity].
      apply from_first_open_spec in E as (pre & rest & -> & Hpre & ->).
      apply to_last_close_none. simpl. apply (H pre rest). reflexivity.
Qed.

(** ** The prompt over stored rows *)

Lemma metrics_query_lacks (k : string) (flagId : string) (n : nat) (s : Agent) :
  (forall r, own k (MetricsRow.object r) = JUndefined) ->
  Forall (fun m => own k m = JUndefined) (metrics_query flagId n s).
Proof.
  intros H. unfold metrics_query. apply Forall_map, Forall_forall. intros r _. apply H.
Qed.

(** X2. As soon as one sample of the flag is stored, the block of the prompt
    that [generatePrediction] builds from [SELECT * FROM impact_metrics ...]
    reports no figure: the rows carry [error_rate], [latency_p50] and
    [request_count], [buildPredictionPrompt] sums [m.errorRate],
    [m.latencyP50] and [m.requestCount], so both averages and the total are
    NaN and the three lines print NaN (as [toFixed] and the template print
    it). *)
Theorem historical_metrics_of_stored_rows rt (flagId : string) (n : nat) (s : Agent) :
  metrics_query flagId n s <> [] ->
  let rows := metrics_query flagId n s in
  avgErrorRate rt rows = PrimFloat.nan
  /\ avgLatency rt rows = PrimFloat.nan
  /\ sum_of rt "requestCount" rows = JNumber PrimFloat.nan
  /\ historical_metrics rt rows
     = String.concat ""
         [ "## Historical Metrics (Last ";
             Number_toString rt (float_of_nat (length rows)); " data points)"; nl;
           "- Average Error Rate: "; Number_toString rt PrimFloat.nan; "%"; nl;
           "- Average Latency (P50): "; Number_toString rt PrimFloat.nan; "ms"; nl;
           "- Total Request Count: "; Number_toString rt PrimFloat.nan; nl ].
Proof.
  intros Hne rows.
  assert (0 < length rows) as Hlen
    by (subst rows; destruct (metrics_query flagId n s); simpl; [congruence|lia]).
  assert (forall k, (forall r, own k (MetricsRow.object r) = JUndefined) ->
                    average_or_zero rt k rows = PrimFloat.nan) as Havg.
  { intros k Hk. unfold average_or_zero.
    replace (0 <? length rows)%nat with true by (symmetry; now apply Nat.ltb_lt).
    apply (average_of_missing rt k rows); [now apply metrics_query_lacks|exact Hne]. }
  assert (avgErrorRate rt rows = PrimFloat.nan) as He by (apply Havg; reflexivity).
  assert (avgLatency rt rows = PrimFloat.nan) as Hl by (apply Havg; reflexivity).
  assert (sum_of rt "requestCount" rows = JNumber PrimFloat.nan) as Hc.
  { apply sum_of_missing; [apply metrics_query_lacks; reflexivity|exact Hne]. }
  repeat split; try assumption.
  unfold historical_metrics. rewrite He, Hl, Hc. reflexivity.
Qed.

Lemma historical_metrics_of_stored_rows_witness :
  let rt := Reference.runtime in
  let s := ingest (world AiRejects) six_samples start in
  historical_metrics rt (metrics_query "F" 100 s)
  = String.concat nl
      [ "## Historical Metrics (Last 6 data points)";
        "- Average Error Rate: NaN%";
        "- Average Latency (P50): NaNms";
        "- Total Request Count: NaN"; "" ].
Proof.
  cbv zeta.
  rewrite (proj2 (proj2 (proj2 (historical_metrics_of_stored_rows Reference.runtime "F" 100
             (ingest (world AiRejects) six_samples start) ltac:(vm_compute; discriminate))))).
  vm_compute. reflexivity.
Defined.

Lemma map_const_replicate {A B} (b : B) (l : list A) : map (fun _ => b) l = replicate (length l) b.
Proof. induction l; simpl; congruence. Qed.

(** X3. The rows of [SELECT * FROM flag_changes ...] carry [change_type] and
    [changed_at], and [buildPredictionPrompt] prints [c.changeType] and
    [c.changedAt]: the history block of the prompt holds one line
    "- undefined at undefined" for each of the five newest changes of the
    flag (for each change when there are fewer), whatever was recorded. *)
Theorem recent_change_history_of_stored_rows rt (flagId : string) (s : Agent) :
  let recorded :=
    length (List.filter (fun r => String.eqb (ChangeRow.flag_id r) flagId) (flag_changes s)) in
  Forall (fun c => own "changeType" c = JUndefined /\ own "changedAt" c = JUndefined)
    (changes_query flagId 20 s)
  /\ recent_change_history rt (changes_query flagId 20 s)
     = String.concat ""
         [ "## Recent Change History"; nl;
           String.concat nl (replicate (min 5 recorded) "- undefined at undefined"); nl ].
Proof.
  intros recorded. split.
  - unfold changes_query. apply Forall_map, Forall_forall. intros r _. split; reflexivity.
  - unfold recent_change_history. do 3 f_equal.
    unfold changes_query. rewrite firstn_map, map_map.
    rewrite (map_ext _ (fun _ => "- undefined at undefined")) by reflexivity.
    rewrite map_const_replicate, length_take, length_select_desc.
    subst recorded. now rewrite Nat.min_assoc.
Qed.

(** ** What a prediction touches *)

Lemma js_or_truthy (a b : JsVal) : ToBoolean b = true -> ToBoolean (js_or a b) = true.
Proof. intros Hb. unfold js_or. now destruct (ToBoolean a) eqn:E. Qed.

Lemma make_prediction_filled change a b c d e f generatedAt :
  filled (make_prediction change a b c d e f generatedAt).
Proof. repeat split; apply js_or_truthy; reflexivity. Qed.

Lemma error_prediction_filled change generatedAt : filled (error_prediction change generatedAt).
Proof. repeat split. Qed.

Lemma generatePrediction_cases rt env change s :
  exists p s',
    generatePrediction rt env change s = Returned p s'
    /\ ImpactPrediction.flagId p = FlagChange.flagId change
    /\ ImpactPrediction.flagName p = FlagChange.flagName change
    /\ filled p
    /\ only_predictions_of (FlagChange.flagId change) s s'
    /\ (draws s < draws s')%nat.
Proof.
  unfold generatePrediction, try_catch, mbind, M_bind, get_state, env_AI_run.
  destruct (AI_run env (draws s) _) as [|response].
  { do 2 eexists. split; [reflexivity|]. cbn.
    repeat split; auto. }
  destruct (parse_response rt (response_text response)) as [| |b|x|t|items|o];
    cbn -[make_prediction].
  1,2: do 2 eexists; split; [reflexivity|]; cbn; repeat split; auto.
  all: unfold store_prediction;
    match goal with |- context [bindings_accepted ?r ?p] =>
      destruct (bindings_accepted r p) end; cbn -[make_prediction].
  all: do 2 eexists; (split; [reflexivity|]).
  all: split; [reflexivity|]; split; [reflexivity|].
  all: split; [first [apply make_prediction_filled | apply error_prediction_filled]|].
  all: split; [|cbn; lia].
  all: unfold only_predictions_of; cbn -[make_prediction]; repeat split; auto.
  all: intros other Hother; cbn;
    first [reflexivity | now rewrite lookup_insert_ne by congruence].
Qed.

(** X4. [generatePrediction] always returns, with a prediction that carries
    the flag id and the flag name of the change; it sends no frame, writes
    no anomaly, and leaves the flags, the change log, the metrics, the
    sessions and the predictions of every other flag as they were. *)
Theorem generatePrediction_touches_one_row rt env (change : FlagChange.t) (s : Agent) :
  exists p s',
    generatePrediction rt env change s = Returned p s'
    /\ ImpactPrediction.flagId p = FlagChange.flagId change
    /\ ImpactPrediction.flagName p = FlagChange.flagName change
    /\ feature_flags s' = feature_flags s
    /\ flag_changes s' = flag_changes s
    /\ impact_metrics s' = impact_metrics s
    /\ anomalies s' = anomalies s
    /\ sessions s' = sessions s
    /\ sent s' = sent s
    /\ forall other, other <> FlagChange.flagId change ->
         predictions s' !! other = predictions s !! other.
Proof.
  destruct (generatePrediction_cases rt env change s)
    as (p & s' & Hrun & Hid & Hname & _ & Hframe & _).
  exists p, s'. unfold only_predictions_of in Hframe. tauto.
Qed.

(** X5. Whatever the model answers, the prediction [generatePrediction]
    returns has a truthy risk level, risk score, predicted impact,
    recommendation list and confidence (each is [x || fallback] with a truthy
    fallback, or a literal): the risk score and the confidence are never 0
    and the risk level is never the empty text. *)
Theorem generatePrediction_never_returns_zero rt env (change : FlagChange.t) (s s' : Agent)
    (p : ImpactPrediction.t) :
  generatePrediction rt env change s = Returned p s' ->
  ToBoolean (ImpactPrediction.riskLevel p) = true
  /\ ToBoolean (ImpactPrediction.riskScore p) = true
  /\ ToBoolean (ImpactPrediction.predictedImpact p) = true
  /\ ToBoolean (ImpactPrediction.recommendations p) = true
  /\ ToBoolean (ImpactPrediction.confidence p) = true
  /\ ImpactPrediction.riskScore p <> JNumber 0
  /\ ImpactPrediction.confidence p <> JNumber 0
  /\ ImpactPrediction.riskLevel p <> JString "".
Proof.
  intros Hrun.
  destruct (generatePrediction_cases rt env change s)
    as (p' & s'' & Hrun' & _ & _ & Hfilled & _).
  rewrite Hrun in Hrun'. injection Hrun' as -> ->.
  destruct Hfilled as (H1 & H2 & H3 & H4 & H5).
  repeat split; auto.
  - intros E. now rewrite E in H2.
  - intros E. now rewrite E in H5.
  - intros E. now rewrite E in H1.
Qed.

Lemma generatePrediction_never_returns_zero_witness :
  exists p s',
    generatePrediction Reference.runtime (world (AiResolves (Some zero_risk))) rollout start
    = Returned p s'
    /\ ImpactPrediction.riskScore p <> JNumber 0
    /\ ImpactPrediction.confidence p <> JNumber 0.
Proof.
  destruct (generatePrediction Reference.runtime (world (AiResolves (Some zero_risk)))
              rollout start) as [p s'|s'] eqn:E; [|vm_compute in E; discriminate].
  exists p, s'. split; [reflexivity|].
  pose proof (generatePrediction_never_returns_zero _ _ _ _ _ _ E) as H.
  tauto.
Defined.

(** ** [POST /metrics] and [POST /flags/change], end to end *)



Lemma recordFlagChange_eval rt env (change : FlagChange.t) (s : Agent) :
  let id := if String.eqb (FlagChange.id change) "" then randomUUID env (draws s)
            else FlagChange.id change in
  let s0 := if String.eqb (FlagChange.id change) "" then with_draw s else s in
  let changedAt := if String.eqb (FlagChange.changedAt change) "" then toISOString env (draws s0)
                   else FlagChange.changedAt change in
  let s1 := if String.eqb (FlagChange.changedAt change) "" then with_draw s0 else s0 in
  let change' :=
    FlagChange.mk id (FlagChange.flagId change) (FlagChange.flagName change)
      (FlagChange.changeType change) (FlagChange.previousValue change)
      (FlagChange.newValue change) (FlagChange.changedBy change) changedAt
      (FlagChange.environment change) in
  recordFlagChange rt env change s
  = if existsb (fun r => String.eqb (ChangeRow.id r) id) (flag_changes s)
    then Threw s1
    else Returned change' (with_flag_changes (fun rows => rows ++ [change_row rt change']) s1).
Proof.
  cbv zeta.
  unfold recordFlagChange, mbind, M_bind, get_state, crypto_randomUUID, Date_now,
    mret, M_ret, throw, modify.
  destruct (String.eqb (FlagChange.id change) ""),
    (String.eqb (FlagChange.changedAt change) "");
    cbn [flag_changes with_draw];
    destruct (existsb _ (flag_changes s)); reflexivity.
Qed.




(** X8. When the id of the change is already in the change log (the primary
    key of [flag_changes]), [recordChange] throws at the [INSERT]: the log,
    the predictions and the anomalies are what they were and no frame is
    sent. *)
Theorem recordChange_rejects_taken_id rt env (change : FlagChange.t) (s : Agent) :
  existsb (fun r => String.eqb (ChangeRow.id r) (change_id env change s)) (flag_changes s)
  = true ->
  exists s',
    recordChange rt env change s = Threw s'
    /\ flag_changes s' = flag_changes s
    /\ predictions s' = predictions s
    /\ anomalies s' = anomalies s
    /\ sent s' = sent s.
Proof.
  intros Htaken. unfold change_id in Htaken.
  pose proof (recordFlagChange_eval rt env change s) as Hrec. cbv zeta in Hrec.
  rewrite Htaken in Hrec.
  eexists. split.
  - unfold recordChange, mbind, M_bind. rewrite Hrec. reflexivity.
  - destruct (String.eqb (FlagChange.id change) ""),
      (String.eqb (FlagChange.changedAt change) ""); repeat split.
Qed.

Lemma recordChange_rejects_taken_id_witness :
  let rt := Reference.runtime in
  let env := world AiRejects in
  let recorded := final_state (recordChange rt env rollout start) in
  map ChangeRow.id (flag_changes recorded) = ["change-1"]
  /\ exists s',
       recordChange rt env rollout recorded = Threw s'
       /\ flag_changes s' = flag_changes recorded
       /\ sent s' = sent recorded.
Proof.
  cbv zeta. split; [vm_compute; reflexivity|].
  destruct (recordChange_rejects_taken_id Reference.runtime (world AiRejects) rollout
              (final_state (recordChange Reference.runtime (world AiRejects) rollout start)))
    as (s' & Hrun & Hlog & _ & _ & Hsent).
  - vm_compute. reflexivity.
  - eauto.
Defined.

(** ** [POST /analyze] *)

Lemma analyzeFlag_found rt env (flagId : string) (s : Agent) (row : FlagRow.t)
    (rest : list FlagRow.t) :
  List.filter (fun r => String.eqb (FlagRow.id r) flagId) (feature_flags s) = row :: rest ->
  FlagRow.id row = flagId
  /\ exists prediction s',
       analyzeFlag rt env flagId s
       = Returned {| status := 200;
                     body := body_analysis (FlagRow.object row) prediction |} s'
       /\ ImpactPrediction.flagId prediction = flagId
       /\ ImpactPrediction.flagName prediction = FlagRow.name row
       /\ sent s' = sent s
       /\ anomalies s' = anomalies s
       /\ flag_changes s' = flag_changes s.
Proof.
  intros Hrow.
  assert (FlagRow.id row = flagId) as Hid.
  { assert (In row (List.filter (fun r => String.eqb (FlagRow.id r) flagId) (feature_flags s)))
      as Hin by (rewrite Hrow; now left).
    apply filter_In in Hin as [_ Hin]. now apply String.eqb_eq. }
  split; [exact Hid|].
  unfold analyzeFlag, mbind, M_bind, get_state. rewrite Hrow.
  unfold crypto_randomUUID, Date_now.
  match goal with |- context [generatePrediction rt env ?c ?s0] =>
    destruct (generatePrediction_cases rt env c s0)
      as (p & s' & Hgen & Hpid & Hpname & _ & (_ & Hlog & _ & Han & _ & Hsent & _) & _)
  end.
  rewrite Hgen, detectAnomalies_never_fires.
  exists p, s'. split; [reflexivity|].
  cbn in Hpid, Hpname, Hlog, Han, Hsent. rewrite Hid in Hpid. auto.
Qed.

(** X9. For an id no flag has, [analyzeFlag] answers 404 "Flag not found"
    and leaves the state untouched, draws included. For an id a flag has it
    always returns with status 200, the row of the flag and a prediction for
    it under the name of the row; it sends no frame, writes no anomaly and
    records no change. *)
Theorem analyzeFlag_unknown_flag rt env (flagId : string) (s : Agent) :
  (List.filter (fun r => String.eqb (FlagRow.id r) flagId) (feature_flags s) = [] ->
   analyzeFlag rt env flagId s
   = Returned {| status := 404; body := body_error "Flag not found" |} s)
  /\ (forall row rest,
        List.filter (fun r => String.eqb (FlagRow.id r) flagId) (feature_flags s)
        = row :: rest ->
        FlagRow.id row = flagId
        /\ exists prediction s',
             analyzeFlag rt env flagId s
             = Returned {| status := 200;
                           body := body_analysis (FlagRow.object row) prediction |} s'
             /\ ImpactPrediction.flagId prediction = flagId
             /\ ImpactPrediction.flagName prediction = FlagRow.name row
             /\ sent s' = sent s
             /\ anomalies s' = anomalies s
             /\ flag_changes s' = flag_changes s).
Proof.
  split.
  - intros Hnone. unfold analyzeFlag, mbind, M_bind, get_state. now rewrite Hnone.
  - apply analyzeFlag_found.
Qed.

(** ** Listings read, and change nothing *)

Lemma final_state_moved {A} (r : Outcome A) (s : Agent) : final_state (moved r s) = s.
Proof. now destruct r. Qed.

Lemma map_m_moved {A B} (f : A -> M B) (xs : list A) :
  (forall x s s', f x s' = moved (f x s) s') ->
  forall s s', map_m f xs s' = moved (map_m f xs s) s'.
Proof.
  intros Hf. induction xs as [|x xs IH]; intros s s'; [reflexivity|].
  simpl. unfold mbind, M_bind. rewrite (Hf x s s').
  destruct (f x s) as [y s1|s1]; simpl; [|reflexivity].
  rewrite (IH s1 s'). destruct (map_m f xs s1); reflexivity.
Qed.

Lemma parse_or_moved rt (v : JsVal) (fallback : string) (s s' : Agent) :
  parse_or rt v fallback s' = moved (parse_or rt v fallback s) s'.
Proof. unfold parse_or. now destruct (JSON_parse rt _). Qed.

Lemma getAllPredictions_moved rt (s s' : Agent) :
  predictions s' = predictions s ->
  getAllPredictions rt s' = moved (getAllPredictions rt s) s'.
Proof.
  intros H. unfold getAllPredictions, mbind at 1 4, M_bind at 1 4, get_state. rewrite H.
  apply map_m_moved. clear. intros p s s'. unfold mbind, M_bind.
  rewrite (parse_or_moved rt _ _ s s').
  destruct (parse_or rt _ "{}" s) as [x s1|s1]; simpl; [|reflexivity].
  rewrite (parse_or_moved rt _ _ s1 s').
  destruct (parse_or rt _ "[]" s1); reflexivity.
Qed.

Lemma getRecentAnomalies_moved rt (s s' : Agent) :
  anomalies s' = anomalies s ->
  getRecentAnomalies rt s' = moved (getRecentAnomalies rt s) s'.
Proof.
  intros H. unfold getRecentAnomalies, mbind, M_bind, get_state, recent_unresolved. rewrite H.
  apply map_m_moved. clear. intros a s s'. unfold listed, mbind, M_bind.
  rewrite (parse_or_moved rt _ _ s s').
  destruct (parse_or rt _ "{}" s); reflexivity.
Qed.

Lemma getAllPredictions_state rt (s : Agent) : final_state (getAllPredictions rt s) = s.
Proof.
  rewrite (getAllPredictions_moved rt s s) by reflexivity. apply final_state_moved.
Qed.

Lemma getRecentAnomalies_state rt (s : Agent) : final_state (getRecentAnomalies rt s) = s.
Proof.
  rewrite (getRecentAnomalies_moved rt s s) by reflexivity. apply final_state_moved.
Qed.

Lemma map_m_length {A B} (f : A -> M B) (xs : list A) (ys : list B) (s s' : Agent) :
  map_m f xs s = Returned ys s' -> length ys = length xs.
Proof.
  revert ys s s'. induction xs as [|x xs IH]; intros ys s s'; simpl.
  - now intros [= <- _].
  - unfold mbind, M_bind. destruct (f x s) as [y s1|s1]; [|discriminate].
    destruct (map_m f xs s1) as [l s2|s2] eqn:E; [|discriminate].
    intros [= <- _]. simpl. f_equal. exact (IH _ _ _ E).
Qed.

Lemma getRecentAnomalies_at_most_20 rt (s s' : Agent) (listing : list JsObject) :
  getRecentAnomalies rt s = Returned listing s' -> length listing <= 20.
Proof.
  unfold getRecentAnomalies, mbind, M_bind, get_state. intros H.
  apply map_m_length in H. rewrite H, length_map.
  unfold recent_unresolved. rewrite length_select_desc. lia.
Qed.

Lemma bind_eval {A B} (m : D A) (f : A -> D B) (o : Durable) :
  (m ≫= f) o = match m o with
               | Resolved a o' => f a o'
               | Rejected o' => Rejected o'
               end.
Proof. reflexivity. Qed.

Lemma lift_eval {A} (m : M A) (o : Durable) :
  lift m o = match m (agent o) with
             | Returned a s => Resolved a (with_agent (fun _ => s) o)
             | Threw s => Rejected (with_agent (fun _ => s) o)
             end.
Proof. reflexivity. Qed.

Lemma lift_bind {A B} (m : M A) (f : A -> M B) (o : Durable) :
  lift (m ≫= f) o = (lift m ≫= (fun a => lift (f a))) o.
Proof.
  unfold lift, mbind, M_bind, D_bind.
  destruct (m (agent o)); reflexivity.
Qed.

Lemma with_agent_same (o : Durable) : with_agent (fun _ => agent o) o = o.
Proof. now destruct o. Qed.

(** ** The listing of predictions *)

Lemma getAllPredictions_parsed rt (s : Agent) :
  Forall (fun r => JSON_parse rt (impact_text rt r) <> None
                   /\ JSON_parse rt (recommendations_text rt r) <> None)
    (predictions_by_date s) ->
  getAllPredictions rt s
  = Returned
      (map (fun r => listed_prediction r
                       (default JNull (JSON_parse rt (impact_text rt r)))
                       (default JNull (JSON_parse rt (recommendations_text rt r))))
         (predictions_by_date s))
      s.
Proof.
  intros H. unfold getAllPredictions, mbind at 1, M_bind at 1, get_state.
  apply map_m_pure. eapply Forall_impl; [exact H|].
  intros r [Hi Ha]. unfold mbind, M_bind, parse_or, impact_text, recommendations_text in *.
  cbn [own PredictionRow.object String.eqb Ascii.eqb Bool.eqb] in *.
  destruct (JSON_parse rt (ToString rt (js_or (JString (PredictionRow.predicted_impact r)) _)));
    [|congruence].
  cbn [mret M_ret].
  destruct (JSON_parse rt (ToString rt (js_or (JString (PredictionRow.recommendations r)) _)));
    [|congruence].
  reflexivity.
Qed.

Lemma stored_in_listing (s : Agent) (flagId : string) (row : PredictionRow.t) :
  predictions s !! flagId = Some row -> row ∈ predictions_by_date s.
Proof.
  intros H. unfold predictions_by_date. apply elem_of_order_by_desc.
  apply list_elem_of_fmap. exists (flagId, row). split; [reflexivity|].
  now apply elem_of_map_to_list.
Qed.

(** X10. A prediction stored by [generatePrediction] is given back by
    [getAllPredictions] (and so by [GET /predictions]) when [JSON.parse]
    undoes [JSON.stringify] on its impact and on its recommendations and the
    texts of the other rows parse: the listing has one object per stored
    flag, and the object of this flag holds the impact and the
    recommendations as values again, the risk level, risk score, reasoning
    and confidence under the names of the columns, and none of the
    properties [flagId], [riskLevel] and [riskScore] of the interface. *)
Theorem getAllPredictions_gives_back_stored rt (s : Agent) (p : ImpactPrediction.t) :
  predictions s !! ImpactPrediction.flagId p = Some (prediction_row rt p) ->
  Forall (fun r => JSON_parse rt (impact_text rt r) <> None
                   /\ JSON_parse rt (recommendations_text rt r) <> None)
    (predictions_by_date s) ->
  JSON_stringify rt (ImpactPrediction.predictedImpact p) <> "" ->
  JSON_parse rt (JSON_stringify rt (ImpactPrediction.predictedImpact p))
  = Some (ImpactPrediction.predictedImpact p) ->
  JSON_stringify rt (ImpactPrediction.recommendations p) <> "" ->
  JSON_parse rt (JSON_stringify rt (ImpactPrediction.recommendations p))
  = Some (ImpactPrediction.recommendations p) ->
  exists listing,
    getAllPredictions rt s = Returned listing s
    /\ (forall o, agent o = s ->
          getPredictions rt o
          = Resolved {| code := 200; content := prediction_list listing |} o)
    /\ length listing = size (predictions s)
    /\ exists o,
         o ∈ listing
         /\ own "flag_id" o = JString (ImpactPrediction.flagId p)
         /\ own "flag_name" o = JString (ImpactPrediction.flagName p)
         /\ own "predictedImpact" o = ImpactPrediction.predictedImpact p
         /\ own "recommendations" o = ImpactPrediction.recommendations p
         /\ own "generated_at" o = JString (ImpactPrediction.generatedAt p)
         /\ (forall level, ImpactPrediction.riskLevel p = JString level ->
               own "risk_level" o = JString level)
         /\ (forall score, ImpactPrediction.riskScore p = JNumber score ->
               own "risk_score" o = JNumber score)
         /\ (forall reason, ImpactPrediction.reasoning p = JString reason ->
               own "reasoning" o = JString reason)
         /\ (forall certainty, ImpactPrediction.confidence p = JNumber certainty ->
               own "confidence" o = JNumber certainty)
         /\ own "flagId" o = JUndefined
         /\ own "riskLevel" o = JUndefined
         /\ own "riskScore" o = JUndefined.
Proof.
  intros Hrow Hparse Hi1 Hi2 Ha1 Ha2.
  rewrite (getAllPredictions_parsed rt s Hparse).
  eexists. split; [reflexivity|]. split; [|split].
  - intros o Ho. subst s. unfold getPredictions. rewrite bind_eval, lift_eval.
    rewrite (getAllPredictions_parsed rt (agent o) Hparse).
    now rewrite with_agent_same.
  - rewrite length_map. unfold predictions_by_date.
    rewrite length_order_by_desc, length_map. apply length_map_to_list.
  - eexists. split.
    + apply list_elem_of_fmap. exists (prediction_row rt p). split; [reflexivity|].
      eapply stored_in_listing; eauto.
    + assert (impact_text rt (prediction_row rt p)
              = JSON_stringify rt (ImpactPrediction.predictedImpact p)) as ->.
      { unfold impact_text, js_or, ToBoolean. cbn [prediction_row PredictionRow.predicted_impact].
        apply String.eqb_neq in Hi1. now rewrite Hi1. }
      assert (recommendations_text rt (prediction_row rt p)
              = JSON_stringify rt (ImpactPrediction.recommendations p)) as ->.
      { unfold recommendations_text, js_or, ToBoolean.
        cbn [prediction_row PredictionRow.recommendations].
        apply String.eqb_neq in Ha1. now rewrite Ha1. }
      rewrite Hi2, Ha2. unfold listed_prediction. cbn [default].
      repeat split; try intros ? <-;
        rewrite ?own_set_prop_eq, ?own_set_prop_ne by discriminate;
        try reflexivity.
Qed.

Lemma getAllPredictions_gives_back_stored_witness :
  let rt := Reference.runtime in
  let env := world (AiResolves (Some confident)) in
  let p :=
    assembled env rollout start
      (match JSON_parse rt confident with Some (JObject o) => o | _ => [] end) in
  let s := stored rt start p in
  generatePrediction rt env rollout start = Returned p s
  /\ exists listing o,
       getAllPredictions rt s = Returned listing s
       /\ length listing = 1
       /\ o ∈ listing
       /\ own "predictedImpact" o
          = JObject [ ("errorRateChange", JNumber 2.5); ("latencyChange", JNumber 40);
                      ("userImpactPercentage", JNumber 25) ]
       /\ own "recommendations" o = JArray [JString "Roll out slowly"]
       /\ own "risk_score" o = JNumber 250.
Proof.
  cbv zeta. split; [vm_compute; reflexivity|].
  destruct (getAllPredictions_gives_back_stored Reference.runtime
              (stored Reference.runtime start
                 (assembled (world (AiResolves (Some confident))) rollout start
                    (match JSON_parse Reference.runtime confident with
                     | Some (JObject o) => o
                     | _ => []
                     end)))
              (assembled (world (AiResolves (Some confident))) rollout start
                 (match JSON_parse Reference.runtime confident with
                  | Some (JObject o) => o
                  | _ => []
                  end)))
    as (listing & Hrun & _ & Hlen & o & Hin & _ & _ & Himpact & Hadvice & _ & _ & Hscore & _).
  - vm_compute. reflexivity.
  - repeat constructor; vm_compute; discriminate.
  - vm_compute. discriminate.
  - vm_compute. reflexivity.
  - vm_compute. discriminate.
  - vm_compute. reflexivity.
  - exists listing, o. split; [exact Hrun|]. split; [rewrite Hlen; vm_compute; reflexivity|].
    split; [exact Hin|]. rewrite Himpact, Hadvice, (Hscore 250%float eq_refl).
    repeat split.
Defined.

(** ** Flag management *)

Lemma text_or_filled (a b : string) : b <> "" -> text_or a b <> "".
Proof. unfold text_or. intros Hb. now destruct (String.eqb_spec a ""). Qed.


Section CreateFlag.
Variable rt : Runtime.
Variable env : Env.
Variable flag : FeatureFlag.t.
Variable o : Durable.

(** [createFlag] up to its first [INSERT]. *)
Lemma createFlag_taken :
  existsb (fun r => String.eqb (FlagRow.id r) (FeatureFlag.id (created env flag o)))
    (feature_flags (agent o)) = true ->
  createFlag rt env flag o = Rejected (with_agent (fun _ => before_insert flag o) o).
Proof.
  unfold created, before_insert, createFlag, mbind, D_bind, lift, whole, reject,
    crypto_randomUUID, Date_now, mret, D_ret.
  destruct (String.eqb (FeatureFlag.id flag) ""); cbn; now intros ->.
Qed.

(** [createFlag] from its first [INSERT] on. *)
Lemma createFlag_free :
  existsb (fun r => String.eqb (FlagRow.id r) (FeatureFlag.id (created env flag o)))
    (feature_flags (agent o)) = false ->
  createFlag rt env flag o
  = match recordFlagChange rt env (creation (creation_id env flag o) (created env flag o))
            (with_draw
               (with_feature_flags (fun rows => rows ++ [flag_row rt (created env flag o)])
                  (before_insert flag o)))
    with
    | Returned _ s =>
        Resolved {| code := 201; content := created_flag (created env flag o) |}
          (with_notices
             (fun l => l ++ map (fun sid => (sid, flag_created (created env flag o)))
                             (sessions s))
             (with_agent (fun _ => s) o))
    | Threw s => Rejected (with_agent (fun _ => s) o)
    end.
Proof.
  unfold created, creation_id, before_insert, createFlag, mbind, D_bind, lift, whole, reject,
    crypto_randomUUID, Date_now, mret, D_ret, modify, announce.
  destruct (String.eqb (FeatureFlag.id flag) "");
    cbn -[recordFlagChange]; intros ->; cbn -[recordFlagChange];
    rewrite ?Nat.sub_0_r;
    match goal with |- context [recordFlagChange rt env ?c ?s] =>
      destruct (recordFlagChange rt env c s) end; reflexivity.
Qed.

End CreateFlag.

Lemma before_insert_tables (flag : FeatureFlag.t) (o : Durable) :
  let s := before_insert flag o in
  feature_flags s = feature_flags (agent o)
  /\ flag_changes s = flag_changes (agent o)
  /\ impact_metrics s = impact_metrics (agent o)
  /\ predictions s = predictions (agent o)
  /\ anomalies s = anomalies (agent o)
  /\ sessions s = sessions (agent o)
  /\ sent s = sent (agent o).
Proof. unfold before_insert. destruct (String.eqb _ _); repeat split. Qed.



(** X12. [createFlag] with an id that a flag already has (the primary key of
    [feature_flags]) rejects at the [INSERT]: no row, no change and no frame
    is written. *)
Theorem createFlag_rejects_taken_id rt env (flag : FeatureFlag.t) (o : Durable) :
  existsb (fun r => String.eqb (FlagRow.id r) (FeatureFlag.id (created env flag o)))
    (feature_flags (agent o)) = true ->
  exists o',
    createFlag rt env flag o = Rejected o'
    /\ feature_flags (agent o') = feature_flags (agent o)
    /\ flag_changes (agent o') = flag_changes (agent o)
    /\ notices o' = notices o
    /\ sent (agent o') = sent (agent o).
Proof.
  intros Htaken. rewrite (createFlag_taken rt env flag o Htaken).
  pose proof (before_insert_tables flag o) as (Hf & Hc & Hm & Hp & Ha & Hs & Hsent).
  eexists. split; [reflexivity|]. cbn. auto.
Qed.

Lemma createFlag_rejects_taken_id_witness :
  let rt := Reference.runtime in
  let env := Office.world AiRejects in
  let again :=
    FeatureFlag.mk "F" "checkout-v3" "" true 50 "staging" "" "" [] "bob" in
  exists o',
    createFlag rt env again Office.opened = Rejected o'
    /\ map FlagRow.name (feature_flags (agent o')) = ["checkout-v2"]
    /\ notices o' = [].
Proof.
  cbv zeta.
  destruct (createFlag_rejects_taken_id Reference.runtime (Office.world AiRejects)
              (FeatureFlag.mk "F" "checkout-v3" "" true 50 "staging" "" "" [] "bob")
              Office.opened eq_refl)
    as (o' & Hrun & Hflags & _ & Hnotices & _).
  exists o'. split; [exact Hrun|]. rewrite Hflags, Hnotices. split; reflexivity.
Defined.

Lemma filter_found {A} (f : A -> bool) (x : A) (l : list A) :
  In x l -> f x = true -> exists y rest, List.filter f l = y :: rest.
Proof.
  intros Hin Hf. destruct (List.filter f l) as [|y rest] eqn:E; [|eauto].
  assert (In x (List.filter f l)) as H by (apply filter_In; auto).
  rewrite E in H. destruct H.
Qed.

(** X13. A flag that [createFlag] answered for is there afterwards: the
    answer is 201 with the flag as stored, its row is the last of
    [feature_flags], [analyzeFlag] of its id answers 200 (not 404), and
    [getFlags] lists the row among one more flag than before. *)
Theorem createFlag_then_found rt env (flag : FeatureFlag.t) (o o' : Durable) (reply : Reply) :
  createFlag rt env flag o = Resolved reply o' ->
  let flag' := created env flag o in
  reply = {| code := 201; content := created_flag flag' |}
  /\ existsb (fun r => String.eqb (FlagRow.id r) (FeatureFlag.id flag'))
       (feature_flags (agent o)) = false
  /\ feature_flags (agent o') = feature_flags (agent o) ++ [flag_row rt flag']
  /\ (exists response s',
        analyzeFlag rt env (FeatureFlag.id flag') (agent o') = Returned response s'
        /\ status response = 200%Z)
  /\ (exists listing,
        getFlags o' = Resolved {| code := 200; content := flag_list listing |} o'
        /\ FlagRow.object (flag_row rt flag') ∈ listing
        /\ length listing = S (length (feature_flags (agent o)))).
Proof.
  intros Hrun flag'.
  destruct (existsb (fun r => String.eqb (FlagRow.id r) (FeatureFlag.id flag'))
              (feature_flags (agent o))) eqn:Hflag.
  { rewrite (createFlag_taken rt env flag o Hflag) in Hrun. discriminate. }
  rewrite (createFlag_free rt env flag o Hflag) in Hrun. fold flag' in Hrun.
  pose proof (before_insert_tables flag o) as (Hf & _).
  rewrite recordFlagChange_eval in Hrun. cbv zeta in Hrun.
  match type of Hrun with
  | context [existsb ?f ?l] => destruct (existsb f l); [discriminate|]
  end.
  injection Hrun as Hreply Ho'.
  assert (feature_flags (agent o') = feature_flags (agent o) ++ [flag_row rt flag']) as Hrows.
  { rewrite <- Ho'. cbn. destruct (String.eqb _ ""), (String.eqb _ ""); cbn; now rewrite Hf. }
  split; [now rewrite <- Hreply|]. split; [reflexivity|]. split; [exact Hrows|]. split.
  - destruct (filter_found (fun r => String.eqb (FlagRow.id r) (FeatureFlag.id flag'))
                (flag_row rt flag') (feature_flags (agent o')))
      as (row & rest & Hfound).
    + rewrite Hrows. apply in_or_app. right. now left.
    + apply String.eqb_refl.
    + destruct (analyzeFlag_found rt env _ _ row rest Hfound) as (_ & p & s' & Hrun & _).
      eauto.
  - eexists. split; [reflexivity|]. split.
    + apply list_elem_of_fmap. exists (flag_row rt flag'). split; [reflexivity|].
      apply elem_of_order_by_desc. rewrite Hrows. apply elem_of_app. right.
      apply list_elem_of_singleton. reflexivity.
    + rewrite length_map, length_order_by_desc, Hrows, length_app. simpl. lia.
Qed.

Lemma createFlag_then_found_witness :
  let rt := Reference.runtime in
  let env := Office.world AiRejects in
  exists reply o' response s',
    createFlag rt env Office.dark_mode Office.opened = Resolved reply o'
    /\ analyzeFlag rt env "id-0" (agent o') = Returned response s'
    /\ status response = 200%Z
    /\ analyzeFlag rt env "id-0" (agent Office.opened)
       = Returned {| status := 404; body := body_error "Flag not found" |}
           (agent Office.opened).
Proof.
  cbv zeta.
  destruct (createFlag Reference.runtime (Office.world AiRejects) Office.dark_mode
              Office.opened) as [reply o'|o'] eqn:E; [|vm_compute in E; discriminate].
  destruct (createFlag_then_found _ _ _ _ _ _ E)
    as (_ & _ & _ & (response & s' & Hrun & Hstatus) & _).
  exists reply, o', response, s'. repeat split; auto.
Defined.

Lemma insert_desc_perm {R} (key : R -> string) (x : R) (l : list R) :
  insert_desc key x l ≡ₚ x :: l.
Proof.
  induction l as [|y l IH]; simpl; [reflexivity|].
  destruct (String.leb (key y) (key x)); [reflexivity|].
  rewrite IH. apply Permutation_swap.
Qed.

Lemma order_by_desc_perm {R} (key : R -> string) (l : list R) : order_by_desc key l ≡ₚ l.
Proof.
  induction l as [|x l IH]; [reflexivity|].
  unfold order_by_desc in *. simpl. now rewrite insert_desc_perm, IH.
Qed.

(** X14. [getFlags] answers 200 with the rows of [feature_flags], each row
    once, from the latest [updated_at] to the earliest, and changes
    nothing. *)
Theorem getFlags_lists_every_flag (o : Durable) :
  exists rows,
    getFlags o = Resolved {| code := 200; content := flag_list (map FlagRow.object rows) |} o
    /\ rows ≡ₚ feature_flags (agent o)
    /\ StronglySorted
         (fun x y => String.leb (FlagRow.updated_at y) (FlagRow.updated_at x) = true) rows.
Proof.
  exists (order_by_desc FlagRow.updated_at (feature_flags (agent o))).
  split; [reflexivity|]. split; [apply order_by_desc_perm|].
  apply (order_by_desc_sorted FlagRow.updated_at).
Qed.

(** ** The life of a socket *)

Lemma map_set_elem (k : string) (keys : list string) : k ∈ map_set k keys.
Proof.
  unfold map_set. destruct (existsb (String.eqb k) keys) eqn:E.
  - apply existsb_exists in E as (k' & Hin & Heq). apply String.eqb_eq in Heq. subst.
    now apply list_elem_of_In.
  - apply elem_of_app. right. apply list_elem_of_singleton. reflexivity.
Qed.

Lemma map_delete_elem (k k' : string) (keys : list string) :
  k' ∈ map_delete k keys <-> k' ∈ keys /\ k' <> k.
Proof.
  unfold map_delete. rewrite !list_elem_of_In, filter_In, negb_true_iff, String.eqb_neq.
  reflexivity.
Qed.

Lemma map_delete_set_fresh (k : string) (keys : list string) :
  k ∉ keys -> map_delete k (map_set k keys) = keys.
Proof.
  intros Hfresh. unfold map_set.
  destruct (existsb (String.eqb k) keys) eqn:E.
  { apply existsb_exists in E as (k' & Hin & Heq). apply String.eqb_eq in Heq. subst.
    now apply list_elem_of_In in Hin. }
  unfold map_delete. rewrite List.filter_app. simpl. rewrite String.eqb_refl. simpl.
  rewrite app_nil_r. apply forallb_filter_id. apply forallb_forall. intros k' Hin.
  apply negb_true_iff, String.eqb_neq. intros ->. now apply list_elem_of_In in Hin.
Qed.

(** X15. [handleWebSocket] answers 101, registers the socket under a drawn
    session id and sends it, and no other socket, one [connected] frame.
    Once the listener of [close] has run the id is no longer a session, the
    other sessions are the ones there were (the very list, when the id was
    new), and no frame that [broadcast] sends from then on goes to that
    id. *)
Theorem handleWebSocket_until_close env (o : Durable) :
  let sessionId := randomUUID env (draws (agent o)) in
  exists o',
    handleWebSocket env o = Resolved {| code := 101; content := web_socket sessionId |} o'
    /\ sessions (agent o') = map_set sessionId (sessions (agent o))
    /\ sessionId ∈ sessions (agent o')
    /\ notices o' = notices o ++ [(sessionId, connected sessionId)]
    /\ sent (agent o') = sent (agent o)
    /\ exists o'',
         on_close sessionId o' = Resolved tt o''
         /\ (sessionId ∉ sessions (agent o''))
         /\ (forall other, other <> sessionId ->
               (other ∈ sessions (agent o'') <-> other ∈ sessions (agent o)))
         /\ (sessionId ∉ sessions (agent o) -> sessions (agent o'') = sessions (agent o))
         /\ notices o'' = notices o'
         /\ forall frame,
              Forall (fun to => fst to <> sessionId)
                (drop (length (sent (agent o'')))
                   (sent (final_state (broadcast frame (agent o''))))).
Proof.
  intros sessionId. eexists. split; [reflexivity|]. cbn -[map_delete map_set].
  split; [reflexivity|]. split; [apply map_set_elem|]. split; [reflexivity|].
  split; [reflexivity|].
  eexists. split; [reflexivity|]. cbn -[map_delete map_set].
  assert (sessionId ∉ map_delete sessionId (map_set sessionId (sessions (agent o)))) as Hout.
  { intros H. apply map_delete_elem in H. tauto. }
  split; [exact Hout|]. split; [|split; [apply map_delete_set_fresh|split; [reflexivity|]]].
  - intros other Hother. rewrite map_delete_elem. unfold map_set.
    destruct (existsb _ _); [tauto|].
    rewrite elem_of_app, list_elem_of_singleton. tauto.
  - intros frame. rewrite drop_app_length. apply Forall_map, Forall_forall.
    intros other Hin. cbn. intros ->. now apply Hout, list_elem_of_In.
Qed.

(** ** Messages on a socket *)

Lemma notify_eval (sessionId : string) (notice : Notice) (o : Durable) :
  notify sessionId notice o
  = Resolved tt (with_notices (fun l => l ++ [(sessionId, notice)]) o).
Proof. reflexivity. Qed.

(** The two embeddings of [handleWebSocketMessage] agree when the chat
    leaves the conversations alone. *)
Lemma handleWebSocketMessage_on_lift rt (processChat : JsVal -> string -> M JsVal)
    (sessionId : string) (data : JsVal) (o : Durable) :
  handleWebSocketMessage_on rt (fun v sid => lift (processChat v sid)) sessionId data o
  = lift (handleWebSocketMessage rt processChat sessionId data) o.
Proof.
  unfold handleWebSocketMessage_on, handleWebSocketMessage.
  rewrite lift_bind, !bind_eval.
  destruct (lift (read data "type") o) as [type o1|o1]; [|reflexivity].
  destruct (is_string "chat" type).
  { rewrite lift_bind, !bind_eval. now destruct (lift (processChat _ sessionId) o1). }
  destruct (is_string "subscribe_anomalies" type).
  { rewrite lift_bind, !bind_eval. now destruct (lift (getRecentAnomalies rt) o1). }
  destruct (is_string "get_predictions" type).
  { rewrite lift_bind, !bind_eval. now destruct (lift (getAllPredictions rt) o1). }
  unfold lift, mret, D_ret, M_ret. now rewrite with_agent_same.
Qed.

(** X16. The listener of [message] never rejects, whatever the chat does. A
    text that [JSON.parse] rejects, and a message that parses to [null] (or
    any value whose [type] cannot be read), is answered with one
    [{ error: 'Invalid message format' }] frame on its socket and changes
    nothing else; so is a [subscribe_anomalies] message when the listing
    throws. A message whose [type] is none of "chat", "subscribe_anomalies"
    and "get_predictions" is dropped: no frame, no change. *)
Theorem on_message_never_rejects rt (chat : JsVal -> string -> D JsVal)
    (sessionId data : string) (o : Durable) :
  let refused := with_notices (fun l => l ++ [(sessionId, invalid_message)]) o in
  (exists o', on_message rt chat sessionId data o = Resolved tt o')
  /\ (JSON_parse rt data = None -> on_message rt chat sessionId data o = Resolved tt refused)
  /\ (forall v,
        JSON_parse rt data = Some v -> member v "type" = None ->
        on_message rt chat sessionId data o = Resolved tt refused)
  /\ (forall v type,
        JSON_parse rt data = Some v -> member v "type" = Some type ->
        is_string "chat" type = false ->
        is_string "subscribe_anomalies" type = false ->
        is_string "get_predictions" type = false ->
        on_message rt chat sessionId data o = Resolved tt o)
  /\ (forall v,
        JSON_parse rt data = Some v ->
        member v "type" = Some (JString "subscribe_anomalies") ->
        on_message rt chat sessionId data o
        = match getRecentAnomalies rt (agent o) with
          | Returned listing _ =>
              Resolved tt
                (with_agent (with_sent (fun l => l ++ [(sessionId, subscribed listing)])) o)
          | Threw _ => Resolved tt refused
          end).
Proof.
  intros refused. unfold on_message, catching.
  split; [|split; [|split; [|split]]].
  - destruct (match JSON_parse rt data with
              | Some v => handleWebSocketMessage_on rt chat sessionId v
              | None => reject
              end o) as [[] o'|o']; [eauto|].
    rewrite notify_eval. eauto.
  - intros ->. reflexivity.
  - intros v -> Htype. unfold handleWebSocketMessage_on.
    rewrite bind_eval, lift_eval. unfold read. rewrite Htype. unfold throw.
    rewrite notify_eval. unfold refused. cbn. now rewrite with_agent_same.
  - intros v type -> Htype H1 H2 H3. unfold handleWebSocketMessage_on.
    rewrite bind_eval, lift_eval. unfold read. rewrite Htype. cbn [mret M_ret].
    rewrite H1, H2, H3. cbn [mret D_ret]. now rewrite with_agent_same.
  - intros v -> Htype. unfold handleWebSocketMessage_on.
    rewrite bind_eval, lift_eval. unfold read. rewrite Htype. cbn [mret M_ret].
    cbn [is_string String.eqb Ascii.eqb Bool.eqb].
    rewrite bind_eval, lift_eval. cbn [agent with_agent].
    pose proof (getRecentAnomalies_state rt (agent o)) as Hstate.
    destruct (getRecentAnomalies rt (agent o)) as [listing s|s];
      cbn [final_state] in Hstate; subst s.
    + rewrite lift_eval. unfold socket_send, modify. cbn [agent with_agent].
      reflexivity.
    + rewrite notify_eval. unfold refused. cbn. now rewrite !with_agent_same.
Qed.

(** ** The chat *)

Lemma assistant_text_filled (response : option string) : assistant_text response <> "".
Proof.
  unfold assistant_text. destruct response as [text|]; [|discriminate].
  apply text_or_filled. discriminate.
Qed.

Lemma insert_conversation_eval (row : ConversationRow.t) (o : Durable) :
  insert_conversation row o
  = if existsb (fun r => String.eqb (ConversationRow.id r) (ConversationRow.id row))
         (conversations o)
    then Rejected o
    else Resolved tt (with_conversations (fun rows => rows ++ [row]) o).
Proof.
  unfold insert_conversation. rewrite bind_eval. unfold whole.
  now destruct (existsb _ _).
Qed.

Section Chat.
Variable rt : Runtime.
Variable env : Env.
Variable message sessionId : string.
Variable o : Durable.
Variable listedPredictions listedAnomalies : list JsObject.

Hypothesis user_id_free :
  existsb (fun r => String.eqb (ConversationRow.id r)
                      (ConversationRow.id (user_row env message sessionId o)))
    (conversations o) = false.
Hypothesis predictions_listed :
  getAllPredictions rt (agent o) = Returned listedPredictions (agent o).
Hypothesis anomalies_listed :
  getRecentAnomalies rt (agent o) = Returned listedAnomalies (agent o).

(** [processChat] once the message of the user is stored and the two
    listings are read. *)
Lemma processChat_asked :
  processChat rt env message sessionId o
  = catching
      (response ← lift (env_AI_run env
                          (request_of rt env message sessionId o
                             listedPredictions listedAnomalies));
       assistantMsgId ← lift (crypto_randomUUID env);
       timestamp ← lift (Date_now env);
       insert_conversation
         (ConversationRow.mk assistantMsgId sessionId "assistant" (assistant_text response)
            timestamp (discussed rt (all_flags (asked env message sessionId o))));;
       mret (ChatResponse.mk (assistant_text response) sessionId
               (Some (length (all_flags (asked env message sessionId o)),
                      length listedAnomalies, length listedPredictions))))
      (mret (chat_failure sessionId))
      (asked env message sessionId o).
Proof.
  unfold processChat.
  unfold mbind at 1 2 3. unfold D_bind at 1 2 3.
  unfold lift at 1 2, crypto_randomUUID at 1, Date_now at 1. cbn [agent with_agent with_draw draws].
  unfold insert_conversation at 1. unfold mbind at 1 2. unfold D_bind at 1 2.
  unfold whole at 1 2. cbn [conversations with_agent ConversationRow.id].
  change (randomUUID env (draws (agent o)))
    with (ConversationRow.id (user_row env message sessionId o)).
  rewrite user_id_free. unfold update at 1.
  change (with_conversations _ _) with (asked env message sessionId o).
  unfold mbind at 1 2. unfold D_bind at 1 2. unfold lift at 1.
  rewrite (getAllPredictions_moved rt (agent o)) by reflexivity.
  rewrite predictions_listed. cbn [moved].
  unfold lift at 1. cbn [agent with_agent].
  rewrite (getRecentAnomalies_moved rt (agent o)) by reflexivity.
  rewrite anomalies_listed. cbn [moved].
  reflexivity.
Qed.

End Chat.

(** X17. When the model call of [processChat] fails, the chat still
    answers: with the fixed error message, the session id and no context.
    The message of the user stays stored as the one new row of
    [conversations]; no answer is stored, and nothing else changes. *)
Theorem processChat_model_failure rt env (message sessionId : string) (o : Durable)
    (listedPredictions listedAnomalies : list JsObject) :
  existsb (fun r => String.eqb (ConversationRow.id r)
                      (ConversationRow.id (user_row env message sessionId o)))
    (conversations o) = false ->
  getAllPredictions rt (agent o) = Returned listedPredictions (agent o) ->
  getRecentAnomalies rt (agent o) = Returned listedAnomalies (agent o) ->
  AI_run env (2 + draws (agent o))
    (request_of rt env message sessionId o listedPredictions listedAnomalies) = AiRejects ->
  exists o',
    processChat rt env message sessionId o
    = Resolved
        (ChatResponse.mk "I encountered an error processing your request. Please try again."
           sessionId None) o'
    /\ conversations o' = conversations o ++ [user_row env message sessionId o]
    /\ ConversationRow.role (user_row env message sessionId o) = "user"
    /\ ConversationRow.content (user_row env message sessionId o) = message
    /\ ConversationRow.session_id (user_row env message sessionId o) = sessionId
    /\ predictions (agent o') = predictions (agent o)
    /\ anomalies (agent o') = anomalies (agent o)
    /\ sent (agent o') = sent (agent o)
    /\ notices o' = notices o.
Proof.
  intros Hfree HP HA Hai.
  rewrite (processChat_asked rt env message sessionId o _ _ Hfree HP HA).
  unfold catching, mbind, D_bind, lift at 1, env_AI_run.
  cbn [agent asked with_conversations with_agent draws with_draw].
  change (S (S (draws (agent o)))) with (2 + draws (agent o)).
  rewrite Hai. eexists. split; [reflexivity|]. repeat split.
Qed.

Lemma processChat_model_failure_witness :
  let rt := Reference.runtime in
  let env := Office.world AiRejects in
  exists o',
    processChat rt env "Is checkout-v2 safe?" "session-1" Office.opened
    = Resolved
        (ChatResponse.mk "I encountered an error processing your request. Please try again."
           "session-1" None) o'
    /\ map ConversationRow.content (conversations o') = ["Is checkout-v2 safe?"].
Proof.
  cbv zeta.
  destruct (processChat_model_failure Reference.runtime (Office.world AiRejects)
              "Is checkout-v2 safe?" "session-1" Office.opened [] [])
    as (o' & Hrun & Hrows & _).
  - reflexivity.
  - reflexivity.
  - reflexivity.
  - reflexivity.
  - exists o'. split; [exact Hrun|]. rewrite Hrows. reflexivity.
Defined.

(** X18. When the model call of [processChat] resolves, the chat answers
    with the text of the model, or with the apology when that text is
    missing or empty (the answer is never empty), and with the counts of the
    flags, the listed anomalies and the listed predictions; the anomaly count
    is at most 20. Two rows are appended to [conversations], the message of
    the user and then the answer, and nothing else changes. *)
Theorem processChat_stores_both_messages rt env (message sessionId : string) (o : Durable)
    (listedPredictions listedAnomalies : list JsObject) (response : option string) :
  existsb (fun r => String.eqb (ConversationRow.id r)
                      (ConversationRow.id (user_row env message sessionId o)))
    (conversations o) = false ->
  getAllPredictions rt (agent o) = Returned listedPredictions (agent o) ->
  getRecentAnomalies rt (agent o) = Returned listedAnomalies (agent o) ->
  AI_run env (2 + draws (agent o))
    (request_of rt env message sessionId o listedPredictions listedAnomalies)
  = AiResolves response ->
  existsb (fun r => String.eqb (ConversationRow.id r)
                      (ConversationRow.id (assistant_row rt env message sessionId o response)))
    (conversations o ++ [user_row env message sessionId o]) = false ->
  exists o',
    processChat rt env message sessionId o
    = Resolved
        (ChatResponse.mk (assistant_text response) sessionId
           (Some (length (feature_flags (agent o)), length listedAnomalies,
                  length listedPredictions))) o'
    /\ conversations o'
       = conversations o
         ++ [ user_row env message sessionId o;
              assistant_row rt env message sessionId o response ]
    /\ ConversationRow.role (assistant_row rt env message sessionId o response) = "assistant"
    /\ ConversationRow.content (assistant_row rt env message sessionId o response)
       = assistant_text response
    /\ assistant_text response <> ""
    /\ (forall text, response = Some text -> text <> "" -> assistant_text response = text)
    /\ length listedAnomalies <= 20
    /\ predictions (agent o') = predictions (agent o)
    /\ anomalies (agent o') = anomalies (agent o)
    /\ sent (agent o') = sent (agent o)
    /\ notices o' = notices o.
Proof.
  intros Hfree HP HA Hai Hfree2.
  rewrite (processChat_asked rt env message sessionId o _ _ Hfree HP HA).
  unfold catching. rewrite bind_eval. unfold lift at 1, env_AI_run.
  cbn [agent asked with_conversations with_agent draws with_draw].
  change (S (S (draws (agent o)))) with (2 + draws (agent o)).
  rewrite Hai. rewrite bind_eval. unfold lift at 1, crypto_randomUUID.
  rewrite bind_eval. unfold lift at 1, Date_now.
  rewrite bind_eval, insert_conversation_eval.
  cbn [agent asked with_conversations with_agent draws with_draw conversations
       ConversationRow.id].
  change (existsb _ _)
    with (existsb
            (fun r => String.eqb (ConversationRow.id r)
               (ConversationRow.id (assistant_row rt env message sessionId o response)))
            (conversations o ++ [user_row env message sessionId o])).
  rewrite Hfree2.
  eexists. split.
  - unfold all_flags. rewrite length_map. reflexivity.
  - cbn. rewrite <- app_assoc. repeat split.
    + apply assistant_text_filled.
    + intros text -> Htext. unfold assistant_text, text_or.
      now destruct (String.eqb_spec text "").
    + eapply getRecentAnomalies_at_most_20; eauto.
Qed.

Lemma processChat_stores_both_messages_witness :
  let rt := Reference.runtime in
  let env := Office.world (AiResolves (Some "One flag, no anomalies.")) in
  exists o',
    processChat rt env "Is checkout-v2 safe?" "session-1" Office.opened
    = Resolved (ChatResponse.mk "One flag, no anomalies." "session-1" (Some (1, 0, 0))) o'
    /\ map (fun r => (ConversationRow.role r, ConversationRow.content r)) (conversations o')
       = [ ("user", "Is checkout-v2 safe?"); ("assistant", "One flag, no anomalies.") ].
Proof.
  cbv zeta.
  destruct (processChat_stores_both_messages Reference.runtime
              (Office.world (AiResolves (Some "One flag, no anomalies.")))
              "Is checkout-v2 safe?" "session-1" Office.opened [] []
              (Some "One flag, no anomalies."))
    as (o' & Hrun & Hrows & _).
  - reflexivity.
  - reflexivity.
  - reflexivity.
  - reflexivity.
  - reflexivity.
  - exists o'. split; [exact Hrun|]. rewrite Hrows. reflexivity.
Defined.

Lemma StronglySorted_rev {A} (R : A -> A -> Prop) (l : list A) :
  StronglySorted R l -> StronglySorted (fun x y => R y x) (rev l).
Proof.
  induction 1 as [|x l Hl IH Hx]; simpl; [constructor|].
  apply StronglySorted_app_2; [|exact IH|repeat constructor].
  intros y z Hy Hz. apply list_elem_of_singleton in Hz. subst z.
  rewrite Forall_forall in Hx. apply Hx.
  apply list_elem_of_In. apply list_elem_of_In, in_rev in Hy. exact Hy.
Qed.

Lemma history_of_rows rt (sessionId : string) (o : Durable) :
  map (fun h => (ToString rt (own "role" h), ToString rt (own "content" h)))
    (history_of sessionId o)
  = map (fun r => (ConversationRow.role r, ConversationRow.content r))
      (rev (select_desc (fun r => String.eqb (ConversationRow.session_id r) sessionId)
              ConversationRow.timestamp 10 (conversations o))).
Proof.
  unfold history_of. rewrite <- map_rev, map_map. reflexivity.
Qed.

Lemma newest_stays_first {R} (key : R -> string) (u : R) (xs : list R) :
  Forall (fun x => String.leb (key u) (key x) = false) xs ->
  exists l, foldr (insert_desc key) [u] xs = u :: l.
Proof.
  induction 1 as [|x xs Hx _ [l IH]]; simpl; [eauto|].
  rewrite IH. simpl. rewrite Hx. eauto.
Qed.

(** X19. The request [processChat] makes of the model holds the system
    prompt, then at most ten earlier messages, all of this session and from
    the oldest to the newest, then the message of the user. The history is
    read after the message was stored: when the session had fewer than ten
    rows, or when the new row is dated after every row of the session, the
    message is in the history too, so the model is given it twice. *)
Theorem processChat_request_history rt env (message sessionId : string) (o : Durable)
    (listedPredictions listedAnomalies : list JsObject) :
  let request := request_of rt env message sessionId o listedPredictions listedAnomalies in
  let said (r : ConversationRow.t) := (ConversationRow.role r, ConversationRow.content r) in
  exists rows,
    messages request
    = [ ("system",
         systemPrompt rt (map FlagRow.object (feature_flags (agent o)))
           listedPredictions listedAnomalies) ]
      ++ map said rows ++ [("user", message)]
    /\ length rows <= 10
    /\ Forall (fun r => ConversationRow.session_id r = sessionId
                        /\ r ∈ conversations o ++ [user_row env message sessionId o]) rows
    /\ StronglySorted
         (fun x y => String.leb (ConversationRow.timestamp x) (ConversationRow.timestamp y)
                     = true) rows
    /\ (length (List.filter (fun r => String.eqb (ConversationRow.session_id r) sessionId)
                  (conversations o)) < 10 ->
        user_row env message sessionId o ∈ rows
        /\ ("user", message) ∈ map said rows)
    /\ (Forall (fun r => ConversationRow.session_id r = sessionId ->
                         String.leb
                           (ConversationRow.timestamp (user_row env message sessionId o))
                           (ConversationRow.timestamp r) = false)
          (conversations o) ->
        user_row env message sessionId o ∈ rows
        /\ ("user", message) ∈ map said rows).
Proof.
  intros request said.
  set (cond := fun r => String.eqb (ConversationRow.session_id r) sessionId).
  set (table := conversations o ++ [user_row env message sessionId o]).
  exists (rev (select_desc cond ConversationRow.timestamp 10 table)).
  assert (user_row env message sessionId o
          ∈ rev (select_desc cond ConversationRow.timestamp 10 table) ->
          ("user", message)
          ∈ map said (rev (select_desc cond ConversationRow.timestamp 10 table))) as Hsaid.
  { intros Hin. apply list_elem_of_fmap. exists (user_row env message sessionId o). now split. }
  split; [|split; [|split; [|split; [|split]]]].
  - unfold request, request_of, chat_request, chat_messages. cbn [messages].
    rewrite history_of_rows. reflexivity.
  - rewrite length_rev, length_select_desc. lia.
  - apply Forall_forall. intros r Hr.
    apply list_elem_of_In, in_rev, list_elem_of_In in Hr.
    apply elem_of_select_desc in Hr as [Hin Hc]. split; [now apply String.eqb_eq|exact Hin].
  - apply (StronglySorted_rev
             (fun x y => String.leb (ConversationRow.timestamp y) (ConversationRow.timestamp x)
                         = true)).
    apply (select_desc_sorted ConversationRow.timestamp).
  - intros Hfew.
    assert (user_row env message sessionId o
            ∈ rev (select_desc cond ConversationRow.timestamp 10 table)) as Hin.
    { apply list_elem_of_In. apply -> in_rev. apply list_elem_of_In.
      unfold select_desc. rewrite take_ge.
      - apply elem_of_order_by_desc. apply list_elem_of_In, filter_In. split.
        + apply in_or_app. right. now left.
        + apply String.eqb_refl.
      - rewrite length_order_by_desc. unfold table. rewrite List.filter_app, length_app.
        simpl. unfold cond at 2. cbn [user_row ConversationRow.session_id].
        rewrite String.eqb_refl. simpl. fold cond. lia. }
    split; [exact Hin|now apply Hsaid].
  - intros Hlater.
    assert (user_row env message sessionId o
            ∈ rev (select_desc cond ConversationRow.timestamp 10 table)) as Hin.
    { apply list_elem_of_In. apply -> in_rev. apply list_elem_of_In.
      unfold select_desc, order_by_desc, table. rewrite List.filter_app. simpl.
      unfold cond at 2. cbn [user_row ConversationRow.session_id].
      rewrite String.eqb_refl. rewrite foldr_app. simpl.
      destruct (newest_stays_first ConversationRow.timestamp
                  (user_row env message sessionId o)
                  (List.filter cond (conversations o))) as [l Hl].
      { apply Forall_forall. intros r Hr. apply list_elem_of_In, filter_In in Hr as [Hr Hc].
        rewrite Forall_forall in Hlater. apply Hlater; [now apply list_elem_of_In|].
        now apply String.eqb_eq. }
      fold (user_row env message sessionId o). rewrite Hl. simpl. left. }
    split; [exact Hin|now apply Hsaid].
Qed.

Lemma processChat_request_history_witness :
  let rt := Reference.runtime in
  let env := Office.world AiRejects in
  let request := request_of rt env "Is checkout-v2 safe?" "session-1" Office.busy [] [] in
  length (conversations Office.busy) = 12
  /\ exists rows,
       map snd (messages request)
       = [systemPrompt rt (map FlagRow.object (feature_flags (agent Office.busy))) [] []]
         ++ map ConversationRow.content rows ++ ["Is checkout-v2 safe?"]
       /\ map ConversationRow.content rows
          = [ "message 04"; "message 05"; "message 06"; "message 07"; "message 08";
              "message 09"; "message 10"; "message 11"; "message 12";
              "Is checkout-v2 safe?" ].
Proof.
  cbv zeta. split; [reflexivity|].
  destruct (processChat_request_history Reference.runtime (Office.world AiRejects)
              "Is checkout-v2 safe?" "session-1" Office.busy [] [])
    as (rows & Hmessages & _).
  exists rows.
  apply (f_equal (map snd)) in Hmessages.
  rewrite !map_app, map_map in Hmessages. cbn [map snd] in Hmessages.
  split; [exact Hmessages|].
  assert (map snd
            (messages (request_of Reference.runtime (Office.world AiRejects)
                         "Is checkout-v2 safe?" "session-1" Office.busy [] []))
          = [systemPrompt Reference.runtime
               (map FlagRow.object (feature_flags (agent Office.busy))) [] []]
            ++ [ "message 04"; "message 05"; "message 06"; "message 07"; "message 08";
                 "message 09"; "message 10"; "message 11"; "message 12";
                 "Is checkout-v2 safe?" ]
            ++ ["Is checkout-v2 safe?"]) as Hrun by (vm_compute; reflexivity).
  rewrite Hrun in Hmessages.
  apply app_inv_head, app_inv_tail in Hmessages. now symmetry.
Defined.

Ltac framed :=
  match goal with
  | H : forall o' rows, _ |- only_conversations_of _ _ _ =>
      eapply H;
      [ reflexivity | reflexivity | reflexivity | reflexivity | reflexivity | reflexivity
      | reflexivity | reflexivity
      | cbn; first [ symmetry; apply app_nil_r | reflexivity | rewrite <- app_assoc; reflexivity ]
      | repeat constructor
      | simpl; lia ]
  end.

Lemma processChat_cases rt env (message sessionId : string) (o : Durable) :
  only_conversations_of sessionId o (left_behind (processChat rt env message sessionId o))
  /\ forall response o',
       processChat rt env message sessionId o = Resolved response o' ->
       ChatResponse.sessionId response = sessionId
       /\ ChatResponse.message response <> "".
Proof.
  assert (forall o' rows,
            feature_flags (agent o') = feature_flags (agent o) ->
            flag_changes (agent o') = flag_changes (agent o) ->
            impact_metrics (agent o') = impact_metrics (agent o) ->
            predictions (agent o') = predictions (agent o) ->
            anomalies (agent o') = anomalies (agent o) ->
            sessions (agent o') = sessions (agent o) ->
            sent (agent o') = sent (agent o) ->
            notices o' = notices o ->
            conversations o' = conversations o ++ rows ->
            Forall (fun r => ConversationRow.session_id r = sessionId) rows ->
            length rows <= 2 ->
            only_conversations_of sessionId o o') as Hframe.
  { intros. unfold only_conversations_of. repeat split; auto. eauto. }
  remember (processChat rt env message sessionId o) as r eqn:Hr.
  unfold processChat in Hr.
  rewrite bind_eval, lift_eval in Hr. unfold crypto_randomUUID at 1 in Hr.
  rewrite bind_eval, lift_eval in Hr. unfold Date_now at 1 in Hr.
  rewrite bind_eval, insert_conversation_eval in Hr.
  cbn [agent with_agent conversations draws with_draw ConversationRow.id] in Hr.
  destruct (existsb _ (conversations o)).
  { subst r. split; [|intros ? ? ?; discriminate]. cbn [left_behind].
    framed. }
  rewrite bind_eval in Hr. unfold whole at 1 in Hr.
  rewrite bind_eval, lift_eval in Hr.
  cbn [agent with_agent with_conversations] in Hr.
  pose proof (getAllPredictions_state rt (with_draw (with_draw (agent o)))) as HP.
  destruct (getAllPredictions rt (with_draw (with_draw (agent o)))) as [P s1|s1];
    cbn [final_state] in HP; subst s1.
  2: { subst r. split; [|intros ? ? ?; discriminate]. cbn [left_behind].
       framed. }
  rewrite bind_eval, lift_eval in Hr. cbn [agent with_agent] in Hr.
  pose proof (getRecentAnomalies_state rt (with_draw (with_draw (agent o)))) as HA.
  destruct (getRecentAnomalies rt (with_draw (with_draw (agent o)))) as [A s1|s1];
    cbn [final_state] in HA; subst s1.
  2: { subst r. split; [|intros ? ? ?; discriminate]. cbn [left_behind].
       framed. }
  unfold catching in Hr. rewrite bind_eval, lift_eval in Hr. unfold env_AI_run in Hr.
  cbn [agent with_agent] in Hr.
  destruct (AI_run env _ _) as [|response].
  { subst r. split.
    - cbn [left_behind mret D_ret].
      framed.
    - intros response o' [= <- _]. split; [reflexivity|discriminate]. }
  rewrite bind_eval, lift_eval in Hr. unfold crypto_randomUUID in Hr.
  rewrite bind_eval, lift_eval in Hr. unfold Date_now in Hr.
  rewrite bind_eval, insert_conversation_eval in Hr.
  cbn [agent with_agent conversations with_conversations draws with_draw ConversationRow.id]
    in Hr.
  destruct (existsb _ _).
  { subst r. split.
    - cbn [left_behind mret D_ret].
      framed.
    - intros r o' [= <- _]. split; [reflexivity|discriminate]. }
  subst r. split.
  - cbn [left_behind mret D_ret].
    framed.
  - intros r o' [= <- _]. split; [reflexivity|apply assistant_text_filled].
Qed.

(** X20. However it ends, [processChat] leaves the flags, the change log,
    the metrics, the predictions, the anomalies, the sessions and every frame
    sent as they were: it only appends to [conversations], at most two rows,
    all of the session it was called for. *)
Theorem processChat_writes_only_conversations rt env (message sessionId : string)
    (o : Durable) :
  let o' := left_behind (processChat rt env message sessionId o) in
  feature_flags (agent o') = feature_flags (agent o)
  /\ flag_changes (agent o') = flag_changes (agent o)
  /\ impact_metrics (agent o') = impact_metrics (agent o)
  /\ predictions (agent o') = predictions (agent o)
  /\ anomalies (agent o') = anomalies (agent o)
  /\ sessions (agent o') = sessions (agent o)
  /\ sent (agent o') = sent (agent o)
  /\ notices o' = notices o
  /\ exists rows,
       conversations o' = conversations o ++ rows
       /\ Forall (fun r => ConversationRow.session_id r = sessionId) rows
       /\ length rows <= 2.
Proof. apply processChat_cases. Qed.

(** X21. Whenever [handleChat] answers, it answers 200 with a non-empty
    message and a session id: the one of the request, or, when the request
    has none, the id drawn for it, under which the conversation can go
    on. *)
Theorem handleChat_answers_in_a_session rt env (message sessionId : string) (o o' : Durable)
    (reply : Reply) :
  handleChat rt env message sessionId o = Resolved reply o' ->
  code reply = 200%Z
  /\ exists response,
       content reply = chat_reply response
       /\ ChatResponse.sessionId response
          = (if String.eqb sessionId "" then randomUUID env (draws (agent o)) else sessionId)
       /\ ChatResponse.message response <> "".
Proof.
  unfold handleChat. rewrite bind_eval.
  destruct (String.eqb sessionId "").
  - rewrite lift_eval. unfold crypto_randomUUID. rewrite bind_eval.
    destruct (processChat rt env message _ _) as [response o1|o1] eqn:E; [|discriminate].
    intros [= <- _]. split; [reflexivity|]. exists response. split; [reflexivity|].
    exact (proj2 (processChat_cases _ _ _ _ _) response o1 E).
  - cbn [mret D_ret]. rewrite bind_eval.
    destruct (processChat rt env message _ _) as [response o1|o1] eqn:E; [|discriminate].
    intros [= <- _]. split; [reflexivity|]. exists response. split; [reflexivity|].
    exact (proj2 (processChat_cases _ _ _ _ _) response o1 E).
Qed.

Lemma handleChat_answers_in_a_session_witness :
  let rt := Reference.runtime in
  let env := Office.world AiRejects in
  exists reply o' response,
    handleChat rt env "Is checkout-v2 safe?" "" Office.opened = Resolved reply o'
    /\ content reply = chat_reply response
    /\ ChatResponse.sessionId response = "id-0".
Proof.
  cbv zeta.
  destruct (handleChat Reference.runtime (Office.world AiRejects) "Is checkout-v2 safe?" ""
              Office.opened) as [reply o'|o'] eqn:E; [|vm_compute in E; discriminate].
  destruct (handleChat_answers_in_a_session _ _ _ _ _ _ _ E)
    as (_ & response & Hcontent & Hsession & _).
  exists reply, o', response. repeat split; auto.
Defined.
